(** * Sales and prepaid-package engine of the back office

    A shallow embedding of the sales route handlers ([GET], [POST], [PUT] of
    [src/app/api/sales/route.ts]) and of the price calculator of the sales
    page ([calculateProgressivePrice], [handleSubmit] of
    [src/app/dashboard/sales/page.tsx]).

    Conventions of the embedding.
    - JavaScript numbers that carry money are exact rationals ([Q], compared
      with [==]); quantities are integers ([Z]).  Rounding of IEEE doubles and
      of the datastore's decimal columns is not modelled.
    - The discount values of a request are JSON numbers or JSON strings (a
      form input holds a string once it is typed in): [Js.jsnum].  The
      handlers pass such a value on as it is, so that [+] concatenates when
      an operand is a string; a column that receives it holds the value
      passed, and [Js.to_number] is the number it reads as.  A result that
      is not a number (NaN) is [None].  Whether the datastore accepts the text
      it is passed depends on the column types, which are in the schema.
    - The quantity of the form is a string too once it is typed in, but every
      use of it ([*], [-], [/], [<=], [>]) converts it: it is modelled as
      the integer it reads as.
    - Row identifiers (uuid strings in the repository) are opaque keys, here
      [nat]; a request field holding an identifier is an [option]: [None]
      stands for a missing, null or empty (falsy) value.
    - The relational tables are lists of rows in insertion order.  A
      transaction is modelled by keeping the state at BEGIN: ROLLBACK returns
      it, COMMIT returns the state reached.
    - The schema is not among the sources.  The constraints it may declare
      (keys, NOT NULL, checks) are not part of the handlers' model; where a
      property rests on keys they are a hypothesis of its theorem. *)

From Stdlib Require Import List ZArith QArith Qminmax String Ascii Bool Lia Lqa.
From Stdlib Require Import Permutation Setoid Morphisms.
Import ListNotations.

(** ** JavaScript helpers used by the handlers *)

Module Js.

(** [s.includes(pat)] *)
Definition includes (pat s : string) : bool :=
  match String.index 0 pat s with
  | Some _ => true
  | None => false
  end.

(** [c.toLowerCase()] on the ASCII letters; every other character is kept. *)
Definition lower_ascii (c : ascii) : ascii :=
  let n := nat_of_ascii c in
  if (65 <=? n)%nat && (n <=? 90)%nat then ascii_of_nat (n + 32) else c.

Fixpoint toLowerCase (s : string) : string :=
  match s with
  | EmptyString => EmptyString
  | String c r => String (lower_ascii c) (toLowerCase r)
  end.

(** Truthiness of an optional string: missing, null and the empty string are
    falsy. *)
Definition truthy_string (o : option string) : bool :=
  match o with
  | Some (String _ _) => true
  | _ => false
  end.

(** Truthiness of an optional identifier. *)
Definition truthy_id (o : option nat) : bool :=
  match o with
  | Some _ => true
  | None => false
  end.

(** [o === lit] for an optional string field. *)
Definition str_is (o : option string) (lit : string) : bool :=
  match o with
  | Some s => String.eqb s lit
  | None => false
  end.

(** [x > 0] on a number. *)
Definition positive (x : Q) : bool := negb (Qle_bool x 0).

(** A JSON value in a numeric field: a number or a string. *)
Inductive jsnum :=
| Num (q : Q)
| Text (s : string).

Definition digit (c : ascii) : option Z :=
  let n := nat_of_ascii c in
  if (48 <=? n)%nat && (n <=? 57)%nat then Some (Z.of_nat (n - 48)) else None.

(** The digits of a decimal literal, with at most one point: [seen] tells
    whether a digit has been read, [point] whether the point has. *)
Fixpoint unsigned (s : string) (seen : bool) (mantissa : Z) (scale : BinNums.positive)
    (point : bool) : option Q :=
  match s with
  | EmptyString => if seen then Some (mantissa # scale) else None
  | String c rest =>
      if Ascii.eqb c "." then
        if point then None else unsigned rest seen mantissa scale true
      else
        match digit c with
        | Some k =>
            unsigned rest true (10 * mantissa + k)
              (if point then 10 * scale else scale)%positive point
        | None => None
        end
  end.

(** [Number(s)] for the decimal literals: an optional sign, digits and at
    most one point; the empty string is 0.  [None] is NaN.  Exponents, radix
    prefixes, "Infinity" and surrounding blanks are not modelled: such a
    string is read as NaN. *)
Definition Number (s : string) : option Q :=
  match s with
  | EmptyString => Some 0
  | String c rest =>
      if Ascii.eqb c "-" then option_map Qopp (unsigned rest false 0 1 false)
      else if Ascii.eqb c "+" then unsigned rest false 0 1 false
      else unsigned s false 0 1 false
  end.

(** The number a value converts to where an operator needs one. *)
Definition to_number (v : jsnum) : option Q :=
  match v with
  | Num q => Some q
  | Text s => Number s
  end.

Fixpoint text_of_uint (u : Decimal.uint) : string :=
  match u with
  | Decimal.Nil => EmptyString
  | Decimal.D0 r => String "0" (text_of_uint r)
  | Decimal.D1 r => String "1" (text_of_uint r)
  | Decimal.D2 r => String "2" (text_of_uint r)
  | Decimal.D3 r => String "3" (text_of_uint r)
  | Decimal.D4 r => String "4" (text_of_uint r)
  | Decimal.D5 r => String "5" (text_of_uint r)
  | Decimal.D6 r => String "6" (text_of_uint r)
  | Decimal.D7 r => String "7" (text_of_uint r)
  | Decimal.D8 r => String "8" (text_of_uint r)
  | Decimal.D9 r => String "9" (text_of_uint r)
  end.

(** The digits after the point of [r / d] (with [r < d]), at most [n] of
    them, without trailing zeros. *)
Fixpoint fraction (n : nat) (r d : N) : string :=
  match n with
  | O => EmptyString
  | S n' =>
      if (r =? 0)%N then EmptyString
      else
        (text_of_uint (N.to_uint (10 * r / d))
         ++ fraction n' (10 * r mod d) d)%string
  end.

(** [String(x)] of a number: its decimal text, the fraction cut after 16
    digits. *)
Definition toString (x : Q) : string :=
  let n := Z.abs_N (Qnum x) in
  let d := Npos (Qden x) in
  let whole := text_of_uint (N.to_uint (n / d)) in
  let part := fraction 16 (n mod d) d in
  ((if (Qnum x <? 0)%Z then "-" else EmptyString)
   ++ whole
   ++ match part with
      | EmptyString => EmptyString
      | _ => String "." part
      end)%string.

Definition text_of (v : jsnum) : string :=
  match v with
  | Num q => toString q
  | Text s => s
  end.

(** [a + b]: the sum of two numbers; a concatenation as soon as one of the
    operands is a string. *)
Definition plus (a b : jsnum) : jsnum :=
  match a, b with
  | Num x, Num y => Num (x + y)
  | _, _ => Text (text_of a ++ text_of b)
  end.

(** [x - v] for a number [x]: [None] is NaN. *)
Definition minus (x : option Q) (v : jsnum) : option Q :=
  match x, to_number v with
  | Some a, Some b => Some (a - b)
  | _, _ => None
  end.

(** [v > 0] for an optional field: [undefined > 0] and [NaN > 0] are false. *)
Definition gt0 (o : option jsnum) : bool :=
  match o with
  | Some v =>
      match to_number v with
      | Some q => positive q
      | None => false
      end
  | None => false
  end.

(** [v || 0] for an optional field: the empty string and 0 are falsy. *)
Definition or0 (o : option jsnum) : jsnum :=
  match o with
  | Some (Num q) => Num q
  | Some (Text EmptyString) => Num 0
  | Some (Text s) => Text s
  | None => Num 0
  end.

(** [v / 100] where the code has already tested [v > 0]. *)
Definition percent (o : option jsnum) : Q :=
  match o with
  | Some v =>
      match to_number v with
      | Some q => q / 100
      | None => 0
      end
  | None => 0
  end.

(** The value [v] itself where the code has already tested [v > 0]. *)
Definition given (o : option jsnum) : jsnum :=
  match o with
  | Some v => v
  | None => Num 0
  end.

(** [x || dflt] on a number: zero is falsy. *)
Definition or_default (x : option Q) (dflt : Q) : Q :=
  match x with
  | Some v => if Qeq_bool v 0 then dflt else v
  | None => dflt
  end.

(** [a / b]. [None] stands for the non-finite results ([Infinity],
    [-Infinity], [NaN]) that JavaScript gives for a zero divisor; no
    exception is raised. *)
Definition div (a b : Q) : option Q :=
  if Qeq_bool b 0 then None else Some (a / b).

(** [a / b] where [a] may be NaN. *)
Definition over (a : option Q) (b : Q) : option Q :=
  match a with
  | Some x => div x b
  | None => None
  end.

End Js.

(** ** Tables *)

Definition ident := nat.
Bind Scope nat_scope with ident.

Record user_row := mk_user {
  user_id : ident;
  first_name : string;
  last_name : string;
  email : string;
  is_admin : bool
}.

Record client_row := mk_client {
  client_id : ident;
  client_name : string
}.

Record sale_row := mk_sale {
  sale_id : ident;
  sale_client_id : option ident;
  sale_attendant_id : ident;
  sale_date : nat;
  sale_observations : option string;
  sale_status : string;
  sale_payment_method : option string;
  sale_general_discount_type : option string;
  sale_general_discount_value : Js.jsnum;
  sale_subtotal : Q;
  sale_total_discount : Js.jsnum;
  sale_total : option Q;
  sale_confirmed_at : option nat;
  sale_cancelled_at : option nat
}.

Record item_row := mk_item {
  item_id : ident;
  item_sale_id : ident;
  item_product_id : option ident;
  item_product_name : string;
  item_quantity : Z;
  item_unit_price : Q;
  item_discount_type : option string;
  item_discount_value : Js.jsnum;
  item_subtotal : Q;
  item_discount_amount : Js.jsnum;
  item_total : option Q
}.

Record package_row := mk_package {
  pkg_id : ident;
  pkg_client_id : ident;
  pkg_service_id : ident;
  pkg_sale_id : ident;
  pkg_initial_quantity : Z;
  pkg_consumed_quantity : Z;
  pkg_available_quantity : Z;
  pkg_unit_price : option Q;
  pkg_total_paid : option Q;
  pkg_is_active : bool
}.

Record consumption_row := mk_consumption {
  cons_package_id : ident;
  cons_sale_id : ident;
  cons_quantity : Z
}.

Record Db := mk_db {
  users : list user_row;
  clients : list client_row;
  sales : list sale_row;
  sale_items : list item_row;
  client_packages : list package_row;
  package_consumptions : list consumption_row;
  next_id : ident
}.

(** ** Package ledger *)

Module Ledger.

Inductive ledger_error := NotFound | InsufficientBalance.

Definition debit (quantity : Z) (p : package_row) : package_row :=
  mk_package (pkg_id p) (pkg_client_id p) (pkg_service_id p) (pkg_sale_id p)
    (pkg_initial_quantity p)
    (pkg_consumed_quantity p + quantity)
    (pkg_available_quantity p - quantity)
    (pkg_unit_price p) (pkg_total_paid p) (pkg_is_active p).

Definition is_target (packageId : ident) (p : package_row) : bool :=
  (pkg_id p =? packageId)%nat && pkg_is_active p.

(** Modelled from the spec: the read-check-write that [consume_package]
    makes on the package row, in one pass over the table. *)
Fixpoint consume_row (packageId : ident) (quantity : Z)
    (rows : list package_row) : ledger_error + list package_row :=
  match rows with
  | [] => inl NotFound
  | p :: rest =>
      if is_target packageId p then
        if (pkg_available_quantity p <? quantity)%Z
        then inl InsufficientBalance
        else inr (debit quantity p :: rest)
      else
        match consume_row packageId quantity rest with
        | inl e => inl e
        | inr rest' => inr (p :: rest')
        end
  end.

(** Modelled from the spec: the stored function [consume_package] that
    [POST] calls is not among the sources.  It fails with InsufficientBalance
    if [quantity > availableQuantity], or NotFound if the package does not
    exist or is inactive; on success it increments consumedQuantity and
    decrements availableQuantity by [quantity], and records the linkage to
    the sale. *)
Definition consume_package (packageId saleId : ident) (quantity : Z)
    (d : Db) : ledger_error + Db :=
  match consume_row packageId quantity (client_packages d) with
  | inl e => inl e
  | inr rows =>
      inr (mk_db (users d) (clients d) (sales d) (sale_items d) rows
             (package_consumptions d ++ [mk_consumption packageId saleId quantity])
             (next_id d))
  end.

(** Modelled from the spec: the message of the error the stored function
    raises; its text is not among the sources. *)
Definition error_message (e : ledger_error) : string :=
  match e with
  | NotFound => "pacote nao encontrado ou inativo"
  | InsufficientBalance => "saldo insuficiente"
  end.

(** The row a consume is made against. *)
Definition lookup (packageId : ident) (d : Db) : option package_row :=
  find (is_target packageId) (client_packages d).

(** One consume call of a sequence: a failed call leaves the state as it
    was. *)
Record consume_call := mk_call {
  call_package : ident;
  call_sale : ident;
  call_quantity : Z
}.

Definition apply_call (d : Db) (c : consume_call) : Db :=
  match consume_package (call_package c) (call_sale c) (call_quantity c) d with
  | inl _ => d
  | inr d' => d'
  end.

(** The states reached after each call of a sequence. *)
Fixpoint states_after (calls : list consume_call) (d : Db) : list Db :=
  match calls with
  | [] => []
  | c :: rest => apply_call d c :: states_after rest (apply_call d c)
  end.

Definition balanced (p : package_row) : Prop :=
  (0 <= pkg_available_quantity p)%Z /\
  pkg_initial_quantity p = (pkg_consumed_quantity p + pkg_available_quantity p)%Z.

Definition ledger_ok (d : Db) : Prop := Forall balanced (client_packages d).

End Ledger.

(** ** The sales route: [src/app/api/sales/route.ts] *)

Module Route.

Import Js.

(** One element of the request's [items] array. The fields carry the types
    the TypeScript sources declare for them. *)
Record item_in := mk_item_in {
  productId : option ident;
  productName : string;
  quantity : Z;
  unitPrice : Q;
  calculatedSubtotal : option Q;
  discountType : option string;
  discountValue : option jsnum
}.

(** The JSON body; [POST] and [PUT] each destructure the fields they use. *)
Record body := mk_body {
  id : option ident;
  clientId : option ident;
  observations : option string;
  paymentMethod : option string;
  items : option (list item_in);
  generalDiscountType : option string;
  generalDiscountValue : option jsnum;
  saleType : option string;
  serviceId : option ident;
  packageId : option ident
}.

(** A sale of the [GET] response: the columns of the sale row (copied under
    camel-case names by the handler), the joined names and the sale's items. *)
Record formatted_sale := mk_formatted {
  fs_sale : sale_row;
  fs_clientName : string;
  fs_attendantName : string;
  fs_items : list item_row
}.

Inductive reply :=
| Listed (sales : list formatted_sale)
| Created (saleId : ident) (saleDate : nat) (total : option Q)
    (saleType : option string)
| Updated (total : option Q)
| Failed (status : nat) (message : string).

Definition status_of (r : reply) : nat :=
  match r with
  | Listed _ => 200
  | Created _ _ _ _ => 201
  | Updated _ => 200
  | Failed s _ => s
  end.

(** What [getTokenFromRequest] and [jwt.verify] make of a request: no token,
    a token that does not verify, or the user id a valid token was signed
    for. *)
Inductive credential :=
| Missing
| Invalid
| Signed (userId : ident).

(** [authenticateUser]: [inl] is the message of the error thrown. *)
Definition authenticateUser (token : credential) (d : Db) : string + user_row :=
  match token with
  | Missing => inl "Token de autenticacao nao informado"%string
  | Invalid => inl "Falha na autenticacao"%string
  | Signed userId =>
      match filter (fun u => (user_id u =? userId)%nat) (users d) with
      | user :: _ => inr user
      | [] => inl "Falha na autenticacao"%string
      end
  end.

(** The status the outer [catch] of [POST] and [PUT] gives a message. *)
Definition catch_status (message : string) : nat :=
  if includes "autenticacao" message then 401 else 400.

(** The same for [GET]. *)
Definition catch_status_GET (message : string) : nat :=
  if includes "autenticacao" message then 401 else 500.

(** [x || null] on an optional string. *)
Definition or_null (o : option string) : option string :=
  if truthy_string o then o else None.

(** *** GET *)

Definition where_clause (user : user_row) (s : sale_row) : bool :=
  if is_admin user then true else (sale_attendant_id s =? user_id user)%nat.

Definition joins_client (s : sale_row) (c : client_row) : bool :=
  match sale_client_id s with
  | Some k => (k =? client_id c)%nat
  | None => false
  end.

Definition joins_user (s : sale_row) (u : user_row) : bool :=
  (sale_attendant_id s =? user_id u)%nat.

(** [FROM sales s JOIN clients c ON ... JOIN users u ON ... WHERE ...] *)
Definition joined (user : user_row) (d : Db)
  : list (sale_row * client_row * user_row) :=
  flat_map (fun s =>
    flat_map (fun c =>
      map (fun u => (s, c, u)) (filter (joins_user s) (users d)))
      (filter (joins_client s) (clients d)))
    (filter (where_clause user) (sales d)).

(** [ORDER BY s.sale_date DESC], as a stable insertion sort. *)
Fixpoint insert_by_date (r : sale_row * client_row * user_row)
    (l : list (sale_row * client_row * user_row)) :=
  match l with
  | [] => [r]
  | r' :: rest =>
      if (sale_date (fst (fst r')) <=? sale_date (fst (fst r)))%nat
      then r :: r' :: rest
      else r' :: insert_by_date r rest
  end.

Definition order_by_date_desc (l : list (sale_row * client_row * user_row)) :=
  fold_right insert_by_date [] l.

Definition items_of (saleId : ident) (d : Db) : list item_row :=
  filter (fun it => (item_sale_id it =? saleId)%nat) (sale_items d).

Definition format (d : Db) (r : sale_row * client_row * user_row) : formatted_sale :=
  let '(s, c, u) := r in
  mk_formatted s (client_name c)
    (first_name u ++ " " ++ last_name u)
    (items_of (sale_id s) d).

Definition GET (token : credential) (d : Db) : reply :=
  match authenticateUser token d with
  | inl message => Failed (catch_status_GET message) message
  | inr user => Listed (map (format d) (order_by_date_desc (joined user d)))
  end.

(** *** The item loop shared, line for line, by [POST] and [PUT] *)

Definition line_subtotal (it : item_in) : Q :=
  match calculatedSubtotal it with
  | Some c => c
  | None => inject_Z (quantity it) * unitPrice it
  end.

(** The discount of an amount, as computed for an item and again for the
    general discount: a percentage is a number; a fixed discount is the
    value of the request itself, number or string. *)
Definition discount_amount (type : option string) (value : option jsnum)
    (base : Q) : jsnum :=
  if str_is type "percentage" && gt0 value then Num (base * percent value)
  else if str_is type "fixed" && gt0 value then given value
  else Num 0.

Record loop_state := mk_loop {
  loop_db : Db;
  totalSubtotal : Q;
  totalDiscountAmount : jsnum
}.

Definition insert_sale_item (d : Db) (saleId : ident) (it : item_in)
    (subtotal : Q) (discountAmount : jsnum) (itemTotal : option Q) : Db :=
  mk_db (users d) (clients d) (sales d)
    (sale_items d ++
       [mk_item (next_id d) saleId (productId it) (productName it)
          (quantity it) (unitPrice it) (or_null (discountType it))
          (or0 (discountValue it)) subtotal discountAmount itemTotal])
    (client_packages d) (package_consumptions d) (S (next_id d)).

Definition loop_body (saleId : ident) (a : loop_state) (it : item_in) : loop_state :=
  let subtotal := line_subtotal it in
  let discountAmount := discount_amount (discountType it) (discountValue it) subtotal in
  let itemTotal := minus (Some subtotal) discountAmount in
  mk_loop (insert_sale_item (loop_db a) saleId it subtotal discountAmount itemTotal)
    (totalSubtotal a + subtotal)
    (plus (totalDiscountAmount a) discountAmount).

Definition insert_items (saleId : ident) (its : list item_in) (d : Db) : loop_state :=
  fold_left (loop_body saleId) its (mk_loop d 0 (Num 0)).

(** [UPDATE sales SET subtotal = $1, total_discount = $2, total = $3 WHERE id = $4] *)
Definition set_totals (subtotal : Q) (discount : jsnum) (total : option Q)
    (s : sale_row) : sale_row :=
  mk_sale (sale_id s) (sale_client_id s) (sale_attendant_id s) (sale_date s)
    (sale_observations s) (sale_status s) (sale_payment_method s)
    (sale_general_discount_type s) (sale_general_discount_value s)
    subtotal discount total (sale_confirmed_at s) (sale_cancelled_at s).

Definition update_sales (saleId : ident) (f : sale_row -> sale_row) (d : Db) : Db :=
  mk_db (users d) (clients d)
    (map (fun s => if (sale_id s =? saleId)%nat then f s else s) (sales d))
    (sale_items d) (client_packages d) (package_consumptions d) (next_id d).

(** The item loop, the general discount and the update of the sale's totals:
    the lines from [let totalSubtotal = 0] to the [UPDATE sales SET subtotal]
    statement, which [POST] and [PUT] have in common.  Returns [finalTotal]
    and the state reached. *)
Definition write_items_and_totals (saleId : ident) (its : list item_in)
    (b : body) (d : Db) : option Q * Db :=
  let a := insert_items saleId its d in
  let generalDiscountAmount :=
    discount_amount (generalDiscountType b) (generalDiscountValue b)
      (totalSubtotal a) in
  let finalTotal :=
    minus (minus (Some (totalSubtotal a)) (totalDiscountAmount a))
      generalDiscountAmount in
  (finalTotal,
   update_sales saleId
     (set_totals (totalSubtotal a)
        (plus (totalDiscountAmount a) generalDiscountAmount) finalTotal)
     (loop_db a)).

(** *** POST *)

Definition insert_sale (d : Db) (client : ident) (user : user_row) (now : nat)
    (b : body) : Db :=
  mk_db (users d) (clients d)
    (sales d ++
       [mk_sale (next_id d) (Some client) (user_id user) now
          (or_null (observations b)) "aberta" (paymentMethod b)
          (or_null (generalDiscountType b)) (or0 (generalDiscountValue b))
          0 (Num 0) (Some 0) None None])
    (sale_items d) (client_packages d) (package_consumptions d) (S (next_id d)).

Definition insert_package (d : Db) (client service saleId : ident)
    (totalQuantity : Z) (unitPricePackage : option Q) (totalPaid : option Q)
  : Db :=
  mk_db (users d) (clients d) (sales d) (sale_items d)
    (client_packages d ++
       [mk_package (next_id d) client service saleId totalQuantity 0
          totalQuantity unitPricePackage totalPaid true])
    (package_consumptions d) (S (next_id d)).

(** The part of [POST] that depends on the sale type; [inl] is the message of
    the error thrown. *)
Definition by_sale_type (b : body) (client saleId : ident) (firstItem : item_in)
    (finalTotal : option Q) (d : Db) : string + Db :=
  match str_is (saleType b) "02", serviceId b with
  | true, Some service =>
      let totalQuantity := quantity firstItem in
      let totalPaid := finalTotal in
      let unitPricePackage := over totalPaid (inject_Z totalQuantity) in
      inr (insert_package d client service saleId totalQuantity
             unitPricePackage totalPaid)
  | _, _ =>
      match str_is (saleType b) "03", packageId b with
      | true, Some package =>
          let quantityToConsume := quantity firstItem in
          match Ledger.consume_package package saleId quantityToConsume d with
          | inr d' => inr d'
          | inl e =>
              inl ("Erro ao consumir pacote: " ++ Ledger.error_message e)%string
          end
      | _, _ => inr d
      end
  end.

Definition POST (token : credential) (b : body) (now : nat) (d : Db)
  : reply * Db :=
  match authenticateUser token d with
  | inl message => (Failed (catch_status message) message, d)
  | inr user =>
    match clientId b with
    | None => (Failed 400 "Cliente e obrigatorio", d)
    | Some client =>
      if negb (truthy_string (paymentMethod b))
      then (Failed 400 "Metodo de pagamento e obrigatorio", d)
      else
        match items b with
        | None | Some [] => (Failed 400 "A venda deve ter pelo menos um item", d)
        | Some ((firstItem :: _) as its) =>
          if str_is (saleType b) "03" && negb (truthy_id (packageId b))
          then (Failed 400 "Package ID obrigatorio para consumo de pacote", d)
          else
            (* BEGIN *)
            let saleId := next_id d in
            let saleDate := now in
            let '(finalTotal, d2) :=
              write_items_and_totals saleId its b
                (insert_sale d client user now b) in
            match by_sale_type b client saleId firstItem finalTotal d2 with
            | inr d3 => (* COMMIT *)
                (Created saleId saleDate finalTotal (saleType b), d3)
            | inl message => (* ROLLBACK *)
                (Failed (catch_status message) message, d)
            end
        end
    end
  end.

(** *** PUT *)

(** [UPDATE sales SET client_id = $1, observations = $2, payment_method = $3,
    general_discount_type = $4, general_discount_value = $5 WHERE id = $6] *)
Definition set_header (b : body) (s : sale_row) : sale_row :=
  mk_sale (sale_id s) (clientId b) (sale_attendant_id s) (sale_date s)
    (or_null (observations b)) (sale_status s) (paymentMethod b)
    (or_null (generalDiscountType b)) (or0 (generalDiscountValue b))
    (sale_subtotal s) (sale_total_discount s) (sale_total s)
    (sale_confirmed_at s) (sale_cancelled_at s).

(** [DELETE FROM sale_items WHERE sale_id = $1] *)
Definition delete_items (saleId : ident) (d : Db) : Db :=
  mk_db (users d) (clients d) (sales d)
    (filter (fun it => negb (item_sale_id it =? saleId)%nat) (sale_items d))
    (client_packages d) (package_consumptions d) (next_id d).

Definition PUT (token : credential) (b : body) (d : Db) : reply * Db :=
  match authenticateUser token d with
  | inl message => (Failed (catch_status message) message, d)
  | inr user =>
    match id b with
    | None => (Failed 400 "ID da venda e obrigatorio", d)
    | Some saleId =>
      match filter (fun s => (sale_id s =? saleId)%nat) (sales d) with
      | [] => (Failed 404 "Venda nao encontrada", d)
      | sale :: _ =>
        if negb (String.eqb (sale_status sale) "aberta")
        then (Failed 400 "Apenas vendas abertas podem ser editadas", d)
        else if negb (is_admin user)
                && negb (sale_attendant_id sale =? user_id user)%nat
        then (Failed 403 "Voce nao tem permissao para editar esta venda", d)
        else
          (* BEGIN *)
          let d1 := delete_items saleId (update_sales saleId (set_header b) d) in
          match items b with
          | None => (* [for (const item of undefined)] throws; ROLLBACK *)
              let message := "items is not iterable"%string in
              (Failed (catch_status message) message, d)
          | Some its =>
              let '(finalTotal, d2) := write_items_and_totals saleId its b d1 in
              (* COMMIT *)
              (Updated finalTotal, d2)
          end
      end
    end
  end.

End Route.

(** ** The sales page: [src/app/dashboard/sales/page.tsx] *)

Module Page.

Import Js.

Record PriceRange := mk_range {
  range_saleType : string;
  minQuantity : Z;
  maxQuantity : option Z;
  range_unitPrice : Q
}.

Record Service := mk_service {
  service_id : ident;
  service_name : string;
  basePrice : Q;
  priceRanges : list PriceRange
}.

Record ClientPackage := mk_client_package {
  cp_id : ident;
  cp_clientId : ident;
  cp_serviceId : ident;
  cp_serviceName : string;
  availableQuantity : Z;
  cp_unitPrice : Q
}.

Record FormData := mk_form {
  form_clientId : option ident;
  form_serviceId : option ident;
  form_saleType : string;
  form_quantity : Z;
  form_discountType : string;
  form_discountValue : jsnum;
  form_observations : string;
  form_paymentMethod : string;
  form_packageId : option ident
}.

(** [initialForm]: the discount is the number 0 until it is typed in. *)
Definition initialForm : FormData :=
  mk_form None None "01" 1 "percentage" (Num 0) EmptyString "dinheiro" None.

(** [handleChange] on the input named [discountValue]: the form keeps the
    text of the input. *)
Definition handleChange_discountValue (value : string) (f : FormData)
  : FormData :=
  mk_form (form_clientId f) (form_serviceId f) (form_saleType f)
    (form_quantity f) (form_discountType f) (Text value)
    (form_observations f) (form_paymentMethod f) (form_packageId f).

(** [.sort((a, b) => a.minQuantity - b.minQuantity)]: a stable sort. *)
Fixpoint insert_range (r : PriceRange) (l : list PriceRange) : list PriceRange :=
  match l with
  | [] => [r]
  | r' :: rest =>
      if (minQuantity r <=? minQuantity r')%Z
      then r :: r' :: rest
      else r' :: insert_range r rest
  end.

Definition sort_by_minQuantity (l : list PriceRange) : list PriceRange :=
  fold_right insert_range [] l.

(** The ranges of the sale type, or those of type "01" when there are none. *)
Definition ranges_for (saleType : string) (ranges : list PriceRange) : list PriceRange :=
  match sort_by_minQuantity
          (filter (fun r => String.eqb (range_saleType r) saleType) ranges) with
  | [] => sort_by_minQuantity
            (filter (fun r => String.eqb (range_saleType r) "01") ranges)
  | l => l
  end.

Definition contains (qty : Z) (r : PriceRange) : bool :=
  (minQuantity r <=? qty)%Z &&
  match maxQuantity r with
  | None => true
  | Some m => (qty <=? m)%Z
  end.

(** [applicableRanges[i]?.unitPrice || dflt] *)
Definition rate_or (l : list PriceRange) (i : nat) (dflt : Q) : Q :=
  or_default (option_map range_unitPrice (nth_error l i)) dflt.

Definition calculateProgressivePrice (saleType : string) (qty : Z)
    (serviceName : string) (ranges : list PriceRange) : Q :=
  let applicableRanges := ranges_for saleType ranges in
  match applicableRanges with
  | [] => 0
  | _ =>
    let isReclamacao := includes "reclamacao" (toLowerCase serviceName) in
    if isReclamacao then
      if (qty <=? 10)%Z then
        inject_Z qty * rate_or applicableRanges 0 40
      else
        let firstRangePrice := rate_or applicableRanges 0 40 in
        let secondRangePrice := rate_or applicableRanges 1 15 in
        inject_Z (qty - 10) * secondRangePrice + 10 * firstRangePrice
    else
      match find (contains qty) applicableRanges with
      | Some range => inject_Z qty * range_unitPrice range
      | None => 0
      end
  end.

Definition selectedService (services : list Service) (f : FormData) : option Service :=
  match form_serviceId f with
  | Some k => find (fun s => (service_id s =? k)%nat) services
  | None => None
  end.

Definition selectedPackage (clientPackages : list ClientPackage) (f : FormData)
  : option ClientPackage :=
  if negb (String.eqb (form_saleType f) "03") then None
  else match form_packageId f with
       | Some k => find (fun p => (cp_id p =? k)%nat) clientPackages
       | None => None
       end.

(** The total previewed in the form; [None] is NaN.  The discount is used
    under [-] only, which converts it: it is kept as the number it reads
    as. *)
Definition calculateTotal (services : list Service)
    (clientPackages : list ClientPackage) (f : FormData) : option Q :=
  match String.eqb (form_saleType f) "03", selectedPackage clientPackages f with
  | true, Some package =>
      Some (cp_unitPrice package * inject_Z (form_quantity f))
  | _, _ =>
      match selectedService services f with
      | None => Some 0
      | Some service =>
          let subtotal :=
            calculateProgressivePrice (form_saleType f) (form_quantity f)
              (service_name service) (priceRanges service) in
          let discount :=
            if String.eqb (form_discountType f) "percentage"
            then option_map (fun v => subtotal * (v / 100))
                   (to_number (form_discountValue f))
            else to_number (form_discountValue f) in
          option_map (fun x => Qmax 0 (subtotal - x)) discount
      end
  end.

(** The unit price [handleSubmit] sends for sale types "01" and "02". *)
Definition calculatedUnitPrice (f : FormData) (service : Service) : Q :=
  let relevantRanges := ranges_for (form_saleType f) (priceRanges service) in
  let price :=
    match relevantRanges with
    | [] => basePrice service
    | _ =>
        match find (contains (form_quantity f)) relevantRanges with
        | Some applicableRange => range_unitPrice applicableRange
        | None => range_unitPrice (last relevantRanges (mk_range "01" 0 None 0))
        end
    end in
  if Qle_bool price 0 then 1 else price.

Definition payload (f : FormData) (client : option ident) (name : string)
    (price subtotal : Q) (service package : option ident) : Route.body :=
  Route.mk_body None client (Some (form_observations f))
    (Some (form_paymentMethod f))
    (Some
       [Route.mk_item_in None name (form_quantity f) price (Some subtotal)
          (if String.eqb (form_saleType f) "03" then Some "percentage"%string
           else Some (form_discountType f))
          (if String.eqb (form_saleType f) "03" then Some (Num 0)
           else Some (form_discountValue f))])
    (Some "percentage"%string) (Some (Num 0)) (Some (form_saleType f))
    service package.

(** [handleSubmit] up to the request it sends: [inl] is the message shown
    when the form is refused. *)
Definition handleSubmit (services : list Service)
    (clientPackages : list ClientPackage) (token : option ident) (f : FormData)
  : string + Route.body :=
  let package := selectedPackage clientPackages f in
  let service := selectedService services f in
  let checked : option string :=
    if String.eqb (form_saleType f) "03" then
      match form_packageId f, package with
      | None, _ => Some "Selecione um pacote para consumir"%string
      | Some _, None => Some "Pacote nao encontrado"%string
      | Some _, Some p =>
          if (availableQuantity p <? form_quantity f)%Z
          then Some "Quantidade solicitada excede o saldo disponivel"%string
          else None
      end
    else
      match form_serviceId f, service with
      | None, _ => Some "Selecione um servico"%string
      | Some _, None => Some "Servico nao encontrado"%string
      | Some _, Some _ => None
      end in
  match checked with
  | Some message => inl message
  | None =>
    if (form_quantity f <=? 0)%Z
    then inl "Quantidade deve ser maior que zero"%string
    else
      match token with
      | None => inl "Sessao expirada. Faca login novamente."%string
      | Some _ =>
        if String.eqb (form_saleType f) "03" then
          match package with
          | Some p =>
              inr (payload f (Some (cp_clientId p)) (cp_serviceName p)
                     (cp_unitPrice p)
                     (cp_unitPrice p * inject_Z (form_quantity f))
                     (Some (cp_serviceId p)) (form_packageId f))
          | None => inl "selectedPackage is null"%string
          end
        else
          match service with
          | Some s =>
              inr (payload f (form_clientId f) (service_name s)
                     (calculatedUnitPrice f s)
                     (calculateProgressivePrice (form_saleType f)
                        (form_quantity f) (service_name s) (priceRanges s))
                     (if String.eqb (form_saleType f) "02"
                      then form_serviceId f else None)
                     None)
          | None => inl "selectedService is undefined"%string
          end
      end
  end.

End Page.

(** ** Notions used in the statements *)

Module Notions.

Import Route.

Definition Qsum (l : list Q) : Q := fold_right Qplus 0 l.

(** The value [v] reads as the number [q]. *)
Definition reads (v : Js.jsnum) (q : Q) : Prop :=
  match Js.to_number v with
  | Some x => x == q
  | None => False
  end.

(** The result [t] is the number [q] (and not NaN). *)
Definition is_number (t : option Q) (q : Q) : Prop :=
  match t with
  | Some x => x == q
  | None => False
  end.

(** The number a value reads as, for the sums of the statements; 0 for a
    value that reads as no number. *)
Definition amount (v : Js.jsnum) : Q :=
  match Js.to_number v with
  | Some x => x
  | None => 0
  end.

(** The field is absent or holds a JSON number. *)
Definition is_num (o : option Js.jsnum) : Prop :=
  match o with
  | Some (Js.Text _) => False
  | _ => True
  end.

(** The row the item loop inserts for a request item, under the key [n]. *)
Definition row_of (saleId n : ident) (it : item_in) : item_row :=
  let subtotal := line_subtotal it in
  let discountAmount :=
    discount_amount (discountType it) (discountValue it) subtotal in
  mk_item n saleId (productId it) (productName it) (quantity it)
    (unitPrice it) (or_null (discountType it)) (Js.or0 (discountValue it))
    subtotal discountAmount (Js.minus (Some subtotal) discountAmount).

Fixpoint rows_of (saleId n : ident) (its : list item_in) : list item_row :=
  match its with
  | [] => []
  | it :: rest => row_of saleId n it :: rows_of saleId (S n) rest
  end.

(** The discount the item loop computes for a request item. *)
Definition line_discount (it : item_in) : Js.jsnum :=
  discount_amount (discountType it) (discountValue it) (line_subtotal it).

(** The values the handler's accumulators hold after the item loop, the
    general discount and [finalTotal]. *)
Definition loop_subtotal (its : list item_in) : Q :=
  fold_left Qplus (map line_subtotal its) 0.

Definition loop_discount (its : list item_in) : Js.jsnum :=
  fold_left Js.plus (map line_discount its) (Js.Num 0).

Definition general_discount (b : body) (its : list item_in) : Js.jsnum :=
  discount_amount (generalDiscountType b) (generalDiscountValue b)
    (loop_subtotal its).

Definition final_total (b : body) (its : list item_in) : option Q :=
  Js.minus (Js.minus (Some (loop_subtotal its)) (loop_discount its))
    (general_discount b its).

(** The value the handler passes for the [total_discount] column. *)
Definition total_discount_written (b : body) (its : list item_in) : Js.jsnum :=
  Js.plus (loop_discount its) (general_discount b its).

(** Every discount value of the request is absent or a JSON number, and
    the general discount is not negative. *)
Definition numeric_discounts (b : body) (its : list item_in) : Prop :=
  Forall (fun it => is_num (discountValue it)) its /\
  is_num (generalDiscountValue b) /\
  0 <= amount (Js.or0 (generalDiscountValue b)).

(** Modelled from the spec: the amount a discount takes off [base], in the
    words of the specification, "Percentage: amount x value/100.  Fixed:
    value flat", before any cap. *)
Definition discount_of (type : option string) (value base : Q) : Q :=
  if Js.str_is type "percentage" then base * value / 100
  else if Js.str_is type "fixed" then value
  else 0.

(** No item row refers to the key the next inserted row will get (keys are
    generated by the datastore, and an item refers to an existing sale). *)
Definition fresh (d : Db) : Prop :=
  forall it, In it (sale_items d) -> item_sale_id it <> next_id d.

(** The subtotal a stored item row is to carry for a request item: the
    caller's [calculatedSubtotal] when there is one, quantity times unit
    price otherwise. *)
Definition carries_subtotal (it : item_in) (row : item_row) : Prop :=
  match calculatedSubtotal it with
  | Some c => item_subtotal row = c
  | None => item_subtotal row = inject_Z (quantity it) * unitPrice it
  end.

(** A stored sale reconciles: its subtotal is the sum of the subtotals of
    its item rows, its total discount reads as the sum of the discount
    amounts of its item rows plus the amount of its general discount, and
    its total is its subtotal minus its total discount. *)
Definition reconciled (d : Db) (s : sale_row) : Prop :=
  sale_subtotal s == Qsum (map item_subtotal (items_of (sale_id s) d)) /\
  reads (sale_total_discount s)
    (Qsum (map (fun r => amount (item_discount_amount r))
             (items_of (sale_id s) d))
     + discount_of (sale_general_discount_type s)
         (amount (sale_general_discount_value s)) (sale_subtotal s)) /\
  is_number (sale_total s)
    (sale_subtotal s - amount (sale_total_discount s)).

(** The sale [saleId] is stored in [d], and every row stored for it carries
    the sum of the item subtotals, the total discount the handler has
    passed and [total]; it reconciles when the discount values of the
    request are numbers. *)
Definition stored_totals (b : body) (saleId : ident) (its : list item_in)
    (total : option Q) (d : Db) : Prop :=
  (exists s, In s (sales d) /\ sale_id s = saleId) /\
  (forall s, In s (sales d) -> sale_id s = saleId ->
     sale_subtotal s == Qsum (map item_subtotal (items_of saleId d)) /\
     sale_total_discount s = total_discount_written b its /\
     sale_total s = total /\
     (numeric_discounts b its -> reconciled d s)).

(** The sales of a reply. *)
Definition listed (r : reply) : list formatted_sale :=
  match r with
  | Listed l => l
  | _ => []
  end.

(** The rows [GET]'s two joins give for one sale. *)
Definition joined_for (d : Db) (s : sale_row)
  : list (sale_row * client_row * user_row) :=
  flat_map (fun c =>
    map (fun u => (s, c, u)) (filter (joins_user s) (users d)))
    (filter (joins_client s) (clients d)).

(** Primary and foreign keys of the tables [GET] joins. *)
Definition referential_integrity (d : Db) : Prop :=
  NoDup (map client_id (clients d)) /\
  NoDup (map user_id (users d)) /\
  (forall s, In s (sales d) ->
     (exists c, In c (clients d) /\ sale_client_id s = Some (client_id c)) /\
     (exists u, In u (users d) /\ sale_attendant_id s = user_id u)).

End Notions.

(** ** Sample data *)

Module Sample.

(** A package of ten credits, as created by a package sale. *)
Definition ten_credits : Db :=
  mk_db [] [] [] []
    [mk_package 7 1 2 3 10 0 10 (Some (50 # 1)) (Some (500 # 1)) true] [] 8.

Definition two_calls : list Ledger.consume_call :=
  [Ledger.mk_call 7 4 3; Ledger.mk_call 7 5 8].

(** A shop with an attendant (1), an administrator (2), a second attendant
    (3) and one client. *)
Definition shop : Db :=
  mk_db
    [mk_user 1 "Ana" "Lima" "ana@shop" false;
     mk_user 2 "Rui" "Melo" "rui@shop" true;
     mk_user 3 "Eva" "Reis" "eva@shop" false]
    [mk_client 1 "Cliente"] [] [] [] [] 1.

(** An order of two lines: one priced by the page (15 units for 475, ten per
    cent off), one priced by the server (2 units at 30, 5 off); 20 off the
    whole. *)
Definition order : Route.body :=
  Route.mk_body (Some 1%nat) (Some 1%nat) None (Some "pix"%string)
    (Some
       [Route.mk_item_in None "Reclamacao" 15 40 (Some 475)
          (Some "percentage"%string) (Some (Js.Num 10));
        Route.mk_item_in None "Atraso" 2 30 None
          (Some "fixed"%string) (Some (Js.Num 5))])
    (Some "fixed"%string) (Some (Js.Num 20)) (Some "01"%string) None None.

(** The shop once attendant 1 has created the order (sale 1). *)
Definition shop_open : Db := snd (Route.POST (Route.Signed 1) order 0 shop).

(** The shop once the order has been sent again as an update of sale 1. *)
Definition shop_edited : Db := snd (Route.PUT (Route.Signed 1) order shop_open).

(** The same update for a sale that does not exist. *)
Definition order_unknown : Route.body :=
  Route.mk_body (Some 9%nat) (Some 1%nat) None (Some "pix"%string)
    (Route.items order) None None None None None.

(** The shop once sale 1 has been confirmed. *)
Definition shop_confirmed : Db :=
  Route.update_sales 1
    (fun s =>
       mk_sale (sale_id s) (sale_client_id s) (sale_attendant_id s)
         (sale_date s) (sale_observations s) "confirmada"
         (sale_payment_method s) (sale_general_discount_type s)
         (sale_general_discount_value s) (sale_subtotal s)
         (sale_total_discount s) (sale_total s) (Some 1%nat) None)
    shop_open.

(** A package sale: ten credits at 50, for service 5. *)
Definition package_line (quantity : Z) : Route.item_in :=
  Route.mk_item_in None "Atraso" quantity 50 None None None.

Definition order_package (quantity : Z) (service : option ident) : Route.body :=
  Route.mk_body None (Some 1%nat) None (Some "pix"%string)
    (Some [package_line quantity])
    None None (Some "02"%string) service None.

(** The shop with the package of ten credits, and a consumption of three of
    them that asks for ten per cent off. *)
Definition shop_with_package : Db :=
  mk_db (users shop) (clients shop) [] [] (client_packages ten_credits) [] 8.

Definition order_consumption : Route.body :=
  Route.mk_body None (Some 1%nat) None (Some "pix"%string)
    (Some
       [Route.mk_item_in None "Atraso" 3 50 (Some 150)
          (Some "percentage"%string) (Some (Js.Num 10))])
    None None (Some "03"%string) (Some 2%nat) (Some 7%nat).

(** A consumption of [n] credits of package 7, as the page sends it. *)
Definition consume (n : Z) : Route.body :=
  Route.mk_body None (Some 1%nat) None (Some "pix"%string)
    (Some
       [Route.mk_item_in None "Atraso" n 50 (Some (50 * inject_Z n))
          (Some "percentage"%string) (Some (Js.Num 0))])
    (Some "percentage"%string) (Some (Js.Num 0)) (Some "03"%string) (Some 2%nat)
    (Some 7%nat).

(** The page's catalogue: one service at 10 a unit, and the progressive
    service of the specification's scenario. *)
Definition catalogue : list Page.Service :=
  [Page.mk_service 5 "Atraso" 10 [Page.mk_range "01" 1 None 10];
   Page.mk_service 6 "Reclamacao" 40
     [Page.mk_range "01" 11 None 15; Page.mk_range "01" 1 (Some 10%Z) 40]].

(** A form asking for one unit of service 5 with a fixed discount of 20. *)
Definition form_overdiscounted : Page.FormData :=
  Page.mk_form (Some 1%nat) (Some 5%nat) "01" 1 "fixed" (Js.Num 20) EmptyString
    "pix" None.

(** A request body sent again as the update of sale [n]. *)
Definition as_update (n : ident) (b : Route.body) : Route.body :=
  Route.mk_body (Some n) (Route.clientId b) (Route.observations b)
    (Route.paymentMethod b) (Route.items b) (Route.generalDiscountType b)
    (Route.generalDiscountValue b) (Route.saleType b) (Route.serviceId b)
    (Route.packageId b).

(** The packages the page knows of, a form consuming three credits of
    package 7, and the request the page sends for it. *)
Definition wallet : list Page.ClientPackage :=
  [Page.mk_client_package 7 1 2 "Atraso" 10 50].

Definition form_consumption : Page.FormData :=
  Page.mk_form (Some 1%nat) None "03" 3 "percentage" (Js.Num 10) EmptyString
    "pix" (Some 7%nat).

Definition sent_consumption : Route.body :=
  match Page.handleSubmit catalogue wallet (Some 1%nat) form_consumption with
  | inr b => b
  | inl _ => order_consumption
  end.

(** The shop once attendant 3 has created the same order later (sale 4). *)
Definition shop_busy : Db := snd (Route.POST (Route.Signed 3) order 5 shop_open).

(** The tiers of the specification's scenario, as the page receives them. *)
Definition complaint_tiers : list Page.PriceRange :=
  [Page.mk_range "01" 11 None 15; Page.mk_range "01" 1 (Some 10%Z) 40].

End Sample.

From Stdlib Require Import Qround.

(** ** The request's token: [getTokenFromRequest] of the route files *)

Module Request.

(** What the handlers read of a request: the [token] cookie and the
    [authorization] header. *)
Record request := mk_request {
  cookie_token : option string;
  authorization : option string
}.

(** [s.split(" ")] *)
Fixpoint split_space (s : string) : list string :=
  match s with
  | EmptyString => [EmptyString]
  | String c rest =>
      if Ascii.eqb c " " then EmptyString :: split_space rest
      else
        match split_space rest with
        | [] => [String c EmptyString]
        | w :: ws => String c w :: ws
        end
  end.

Definition getTokenFromRequest (r : request) : option string :=
  let cookieToken := cookie_token r in
  if Js.truthy_string cookieToken then cookieToken
  else
    match authorization r with
    | Some authHeader =>
        if Js.truthy_string (Some authHeader)
           && String.prefix "Bearer " authHeader
        then nth_error (split_space authHeader) 1
        else None
    | None => None
    end.

(** The header the pages send: [`Bearer ${token}`]. *)
Definition bearer (token : string) : string := ("Bearer " ++ token)%string.

Fixpoint has_space (s : string) : bool :=
  match s with
  | EmptyString => false
  | String c rest => Ascii.eqb c " " || has_space rest
  end.

End Request.

(** ** The sales page: the list, its pages and the choices of the form *)

Module Browse.

Import Page.

Definition ITEMS_PER_PAGE : Z := 7.

(** [l.slice(start, end)], with JavaScript's treatment of negative and
    out-of-range indices. *)
Definition slice {A : Type} (l : list A) (start finish : Z) : list A :=
  let len := Z.of_nat (List.length l) in
  let k := if (start <? 0)%Z then Z.max (len + start) 0 else Z.min start len in
  let final :=
    if (finish <? 0)%Z then Z.max (len + finish) 0 else Z.min finish len in
  firstn (Z.to_nat (final - k)) (skipn (Z.to_nat k) l).

(** [Math.ceil(sales.length / ITEMS_PER_PAGE)] *)
Definition totalPages {A : Type} (sales : list A) : Z :=
  Qceiling (inject_Z (Z.of_nat (List.length sales)) / inject_Z ITEMS_PER_PAGE).

Definition paginatedSales {A : Type} (sales : list A) (currentPage : Z) : list A :=
  let startIndex := ((currentPage - 1) * ITEMS_PER_PAGE)%Z in
  let endIndex := (startIndex + ITEMS_PER_PAGE)%Z in
  slice sales startIndex endIndex.

(** The numbered buttons: [Array.from({ length: totalPages }, (_, i) => i + 1)]. *)
Definition page_buttons {A : Type} (sales : list A) : list Z :=
  map (fun i => (Z.of_nat i + 1)%Z) (seq 0 (Z.to_nat (totalPages sales))).

(** The clicks of the pagination bar. *)
Inductive click :=
| Anterior
| Proxima
| Pagina (page : Z).

(** Whether the bar offers the click: the bar is shown for more than
    [ITEMS_PER_PAGE] sales, "Anterior" is disabled on page 1, "Proxima" on
    the last page, and the numbered buttons are those of [page_buttons]. *)
Definition offered {A : Type} (sales : list A) (currentPage : Z) (c : click) : bool :=
  (ITEMS_PER_PAGE <? Z.of_nat (List.length sales))%Z &&
  match c with
  | Anterior => negb (currentPage =? 1)%Z
  | Proxima => negb (currentPage =? totalPages sales)%Z
  | Pagina page => existsb (Z.eqb page) (page_buttons sales)
  end.

(** The [onClick] handlers: [setCurrentPage]. *)
Definition setCurrentPage {A : Type} (sales : list A) (prev : Z) (c : click) : Z :=
  match c with
  | Anterior => Z.max 1 (prev - 1)
  | Proxima => Z.min (totalPages sales) (prev + 1)
  | Pagina page => page
  end.

(** A sequence of clicks from the page shown; a click the bar does not offer
    changes nothing. *)
Definition browse {A : Type} (sales : list A) (clicks : list click) (currentPage : Z) : Z :=
  fold_left
    (fun page c => if offered sales page c then setCurrentPage sales page c else page)
    clicks currentPage.

(** [clientsWithPackages]: the clients offered for a package consumption. *)
Definition clientsWithPackages (f : FormData) (clientPackages : list ClientPackage)
    (clients : list client_row) : list client_row :=
  if negb (String.eqb (form_saleType f) "03") then []
  else
    let clientIdsWithPackages :=
      map cp_clientId
        (filter (fun pkg => (0 <? availableQuantity pkg)%Z) clientPackages) in
    filter (fun client =>
              existsb (Nat.eqb (client_id client)) clientIdsWithPackages)
      clients.

(** [availablePackages]: the packages offered once the client is chosen. *)
Definition availablePackages (f : FormData) (clientPackages : list ClientPackage)
  : list ClientPackage :=
  match String.eqb (form_saleType f) "03", form_clientId f with
  | true, Some client =>
      filter (fun pkg =>
                (cp_clientId pkg =? client)%nat
                && (0 <? availableQuantity pkg)%Z)
        clientPackages
  | _, _ => []
  end.

(** [handleChange] for the fields of the form that hold an identifier. *)
Definition choose_client (f : FormData) (client : ident) : FormData :=
  mk_form (Some client) (form_serviceId f) (form_saleType f) (form_quantity f)
    (form_discountType f) (form_discountValue f) (form_observations f)
    (form_paymentMethod f) (form_packageId f).

Definition choose_package (f : FormData) (package : ident) : FormData :=
  mk_form (form_clientId f) (form_serviceId f) (form_saleType f)
    (form_quantity f) (form_discountType f) (form_discountValue f)
    (form_observations f) (form_paymentMethod f) (Some package).

End Browse.

(** ** Conditions used in the statements on the handlers *)

Module Conditions.

Import Route.

(** The token names no user of the table. *)
Definition not_a_user (token : credential) (d : Db) : Prop :=
  match token with
  | Signed userId => forall u, In u (users d) -> user_id u <> userId
  | _ => True
  end.

(** No sale row has the key the next inserted row will get. *)
Definition fresh_sale (d : Db) : Prop :=
  forall s, In s (sales d) -> sale_id s <> next_id d.

(** The columns of a sale row that an update leaves alone. *)
Definition same_standing (s s' : sale_row) : Prop :=
  sale_id s' = sale_id s /\
  sale_attendant_id s' = sale_attendant_id s /\
  sale_status s' = sale_status s /\
  sale_date s' = sale_date s /\
  sale_confirmed_at s' = sale_confirmed_at s /\
  sale_cancelled_at s' = sale_cancelled_at s.

(** An item row without its key. *)
Definition content (r : item_row) :=
  (item_sale_id r, item_product_id r, item_product_name r, item_quantity r,
   item_unit_price r, item_discount_type r, item_discount_value r,
   item_subtotal r, item_discount_amount r, item_total r).

(** The discount stored on an item row does not exceed its subtotal: a
    percentage of at most 100, or a fixed value of at most the subtotal. *)
Definition moderate (r : item_row) : Prop :=
  (Js.str_is (item_discount_type r) "percentage" = true ->
   Notions.amount (item_discount_value r) <= 100) /\
  (Js.str_is (item_discount_type r) "fixed" = true ->
   Notions.amount (item_discount_value r) <= item_subtotal r).

(** The value carries no sign: it is a number, or a text that does not
    begin with [+] or [-]. *)
Definition unsigned_value (x : Js.jsnum) : Prop :=
  match x with
  | Js.Text (String c _) => c <> "-"%char /\ c <> "+"%char
  | _ => True
  end.

(** The ranges are in the order of their minimum quantity. *)
Fixpoint ascending (l : list Page.PriceRange) : Prop :=
  match l with
  | [] => True
  | r :: rest =>
      Forall (fun r' => (Page.minQuantity r <= Page.minQuantity r')%Z) rest
      /\ ascending rest
  end.

End Conditions.

(** ** More sample data *)

Module Sample2.

(** An update of sale 1 that changes the client and the lines. *)
Definition reorder : Route.body :=
  Route.mk_body (Some 1%nat) (Some 1%nat) None (Some "dinheiro"%string)
    (Some [Route.mk_item_in None "Atraso" 4 30 None (Some "percentage"%string)
             (Some (Js.Num 50))])
    (Some "percentage"%string) (Some (Js.Num 10)) None None None.

(** Sixteen sales, as the page lists them. *)
Definition sixteen : list nat := seq 1 16.

(** The sales page's clients and a form for a package consumption. *)
Definition form_03 : Page.FormData :=
  Page.mk_form None None "03" 1 "percentage" (Js.Num 0) EmptyString "pix" None.

(** A form asking for two units of service 5 at ten per cent off. *)
Definition form_discounted : Page.FormData :=
  Page.mk_form (Some 1%nat) (Some 5%nat) "01" 2 "percentage" (Js.Num 10)
    EmptyString "pix" None.

(** The sample order without its client. *)
Definition order_without_client : Route.body :=
  Route.mk_body None None None (Some "pix"%string) (Route.items Sample.order)
    None None (Some "01"%string) None None.

(** The form asking for one unit of service 5, once a fixed discount of 20
    has been typed in, and the request the page sends for it. *)
Definition form_typed : Page.FormData :=
  Page.handleChange_discountValue "20" Sample.form_overdiscounted.

Definition sent_typed : Route.body :=
  match Page.handleSubmit Sample.catalogue [] (Some 1%nat) form_typed with
  | inr b => b
  | inl _ => Sample.order
  end.

(** The shop once attendant 1 has created the sale of the typed form
    (sale 1), and once the same request has been sent again as its update. *)
Definition shop_typed : Db :=
  snd (Route.POST (Route.Signed 1) sent_typed 0 Sample.shop).

Definition shop_retyped : Db :=
  snd (Route.PUT (Route.Signed 1) (Sample.as_update 1 sent_typed) shop_typed).

(** The name of the complaint service as the page's own comment writes it,
    with a cedilla and a tilde (UTF-8: c3 a7, c3 a3). *)
Definition complaint_name : string :=
  ("Reclama"
   ++ String (ascii_of_nat 195) (String (ascii_of_nat 167)
        (String (ascii_of_nat 195) (String (ascii_of_nat 163) "o"))))%string.

(** The catalogue with the complaint service under that name, and a form
    asking for fifteen units of it. *)
Definition catalogue_accented : list Page.Service :=
  [Page.mk_service 6 complaint_name 40 Sample.complaint_tiers].

Definition form_complaint : Page.FormData :=
  Page.mk_form (Some 1%nat) (Some 6%nat) "01" 15 "percentage" (Js.Num 0)
    EmptyString "pix" None.

(** Two tiers whose unit price is zero. *)
Definition free_tiers : list Page.PriceRange :=
  [Page.mk_range "01" 1 (Some 10%Z) 0; Page.mk_range "01" 11 None 0].

(** The same form once ten per cent have been typed in. *)
Definition form_discounted_typed : Page.FormData :=
  Page.handleChange_discountValue "10" form_discounted.

End Sample2.

(** * Properties *)

(** ** The package ledger *)

Module LedgerFacts.

Import Ledger Sample.

Lemma debit_balanced (q : Z) (p : package_row) :
  balanced p -> (q <= pkg_available_quantity p)%Z -> balanced (debit q p).
Proof.
  unfold balanced, debit; simpl; lia.
Qed.

Lemma consume_row_balanced (packageId : ident) (q : Z) :
  forall rows rows',
    Forall balanced rows ->
    consume_row packageId q rows = inr rows' ->
    Forall balanced rows'.
Proof.
  induction rows as [|p rest IH]; intros rows' Hok Hrun; simpl in Hrun.
  - discriminate.
  - inversion Hok as [|? ? Hp Hrest]; subst.
    destruct (is_target packageId p).
    + destruct (Z.ltb_spec (pkg_available_quantity p) q) as [Hlt|Hge];
        [discriminate|].
      injection Hrun as <-.
      constructor; [now apply debit_balanced | assumption].
    + destruct (consume_row packageId q rest) as [e|rest'] eqn:Hrest';
        [discriminate|].
      injection Hrun as <-.
      constructor; [assumption | now apply IH].
Qed.

Lemma consume_row_insufficient (packageId : ident) (q : Z) :
  forall rows p,
    find (is_target packageId) rows = Some p ->
    (pkg_available_quantity p < q)%Z ->
    consume_row packageId q rows = inl InsufficientBalance.
Proof.
  induction rows as [|r rest IH]; intros p Hfind Hlt; simpl in *.
  - discriminate.
  - destruct (is_target packageId r).
    + injection Hfind as ->.
      apply Z.ltb_lt in Hlt. now rewrite Hlt.
    + now rewrite (IH p Hfind Hlt).
Qed.

Lemma consume_row_not_found (packageId : ident) (q : Z) :
  forall rows,
    find (is_target packageId) rows = None ->
    consume_row packageId q rows = inl NotFound.
Proof.
  induction rows as [|r rest IH]; intros Hfind; simpl in *.
  - reflexivity.
  - destruct (is_target packageId r); [discriminate|].
    now rewrite IH.
Qed.

Lemma consume_package_ok (packageId saleId : ident) (q : Z) (d d' : Db) :
  ledger_ok d ->
  consume_package packageId saleId q d = inr d' ->
  ledger_ok d'.
Proof.
  unfold consume_package, ledger_ok. intros Hok Hrun.
  destruct (consume_row packageId q (client_packages d)) as [e|rows] eqn:Hrows;
    [discriminate|].
  injection Hrun as <-. simpl.
  eapply consume_row_balanced; eassumption.
Qed.

Lemma apply_call_ok (d : Db) (c : consume_call) :
  ledger_ok d -> ledger_ok (apply_call d c).
Proof.
  intros Hok. unfold apply_call.
  destruct (consume_package _ _ _ d) as [e|d'] eqn:Hrun.
  - assumption.
  - eapply consume_package_ok; eassumption.
Qed.

Lemma states_after_ok (calls : list consume_call) :
  forall d, ledger_ok d -> Forall ledger_ok (states_after calls d).
Proof.
  induction calls as [|c rest IH]; intros d Hok; simpl.
  - constructor.
  - constructor.
    + now apply apply_call_ok.
    + apply IH. now apply apply_call_ok.
Qed.

(** The tables a consume does not write. *)
Lemma consume_package_frame (packageId saleId : ident) (q : Z) (d d' : Db) :
  consume_package packageId saleId q d = inr d' ->
  users d' = users d /\ clients d' = clients d /\ sales d' = sales d /\
  sale_items d' = sale_items d /\ next_id d' = next_id d.
Proof.
  unfold consume_package.
  destruct (consume_row _ _ _); [discriminate|].
  intros H; injection H as <-. simpl. repeat split.
Qed.

(** The scenario of the specification: consuming 3 of 10 leaves 7 available
    and 3 consumed; consuming 8 more fails and changes nothing. *)
Example consume_3_then_8 :
  map (fun d => map (fun p => (pkg_consumed_quantity p, pkg_available_quantity p))
                  (client_packages d))
      (states_after two_calls ten_credits)
    = [[(3, 7)]; [(3, 7)]]%Z
  /\ consume_package 7 5 8 (apply_call ten_credits (mk_call 7 4 3))
     = inl InsufficientBalance.
Proof.
  split; reflexivity.
Qed.

(** C1. Balance invariant: along every sequence of consume calls, starting
    from a ledger whose packages are balanced, every package of every state
    reached has a non-negative availableQuantity and
    initialQuantity = consumedQuantity + availableQuantity; and a consume
    whose quantity exceeds the availableQuantity of the package it is made
    against fails with InsufficientBalance and leaves the state as it was. *)
Theorem consume_keeps_balance (d : Db) (calls : list consume_call)
    (Hok : ledger_ok d) :
  Forall ledger_ok (states_after calls d) /\
  (forall (d0 : Db) (c : consume_call) (p : package_row),
      lookup (call_package c) d0 = Some p ->
      (pkg_available_quantity p < call_quantity c)%Z ->
      consume_package (call_package c) (call_sale c) (call_quantity c) d0
        = inl InsufficientBalance
      /\ apply_call d0 c = d0).
Proof.
  split.
  - now apply states_after_ok.
  - intros d0 c p Hfind Hlt.
    assert (Hfail : consume_package (call_package c) (call_sale c)
                      (call_quantity c) d0 = inl InsufficientBalance).
    { unfold consume_package, lookup in *.
      now rewrite (consume_row_insufficient _ _ _ _ Hfind Hlt). }
    split; [exact Hfail|].
    unfold apply_call. now rewrite Hfail.
Qed.

Lemma consume_keeps_balance_witness :
  ledger_ok ten_credits /\
  Forall ledger_ok (states_after two_calls ten_credits).
Proof.
  assert (Hok : ledger_ok ten_credits).
  { unfold ledger_ok, ten_credits; simpl.
    repeat constructor; simpl; lia. }
  split; [exact Hok|].
  exact (proj1 (consume_keeps_balance ten_credits two_calls Hok)).
Defined.

End LedgerFacts.

(** ** The item loop and the totals *)

Module RouteFacts.

Import Route Notions.

Lemma fold_left_Qplus (l : list Q) :
  forall a, fold_left Qplus l a == a + Qsum l.
Proof.
  induction l as [|x l IH]; intros a; simpl.
  - ring.
  - rewrite IH. ring.
Qed.

Lemma loop_subtotal_sum (its : list item_in) :
  loop_subtotal its == Qsum (map line_subtotal its).
Proof.
  unfold loop_subtotal. rewrite fold_left_Qplus. ring.
Qed.

Lemma gt0_positive (v : option Js.jsnum) :
  Js.gt0 v = true ->
  exists x q,
    v = Some x /\ Js.to_number x = Some q /\ 0 < q /\
    Js.to_number (Js.or0 v) = Some q.
Proof.
  destruct v as [x|]; simpl; [|discriminate].
  destruct (Js.to_number x) as [q|] eqn:Ex; [|discriminate].
  unfold Js.positive. intros H. exists x, q.
  assert (Hq : 0 < q).
  { destruct (Qlt_le_dec 0 q) as [Hlt|Hle]; [exact Hlt|].
    apply Qle_bool_iff in Hle. rewrite Hle in H. discriminate. }
  repeat split; try assumption.
  destruct x as [n|[|c s]]; exact Ex.
Qed.

Lemma positive_gt0 (v : Js.jsnum) (q : Q) :
  Js.to_number v = Some q -> 0 < q -> Js.gt0 (Some v) = true.
Proof.
  intros Hv H. simpl. rewrite Hv. unfold Js.positive.
  destruct (Qle_bool q 0) eqn:E; [|reflexivity].
  apply Qle_bool_iff in E. exfalso. apply (Qlt_not_le _ _ H E).
Qed.

Lemma str_is_or_null_percentage (t : option string) :
  Js.str_is (or_null t) "percentage" = Js.str_is t "percentage".
Proof.
  now destruct t as [[|c s]|].
Qed.

Lemma str_is_or_null_fixed (t : option string) :
  Js.str_is (or_null t) "fixed" = Js.str_is t "fixed".
Proof.
  now destruct t as [[|c s]|].
Qed.

Lemma not_gt0_zero (v : option Js.jsnum) :
  Js.gt0 v = false -> 0 <= amount (Js.or0 v) -> amount (Js.or0 v) == 0.
Proof.
  destruct v as [x|]; [|reflexivity].
  assert (E : Js.to_number (Js.or0 (Some x)) = Js.to_number x)
    by (destruct x as [q|[|c s]]; reflexivity).
  unfold amount, Js.gt0. rewrite E.
  destruct (Js.to_number x) as [q|]; [|reflexivity].
  unfold Js.positive. intros H H0.
  apply negb_false_iff, Qle_bool_iff in H. now apply Qle_antisym.
Qed.

(** The discount the handlers compute reads as the discount of the
    specification, for a value that is not negative, be it a number or a
    string. *)
Lemma discount_amount_spec (type : option string) (value : option Js.jsnum)
    (base : Q) :
  0 <= amount (Js.or0 value) ->
  reads (discount_amount type value base)
    (discount_of (or_null type) (amount (Js.or0 value)) base).
Proof.
  intros H0. unfold discount_amount, discount_of.
  rewrite str_is_or_null_percentage, str_is_or_null_fixed.
  destruct (Js.gt0 value) eqn:Hv.
  - destruct (gt0_positive _ Hv) as (x & q & Ev & Ex & _ & Eo).
    unfold amount. rewrite Eo. unfold Js.percent, Js.given. rewrite Ev, Ex.
    destruct (Js.str_is type "percentage"); cbn [andb reads Js.to_number].
    + field.
    + destruct (Js.str_is type "fixed"); cbn [andb reads Js.to_number].
      * unfold reads. rewrite Ex. reflexivity.
      * reflexivity.
  - pose proof (not_gt0_zero value Hv H0) as Hz.
    rewrite !andb_false_r. cbn [reads Js.to_number].
    destruct (Js.str_is type "percentage"); [rewrite Hz; field|].
    destruct (Js.str_is type "fixed"); [now rewrite Hz | reflexivity].
Qed.

(** A discount computed from a number is a number. *)
Lemma discount_amount_num (type : option string) (value : option Js.jsnum)
    (base : Q) :
  is_num value ->
  discount_amount type value base
  = Js.Num (amount (discount_amount type value base)).
Proof.
  intros Hnum. unfold discount_amount.
  destruct (Js.str_is type "percentage" && Js.gt0 value); [reflexivity|].
  destruct (Js.str_is type "fixed" && Js.gt0 value); [|reflexivity].
  destruct value as [[q|s]|]; [reflexivity | contradiction | reflexivity].
Qed.

Lemma fold_left_plus_Num (qs : list Q) :
  forall a,
    fold_left Js.plus (map Js.Num qs) (Js.Num a) = Js.Num (fold_left Qplus qs a).
Proof.
  induction qs as [|q qs IH]; intros a; simpl; [reflexivity|].
  apply IH.
Qed.

Lemma numeric_lines (its : list item_in) :
  Forall (fun it => is_num (discountValue it)) its ->
  map line_discount its
  = map Js.Num (map (fun it => amount (line_discount it)) its).
Proof.
  induction 1 as [|it rest Hit _ IH]; simpl; [reflexivity|].
  rewrite <- IH. f_equal. now apply discount_amount_num.
Qed.

(** With numbers for discount values, the accumulated discount is the sum
    of the item discounts. *)
Lemma loop_discount_num (its : list item_in) :
  Forall (fun it => is_num (discountValue it)) its ->
  loop_discount its
  = Js.Num (fold_left Qplus (map (fun it => amount (line_discount it)) its) 0).
Proof.
  intros Hnum. unfold loop_discount.
  rewrite (numeric_lines its Hnum). apply fold_left_plus_Num.
Qed.

Lemma rows_subtotals (saleId : ident) (its : list item_in) :
  forall n, map item_subtotal (rows_of saleId n its) = map line_subtotal its.
Proof.
  induction its as [|it rest IH]; intros n; simpl; [reflexivity|].
  now rewrite IH.
Qed.

Lemma rows_discounts (saleId : ident) (its : list item_in) :
  forall n, map item_discount_amount (rows_of saleId n its) = map line_discount its.
Proof.
  induction its as [|it rest IH]; intros n; simpl; [reflexivity|].
  now rewrite IH.
Qed.

Lemma rows_kept (saleId : ident) (its : list item_in) :
  forall n,
    filter (fun r => (item_sale_id r =? saleId)%nat) (rows_of saleId n its)
    = rows_of saleId n its.
Proof.
  induction its as [|it rest IH]; intros n; simpl; [reflexivity|].
  now rewrite Nat.eqb_refl, IH.
Qed.

Lemma rows_dropped (saleId other : ident) (its : list item_in) :
  other <> saleId ->
  forall n,
    filter (fun r => (item_sale_id r =? other)%nat) (rows_of saleId n its) = [].
Proof.
  intros Hneq.
  induction its as [|it rest IH]; intros n; simpl; [reflexivity|].
  destruct (Nat.eqb_spec saleId other) as [E|_]; [now subst|].
  apply IH.
Qed.

Lemma rows_length (saleId : ident) (its : list item_in) :
  forall n, List.length (rows_of saleId n its) = List.length its.
Proof.
  induction its as [|it rest IH]; intros n; simpl; [reflexivity|].
  now rewrite IH.
Qed.

(** What the item loop does to the state and to its two accumulators. *)
Lemma loop_effect (saleId : ident) (its : list item_in) :
  forall a,
    fold_left (loop_body saleId) its a
    = mk_loop
        (mk_db (users (loop_db a)) (clients (loop_db a)) (sales (loop_db a))
           (sale_items (loop_db a) ++ rows_of saleId (next_id (loop_db a)) its)
           (client_packages (loop_db a)) (package_consumptions (loop_db a))
           (List.length its + next_id (loop_db a)))
        (fold_left Qplus (map line_subtotal its) (totalSubtotal a))
        (fold_left Js.plus (map line_discount its) (totalDiscountAmount a)).
Proof.
  induction its as [|it rest IH]; intros [[us cs ss ti ps pcs n] st dt]; simpl.
  - now rewrite app_nil_r.
  - rewrite IH. simpl. rewrite <- app_assoc. simpl.
    now rewrite Nat.add_succ_r.
Qed.

Lemma write_items_and_totals_eq (saleId : ident) (its : list item_in)
    (b : body) (d : Db) :
  write_items_and_totals saleId its b d
  = (final_total b its,
     mk_db (users d) (clients d)
       (map (fun s =>
               if (sale_id s =? saleId)%nat
               then set_totals (loop_subtotal its)
                      (total_discount_written b its) (final_total b its) s
               else s) (sales d))
       (sale_items d ++ rows_of saleId (next_id d) its)
       (client_packages d) (package_consumptions d)
       (List.length its + next_id d)).
Proof.
  unfold write_items_and_totals, insert_items.
  rewrite loop_effect. reflexivity.
Qed.

Lemma by_sale_type_frame (b : body) (client saleId : ident) (firstItem : item_in)
    (total : option Q) (d d' : Db) :
  by_sale_type b client saleId firstItem total d = inr d' ->
  users d' = users d /\ clients d' = clients d /\ sales d' = sales d /\
  sale_items d' = sale_items d.
Proof.
  unfold by_sale_type.
  assert (Hconsume :
    match
      match Js.str_is (saleType b) "03", packageId b with
      | true, Some package =>
          match Ledger.consume_package package saleId (quantity firstItem) d with
          | inr d0 => inr d0
          | inl e =>
              inl ("Erro ao consumir pacote: " ++ Ledger.error_message e)%string
          end
      | _, _ => inr d
      end
    with
    | inr d0 => users d0 = users d /\ clients d0 = clients d /\
                sales d0 = sales d /\ sale_items d0 = sale_items d
    | inl _ => True
    end).
  { destruct (Js.str_is (saleType b) "03"), (packageId b) as [package|];
      try (repeat split; reflexivity).
    destruct (Ledger.consume_package package saleId (quantity firstItem) d)
      as [e|d0] eqn:Hrun; [exact I|].
    destruct (LedgerFacts.consume_package_frame _ _ _ _ _ Hrun)
      as (Hu & Hc & Hs & Hi & _).
    now repeat split. }
  destruct (Js.str_is (saleType b) "02"), (serviceId b) as [service|];
    intros H; try (rewrite H in Hconsume; exact Hconsume).
  injection H as <-. simpl. now repeat split.
Qed.

(** What a successful [POST] has gone through. *)
Lemma POST_created (token : credential) (b : body) (now : nat) (d d' : Db)
    (saleId : ident) (date : nat) (total : option Q) (type : option string) :
  POST token b now d = (Created saleId date total type, d') ->
  exists user client firstItem rest,
    authenticateUser token d = inr user /\
    clientId b = Some client /\
    items b = Some (firstItem :: rest) /\
    saleId = next_id d /\ date = now /\ type = saleType b /\
    total = final_total b (firstItem :: rest) /\
    by_sale_type b client saleId firstItem total
      (snd (write_items_and_totals saleId (firstItem :: rest) b
              (insert_sale d client user now b))) = inr d'.
Proof.
  unfold POST.
  destruct (authenticateUser token d) as [message|user]; [discriminate|].
  destruct (clientId b) as [client|]; [|discriminate].
  destruct (negb (Js.truthy_string (paymentMethod b))); [discriminate|].
  destruct (items b) as [[|firstItem rest]|]; try discriminate.
  destruct (Js.str_is (saleType b) "03" && negb (Js.truthy_id (packageId b)));
    [discriminate|].
  rewrite write_items_and_totals_eq.
  destruct (by_sale_type _ _ _ _ _ _) as [message|d3] eqn:Htype;
    [discriminate|].
  intros H. injection H as <- <- <- <- <-.
  exists user, client, firstItem, rest.
  repeat split; try reflexivity.
  rewrite write_items_and_totals_eq. cbn [snd]. exact Htype.
Qed.

(** What a successful [PUT] has gone through. *)
Lemma PUT_updated (token : credential) (b : body) (d d' : Db)
    (total : option Q) :
  PUT token b d = (Updated total, d') ->
  exists user saleId sale rest its,
    authenticateUser token d = inr user /\
    id b = Some saleId /\
    filter (fun s => (sale_id s =? saleId)%nat) (sales d) = sale :: rest /\
    sale_status sale = "aberta"%string /\
    (is_admin user = true \/ sale_attendant_id sale = user_id user) /\
    items b = Some its /\
    write_items_and_totals saleId its b
      (delete_items saleId (update_sales saleId (set_header b) d))
    = (total, d').
Proof.
  unfold PUT.
  destruct (authenticateUser token d) as [message|user]; [discriminate|].
  destruct (id b) as [saleId|]; [|discriminate].
  destruct (filter _ (sales d)) as [|sale rest] eqn:Hsel; [discriminate|].
  destruct (String.eqb_spec (sale_status sale) "aberta") as [Hopen|_];
    simpl; [|discriminate].
  destruct (is_admin user) eqn:Hadmin; simpl.
  - destruct (items b) as [its|]; [|discriminate].
    destruct (write_items_and_totals saleId its b
                (delete_items saleId (update_sales saleId (set_header b) d)))
      as [t d2] eqn:Hw.
    intros H; injection H as <- <-.
    exists user, saleId, sale, rest, its. repeat split; auto.
  - destruct (Nat.eqb_spec (sale_attendant_id sale) (user_id user)) as [Hown|_];
      simpl; [|discriminate].
    destruct (items b) as [its|]; [|discriminate].
    destruct (write_items_and_totals saleId its b
                (delete_items saleId (update_sales saleId (set_header b) d)))
      as [t d2] eqn:Hw.
    intros H; injection H as <- <-.
    exists user, saleId, sale, rest, its. repeat split; auto.
Qed.

Lemma filter_app_rows (saleId : ident) (old : list item_row)
    (its : list item_in) (n : ident) :
  (forall it, In it old -> item_sale_id it <> saleId) ->
  filter (fun r => (item_sale_id r =? saleId)%nat) (old ++ rows_of saleId n its)
  = rows_of saleId n its.
Proof.
  intros Hold. rewrite filter_app, rows_kept.
  replace (filter _ old) with (@nil item_row); [reflexivity|].
  symmetry. induction old as [|r old IH]; simpl; [reflexivity|].
  destruct (Nat.eqb_spec (item_sale_id r) saleId) as [E|_].
  - exfalso. apply (Hold r); [now left | exact E].
  - apply IH. intros it Hin. apply Hold. now right.
Qed.

(** A sale row whose totals were written by [set_totals] reconciles with the
    rows the loop has inserted, when the discount values of the request are
    numbers and the row carries the general discount of the request. *)
Lemma set_totals_reconciled (b : body) (its : list item_in) (d' : Db)
    (n : ident) (s0 : sale_row) :
  numeric_discounts b its ->
  sale_general_discount_type s0 = or_null (generalDiscountType b) ->
  sale_general_discount_value s0 = Js.or0 (generalDiscountValue b) ->
  items_of (sale_id s0) d' = rows_of (sale_id s0) n its ->
  reconciled d'
    (set_totals (loop_subtotal its) (total_discount_written b its)
       (final_total b its) s0).
Proof.
  intros (Hlines & Hgeneral & Hpos) Htype Hvalue Hitems. unfold reconciled.
  cbn [set_totals sale_id sale_subtotal sale_total_discount sale_total
       sale_general_discount_type sale_general_discount_value].
  rewrite Hitems, rows_subtotals, Htype, Hvalue.
  rewrite <- (map_map item_discount_amount amount), rows_discounts, map_map.
  pose proof (discount_amount_spec (generalDiscountType b)
                (generalDiscountValue b) (loop_subtotal its) Hpos) as Hspec.
  unfold final_total, total_discount_written, general_discount.
  rewrite (loop_discount_num its Hlines).
  rewrite (discount_amount_num (generalDiscountType b) (generalDiscountValue b)
             (loop_subtotal its) Hgeneral) in Hspec |- *.
  set (g := amount (discount_amount (generalDiscountType b)
                      (generalDiscountValue b) (loop_subtotal its))) in *.
  cbn [Js.plus Js.minus Js.to_number reads is_number amount] in Hspec |- *.
  rewrite fold_left_Qplus.
  split; [apply loop_subtotal_sum|].
  split; [rewrite <- Hspec|]; ring.
Qed.

(** The subtotal written by [set_totals] is the sum of the subtotals of the
    rows the loop has inserted, whatever the discounts. *)
Lemma set_totals_subtotal (its : list item_in) (d' : Db) (n saleId : ident) :
  items_of saleId d' = rows_of saleId n its ->
  loop_subtotal its == Qsum (map item_subtotal (items_of saleId d')).
Proof.
  intros Hitems. rewrite Hitems, rows_subtotals. apply loop_subtotal_sum.
Qed.

Lemma In_updated_sale (saleId : ident) (f : sale_row -> sale_row)
    (l : list sale_row) (s : sale_row) :
  (forall x, sale_id (f x) = sale_id x) ->
  In s (map (fun x => if (sale_id x =? saleId)%nat then f x else x) l) ->
  sale_id s = saleId ->
  exists s0, In s0 l /\ sale_id s0 = saleId /\ s = f s0.
Proof.
  intros Hid Hin Hs. apply in_map_iff in Hin as (s0 & Heq & Hin0).
  exists s0. destruct (Nat.eqb_spec (sale_id s0) saleId) as [E|N].
  - now repeat split.
  - subst s. contradiction.
Qed.

Lemma carries_rows (saleId : ident) (its : list item_in) :
  forall n, Forall2 carries_subtotal its (rows_of saleId n its).
Proof.
  induction its as [|it rest IH]; intros n; simpl; constructor.
  - unfold carries_subtotal, row_of, line_subtotal. simpl.
    now destruct (calculatedSubtotal it).
  - apply IH.
Qed.

Lemma filter_other_sale (saleId other : ident) (l : list item_row) :
  other <> saleId ->
  filter (fun it => (item_sale_id it =? other)%nat)
    (filter (fun it => negb (item_sale_id it =? saleId)%nat) l)
  = filter (fun it => (item_sale_id it =? other)%nat) l.
Proof.
  intros Hother.
  induction l as [|r l IH]; simpl; [reflexivity|].
  destruct (Nat.eqb_spec (item_sale_id r) saleId) as [E|N]; simpl.
  - destruct (Nat.eqb_spec (item_sale_id r) other) as [E'|_];
      [congruence | exact IH].
  - now rewrite IH.
Qed.

(** The tables after a successful [POST]. *)
Lemma POST_state (token : credential) (b : body) (now : nat) (d d' : Db)
    (saleId : ident) (date : nat) (total : option Q) (type : option string) :
  POST token b now d = (Created saleId date total type, d') ->
  exists user client firstItem rest,
    authenticateUser token d = inr user /\
    clientId b = Some client /\
    items b = Some (firstItem :: rest) /\
    saleId = next_id d /\
    total = final_total b (firstItem :: rest) /\
    sale_items d' =
      sale_items d ++ rows_of saleId (S (next_id d)) (firstItem :: rest) /\
    sales d' =
      map (fun s =>
             if (sale_id s =? saleId)%nat
             then set_totals (loop_subtotal (firstItem :: rest))
                    (total_discount_written b (firstItem :: rest)) total s
             else s)
        (sales (insert_sale d client user now b)) /\
    by_sale_type b client saleId firstItem total
      (snd (write_items_and_totals saleId (firstItem :: rest) b
              (insert_sale d client user now b))) = inr d'.
Proof.
  intros H.
  destruct (POST_created _ _ _ _ _ _ _ _ _ H)
    as (user & client & firstItem & rest & Hu & Hc & Hi & Hs & _ & _ & Ht & Hty).
  exists user, client, firstItem, rest.
  destruct (by_sale_type_frame _ _ _ _ _ _ _ Hty) as (_ & _ & Hsales & Hitems).
  rewrite write_items_and_totals_eq in Hsales, Hitems. cbn [snd] in Hsales, Hitems.
  repeat split; try assumption.
  subst total. exact Hsales.
Qed.

(** The tables after a successful [PUT]. *)
Lemma PUT_state (token : credential) (b : body) (d d' : Db)
    (total : option Q) :
  PUT token b d = (Updated total, d') ->
  exists saleId its sale,
    id b = Some saleId /\ items b = Some its /\
    In sale (sales d) /\ sale_id sale = saleId /\
    total = final_total b its /\
    sale_items d' =
      filter (fun it => negb (item_sale_id it =? saleId)%nat) (sale_items d)
      ++ rows_of saleId (next_id d) its /\
    sales d' =
      map (fun s =>
             if (sale_id s =? saleId)%nat
             then set_totals (loop_subtotal its)
                    (total_discount_written b its) total s
             else s)
        (map (fun s => if (sale_id s =? saleId)%nat then set_header b s else s)
           (sales d)) /\
    client_packages d' = client_packages d /\
    package_consumptions d' = package_consumptions d /\
    users d' = users d /\ clients d' = clients d.
Proof.
  intros H.
  destruct (PUT_updated _ _ _ _ _ H)
    as (user & saleId & sale & rest & its & _ & Hid & Hsel & _ & _ & Hits & Hw).
  rewrite write_items_and_totals_eq in Hw. injection Hw as Ht Hd.
  exists saleId, its, sale.
  assert (Hin : In sale (filter (fun s => (sale_id s =? saleId)%nat) (sales d)))
    by (rewrite Hsel; now left).
  apply filter_In in Hin as [Hin Heq]. apply Nat.eqb_eq in Heq.
  subst d' total. simpl. repeat split; auto.
Qed.

Lemma POST_items_of (token : credential) (b : body) (now : nat) (d d' : Db)
    (saleId : ident) (date : nat) (total : option Q) (type : option string) :
  POST token b now d = (Created saleId date total type, d') ->
  fresh d ->
  exists its, items b = Some its /\
    items_of saleId d' = rows_of saleId (S (next_id d)) its.
Proof.
  intros H Hfresh.
  destruct (POST_state _ _ _ _ _ _ _ _ _ H)
    as (user & client & firstItem & rest & _ & _ & Hi & Hs & _ & Hitems & _).
  exists (firstItem :: rest). split; [exact Hi|].
  unfold items_of. rewrite Hitems. apply filter_app_rows.
  intros it Hin. subst saleId. now apply Hfresh.
Qed.

Lemma PUT_items_of (token : credential) (b : body) (d d' : Db)
    (total : option Q) :
  PUT token b d = (Updated total, d') ->
  exists saleId its, id b = Some saleId /\ items b = Some its /\
    items_of saleId d' = rows_of saleId (next_id d) its /\
    (forall other, other <> saleId -> items_of other d' = items_of other d).
Proof.
  intros H.
  destruct (PUT_state _ _ _ _ _ H)
    as (saleId & its & sale & Hid & Hits & _ & _ & _ & Hitems & _).
  exists saleId, its. repeat split; try assumption.
  - unfold items_of. rewrite Hitems. apply filter_app_rows.
    intros it Hin. apply filter_In in Hin as [_ Hne].
    destruct (Nat.eqb_spec (item_sale_id it) saleId); [discriminate|assumption].
  - intros other Hother. unfold items_of.
    rewrite Hitems, filter_app, (rows_dropped saleId other its Hother).
    rewrite app_nil_r. now apply filter_other_sale.
Qed.

(** The subtotal of a created sale is the sum of the subtotals of its item
    rows. *)
Lemma POST_subtotal (token : credential) (b : body) (now : nat) (d d' : Db)
    (saleId : ident) (date : nat) (total : option Q) (type : option string) :
  POST token b now d = (Created saleId date total type, d') ->
  fresh d ->
  forall s, In s (sales d') -> sale_id s = saleId ->
    sale_subtotal s == Qsum (map item_subtotal (items_of saleId d')).
Proof.
  intros H Hfresh s Hin Hsid.
  destruct (POST_items_of _ _ _ _ _ _ _ _ _ H Hfresh) as (its & Hi & Hrows).
  destruct (POST_state _ _ _ _ _ _ _ _ _ H)
    as (user & client & firstItem & rest & _ & _ & Hi' & Hs & Ht & _ & Hsales & _).
  rewrite Hi in Hi'. injection Hi' as ->.
  rewrite Hsales in Hin.
  apply In_updated_sale in Hin as (s0 & _ & Hs0 & ->); auto.
  exact (set_totals_subtotal _ _ _ _ Hrows).
Qed.

Lemma POST_reconciled (token : credential) (b : body) (now : nat) (d d' : Db)
    (saleId : ident) (date : nat) (total : option Q) (type : option string)
    (its : list item_in) :
  POST token b now d = (Created saleId date total type, d') ->
  fresh d ->
  Conditions.fresh_sale d ->
  items b = Some its ->
  stored_totals b saleId its total d'.
Proof.
  intros H Hfresh Hsale Hits.
  destruct (POST_items_of _ _ _ _ _ _ _ _ _ H Hfresh) as (its' & Hi & Hrows).
  rewrite Hits in Hi. injection Hi as <-.
  destruct (POST_state _ _ _ _ _ _ _ _ _ H)
    as (user & client & firstItem & rest & _ & _ & Hi' & Hs & Ht & _ & Hsales & _).
  rewrite Hits in Hi'. injection Hi' as ->.
  split.
  - rewrite Hsales. simpl. rewrite map_app. simpl.
    rewrite Hs, Nat.eqb_refl.
    eexists. split; [apply in_or_app; right; left; reflexivity | reflexivity].
  - intros s Hin Hsid. rewrite Hsales in Hin.
    apply In_updated_sale in Hin as (s0 & Hin0 & Hs0 & ->); auto.
    split; [exact (set_totals_subtotal _ _ _ _ Hrows)|].
    split; [reflexivity|]. split; [reflexivity|].
    intros Hnum. rewrite Ht.
    cbn [sales insert_sale] in Hin0. apply in_app_or in Hin0 as [Hold|Hnew].
    + exfalso. apply (Hsale s0 Hold). congruence.
    + destruct Hnew as [<-|[]].
      apply set_totals_reconciled with (n := S (next_id d));
        [exact Hnum | reflexivity | reflexivity |].
      cbn [sale_id]. rewrite Hs in Hrows. exact Hrows.
Qed.

Lemma PUT_reconciled (token : credential) (b : body) (d d' : Db)
    (saleId : ident) (total : option Q) (its : list item_in) :
  PUT token b d = (Updated total, d') ->
  id b = Some saleId ->
  items b = Some its ->
  stored_totals b saleId its total d'.
Proof.
  intros H Hid Hits.
  destruct (PUT_items_of _ _ _ _ _ H) as (saleId' & its' & Hid' & Hi & Hrows & _).
  rewrite Hid in Hid'. injection Hid' as <-.
  rewrite Hits in Hi. injection Hi as <-.
  destruct (PUT_state _ _ _ _ _ H)
    as (saleId' & its' & sale & Hid' & Hi' & Hin & Hsale & Ht & _ & Hsales & _).
  rewrite Hid in Hid'. injection Hid' as <-.
  rewrite Hits in Hi'. injection Hi' as <-.
  split.
  - rewrite Hsales. exists (set_totals (loop_subtotal its)
      (total_discount_written b its) total (set_header b sale)).
    split; [|exact Hsale].
    apply in_map_iff. exists (set_header b sale). split.
    + simpl. now rewrite Hsale, Nat.eqb_refl.
    + apply in_map_iff. exists sale. split; [|exact Hin].
      now rewrite Hsale, Nat.eqb_refl.
  - intros s Hs Hsid. rewrite Hsales in Hs.
    apply In_updated_sale in Hs as (s0 & Hin0 & Hs0 & ->); auto.
    split; [exact (set_totals_subtotal _ _ _ _ Hrows)|].
    split; [reflexivity|]. split; [reflexivity|].
    intros Hnum. rewrite Ht.
    apply In_updated_sale in Hin0 as (s1 & _ & Hs1 & ->); auto.
    apply set_totals_reconciled with (n := next_id d);
      [exact Hnum | reflexivity | reflexivity |].
    cbn [sale_id set_header]. now rewrite Hs1.
Qed.

(** The sample order, created and then updated by attendant 1. *)
Example order_created :
  fst (POST (Signed 1) Sample.order 0 Sample.shop)
  = Created 1 0 (final_total Sample.order
                   (match items Sample.order with Some l => l | None => [] end))
      (Some "01"%string)
  /\ is_number
       (final_total Sample.order
          (match items Sample.order with Some l => l | None => [] end))
       (4625 # 10).
Proof.
  split; reflexivity.
Qed.

(** With numbers for the discount values of the request, and a general
    discount that is not negative, the totals stored by create and by
    update reconcile: the subtotal is the sum of the item subtotals, the
    total discount the sum of the item discounts plus the general discount
    of the specification (a percentage of the subtotal, or a flat value),
    the total their difference. *)
Theorem numeric_totals_reconcile (token : credential) (b : body) (now : nat)
    (d d' : Db) (saleId : ident) (total : option Q) (its : list item_in) :
  items b = Some its ->
  numeric_discounts b its ->
  (forall date type,
      POST token b now d = (Created saleId date total type, d') ->
      fresh d ->
      Conditions.fresh_sale d ->
      forall s, In s (sales d') -> sale_id s = saleId -> reconciled d' s) /\
  (PUT token b d = (Updated total, d') ->
   id b = Some saleId ->
   forall s, In s (sales d') -> sale_id s = saleId -> reconciled d' s).
Proof.
  intros Hits Hnum. split.
  - intros date type H Hfresh Hsale s Hin Hs.
    destruct (POST_reconciled _ _ _ _ _ _ _ _ _ _ H Hfresh Hsale Hits)
      as [_ Hall].
    now apply (Hall s Hin Hs).
  - intros H Hid s Hin Hs.
    destruct (PUT_reconciled _ _ _ _ _ _ _ H Hid Hits) as [_ Hall].
    now apply (Hall s Hin Hs).
Qed.

Lemma numeric_totals_reconcile_witness :
  fresh Sample.shop /\
  (forall s, In s (sales Sample.shop_open) -> sale_id s = 1%nat ->
     reconciled Sample.shop_open s) /\
  (forall s, In s (sales Sample.shop_edited) -> sale_id s = 1%nat ->
     reconciled Sample.shop_edited s).
Proof.
  assert (Hfresh : fresh Sample.shop) by (intros it []).
  assert (Hsale : Conditions.fresh_sale Sample.shop) by (intros s []).
  assert (Hnum : numeric_discounts Sample.order
                   (match items Sample.order with Some l => l | None => [] end)).
  { split; [repeat constructor|]. split; [exact I | discriminate]. }
  split; [exact Hfresh|]. split.
  - exact (proj1 (numeric_totals_reconcile (Signed 1) Sample.order 0
                    Sample.shop Sample.shop_open 1 _ _ eq_refl Hnum)
             0%nat (Some "01"%string) eq_refl Hfresh Hsale).
  - exact (proj2 (numeric_totals_reconcile (Signed 1) Sample.order 0
                    Sample.shop_open Sample.shop_edited 1 _ _ eq_refl Hnum)
             eq_refl eq_refl).
Defined.

(** The totals stored for the sample order: 535 of subtotal, 47.5 + 5 of
    item discounts and 20 of general discount, 462.5 of total. *)
Example order_totals :
  map (fun s => (sale_subtotal s, sale_total_discount s, sale_total s))
    (sales Sample.shop_open)
  = [(0 + 475 + inject_Z 2 * 30,
      Js.Num (0 + 475 * (10 / 100) + 5 + 20),
      Some (0 + 475 + inject_Z 2 * 30 - (0 + 475 * (10 / 100) + 5) - 20))]
  /\ 0 + 475 * (10 / 100) + 5 + 20 == 725 # 10.
Proof.
  split; reflexivity.
Qed.

(** C3 does not hold of the handlers for the request the sales page sends.
    The page keeps the discount typed into the form as a string and sends it
    as one; [POST] and [PUT] add it with [+], which concatenates.  For one
    unit of a service at 10 with a fixed discount of 20 typed in, the item
    row stores the discount 20, and the sale row a subtotal of 10, a total
    discount that reads 200 and a total of -10: total_discount is not the
    sum of the item discounts plus the general discount, and total is not
    subtotal minus total_discount. *)
Theorem typed_discount_not_reconciled :
  Page.handleSubmit Sample.catalogue [] (Some 1%nat) Sample2.form_typed
  = inr Sample2.sent_typed /\
  map discountValue
    (match items Sample2.sent_typed with Some l => l | None => [] end)
  = [Some (Js.Text "20")] /\
  status_of (fst (POST (Signed 1) Sample2.sent_typed 0 Sample.shop)) = 201%nat /\
  status_of
    (fst (PUT (Signed 1) (Sample.as_update 1 Sample2.sent_typed)
            Sample2.shop_typed)) = 200%nat /\
  Forall
    (fun d' =>
       map item_discount_amount (items_of 1 d') = [Js.Text "20"] /\
       exists s,
         sales d' = [s] /\ sale_id s = 1%nat /\
         sale_general_discount_type s = Some "percentage"%string /\
         sale_general_discount_value s = Js.Num 0 /\
         sale_subtotal s == 10 /\
         sale_total_discount s = Js.Text "0200" /\
         reads (sale_total_discount s) 200 /\
         is_number (sale_total s) (-10) /\
         Qsum (map (fun r => amount (item_discount_amount r)) (items_of 1 d'))
         + discount_of (sale_general_discount_type s)
             (amount (sale_general_discount_value s)) (sale_subtotal s)
         == 20 /\
         ~ reads (sale_total_discount s) 20 /\
         ~ is_number (sale_total s)
             (sale_subtotal s - amount (sale_total_discount s)) /\
         ~ reconciled d' s)
    [Sample2.shop_typed; Sample2.shop_retyped].
Proof.
  split; [reflexivity|]. split; [reflexivity|].
  split; [reflexivity|]. split; [reflexivity|].
  constructor; [|constructor; [|constructor]].
  - split; [reflexivity|]. eexists. split; [reflexivity|].
    split; [reflexivity|]. split; [reflexivity|]. split; [reflexivity|].
    split; [reflexivity|]. split; [reflexivity|]. split; [reflexivity|].
    split; [reflexivity|]. split; [reflexivity|].
    split; [|split].
    + vm_compute. discriminate.
    + vm_compute. discriminate.
    + intros (_ & _ & Htotal). revert Htotal. vm_compute. discriminate.
  - split; [reflexivity|]. eexists. split; [reflexivity|].
    split; [reflexivity|]. split; [reflexivity|]. split; [reflexivity|].
    split; [reflexivity|]. split; [reflexivity|]. split; [reflexivity|].
    split; [reflexivity|]. split; [reflexivity|].
    split; [|split].
    + vm_compute. discriminate.
    + vm_compute. discriminate.
    + intros (_ & _ & Htotal). revert Htotal. vm_compute. discriminate.
Qed.

Lemma rows_keys (saleId : ident) (its : list item_in) :
  forall n, Forall (fun r => n <= item_id r)%nat (rows_of saleId n its).
Proof.
  induction its as [|it rest IH]; intros n; simpl; constructor.
  - simpl. lia.
  - eapply Forall_impl; [|apply (IH (S n))].
    simpl. intros r Hr. lia.
Qed.

(** C9. In both create-sale and update-sale, a request item that carries a
    calculatedSubtotal is stored with that value as its subtotal, and an
    item without one with quantity times unitPrice; the stored sale subtotal
    is the sum of these item subtotals. *)
Theorem calculatedSubtotal_verbatim (token : credential) (b : body)
    (now : nat) (d d' : Db) (saleId : ident) (total : option Q) :
  (forall date type,
      POST token b now d = (Created saleId date total type, d') ->
      fresh d ->
      exists its, items b = Some its /\
        Forall2 carries_subtotal its (items_of saleId d') /\
        (forall s, In s (sales d') -> sale_id s = saleId ->
           sale_subtotal s == Qsum (map item_subtotal (items_of saleId d')))) /\
  (PUT token b d = (Updated total, d') ->
   id b = Some saleId ->
   exists its, items b = Some its /\
     Forall2 carries_subtotal its (items_of saleId d') /\
     (forall s, In s (sales d') -> sale_id s = saleId ->
        sale_subtotal s == Qsum (map item_subtotal (items_of saleId d')))).
Proof.
  split.
  - intros date type H Hfresh.
    destruct (POST_items_of _ _ _ _ _ _ _ _ _ H Hfresh) as (its & Hi & Hrows).
    exists its. split; [exact Hi|]. split.
    + rewrite Hrows. apply carries_rows.
    + intros s Hin Hs.
      exact (POST_subtotal _ _ _ _ _ _ _ _ _ H Hfresh s Hin Hs).
  - intros H Hid.
    destruct (PUT_items_of _ _ _ _ _ H) as (saleId' & its & Hid' & Hi & Hrows & _).
    rewrite Hid in Hid'. injection Hid' as <-.
    exists its. split; [exact Hi|]. split.
    + rewrite Hrows. apply carries_rows.
    + intros s Hin Hs.
      destruct (PUT_reconciled _ _ _ _ _ _ _ H Hid Hi) as [_ Hall].
      exact (proj1 (Hall s Hin Hs)).
Qed.

Lemma calculatedSubtotal_verbatim_witness :
  fresh Sample.shop /\
  (exists its, items Sample.order = Some its /\
     Forall2 carries_subtotal its (items_of 1 Sample.shop_open) /\
     (forall s, In s (sales Sample.shop_open) -> sale_id s = 1%nat ->
        sale_subtotal s
        == Qsum (map item_subtotal (items_of 1 Sample.shop_open)))) /\
  (exists its, items Sample.order = Some its /\
     Forall2 carries_subtotal its (items_of 1 Sample.shop_edited) /\
     (forall s, In s (sales Sample.shop_edited) -> sale_id s = 1%nat ->
        sale_subtotal s
        == Qsum (map item_subtotal (items_of 1 Sample.shop_edited)))).
Proof.
  assert (Hfresh : fresh Sample.shop) by (intros it []).
  split; [exact Hfresh|]. split.
  - apply (proj1 (calculatedSubtotal_verbatim (Signed 1) Sample.order 0
                    Sample.shop Sample.shop_open 1
                    (final_total Sample.order
                       (match items Sample.order with
                        | Some l => l | None => [] end)))
             0%nat (Some "01"%string));
      [reflexivity | exact Hfresh].
  - apply (proj2 (calculatedSubtotal_verbatim (Signed 1) Sample.order 0
                    Sample.shop_open Sample.shop_edited 1
                    (final_total Sample.order
                       (match items Sample.order with
                        | Some l => l | None => [] end))));
      reflexivity.
Defined.

(** The stored subtotals of the sample order: 475 as sent by the caller for
    the first line (not 15 x 40), 2 x 30 for the second. *)
Example order_subtotals :
  map item_subtotal (items_of 1 Sample.shop_open) = [475; inject_Z 2 * 30].
Proof.
  reflexivity.
Qed.

(** C7. A successful update replaces the sale's item rows by rows newly
    inserted from the request (the rows of the other sales are kept),
    recomputes the stored totals, and leaves the package ledger as it was:
    no package is created, none is debited or adjusted. *)
Theorem update_leaves_ledger (token : credential) (b : body) (d d' : Db)
    (total : option Q) (H : PUT token b d = (Updated total, d')) :
  client_packages d' = client_packages d /\
  package_consumptions d' = package_consumptions d /\
  exists saleId its,
    id b = Some saleId /\ items b = Some its /\
    items_of saleId d' = rows_of saleId (next_id d) its /\
    Forall (fun r => next_id d <= item_id r)%nat (items_of saleId d') /\
    (forall other, other <> saleId -> items_of other d' = items_of other d) /\
    total = final_total b its /\
    stored_totals b saleId its total d'.
Proof.
  destruct (PUT_state _ _ _ _ _ H)
    as (saleId & its & sale & Hid & Hi & _ & _ & Ht & _ & _ & Hp & Hc & _).
  destruct (PUT_items_of _ _ _ _ _ H)
    as (saleId' & its' & Hid' & Hi' & Hrows & Hothers).
  rewrite Hid in Hid'. injection Hid' as <-.
  rewrite Hi in Hi'. injection Hi' as <-.
  split; [exact Hp|]. split; [exact Hc|].
  exists saleId, its.
  split; [exact Hid|]. split; [exact Hi|]. split; [exact Hrows|].
  split; [rewrite Hrows; apply rows_keys|].
  split; [exact Hothers|]. split; [exact Ht|].
  exact (PUT_reconciled _ _ _ _ _ _ _ H Hid Hi).
Qed.

Lemma update_leaves_ledger_witness :
  client_packages Sample.shop_edited = client_packages Sample.shop_open /\
  package_consumptions Sample.shop_edited
  = package_consumptions Sample.shop_open.
Proof.
  pose proof (update_leaves_ledger (Signed 1) Sample.order Sample.shop_open
                Sample.shop_edited
                (final_total Sample.order
                   (match items Sample.order with
                    | Some l => l | None => [] end))
                eq_refl) as (Hp & Hc & _).
  split; [exact Hp | exact Hc].
Defined.

(** Editing the quantity of a package consumption from 3 to 5 leaves the
    package as the creation left it: 3 consumed, 7 available. *)
Example edited_consumption_keeps_ledger :
  let created := snd (POST (Signed 1) (Sample.consume 3) 0 Sample.shop_with_package) in
  let edited := PUT (Signed 1) (Sample.as_update 8 (Sample.consume 5)) created in
  status_of (fst edited) = 200%nat /\
  map item_quantity (items_of 8 (snd edited)) = [5%Z] /\
  map (fun p => (pkg_consumed_quantity p, pkg_available_quantity p))
    (client_packages (snd edited)) = [(3, 7)]%Z.
Proof.
  repeat split; reflexivity.
Qed.

Lemma find_filter (A : Type) (p : A -> bool) (l : list A) :
  find p l = match filter p l with [] => None | x :: _ => Some x end.
Proof.
  induction l as [|x l IH]; simpl; [reflexivity|].
  now destruct (p x).
Qed.

Lemma filter_none (A : Type) (p : A -> bool) (l : list A) :
  (forall x, In x l -> p x = false) -> filter p l = [].
Proof.
  induction l as [|x l IH]; intros H; simpl; [reflexivity|].
  rewrite (H x (or_introl eq_refl)). apply IH.
  intros y Hy. apply H. now right.
Qed.

(** C6. An update by an authenticated caller that names a sale and carries
    items: 404 when no sale has the id, 400 when the sale is not open, 403
    when it is open and the caller is neither its attendant nor an admin;
    in these three cases nothing is written. Otherwise 200 with the
    recomputed total, which is stored. *)
Theorem update_checks (token : credential) (b : body) (d : Db)
    (user : user_row) (saleId : ident) (its : list item_in)
    (Hauth : authenticateUser token d = inr user)
    (Hid : id b = Some saleId)
    (Hits : items b = Some its) :
  ((forall s, In s (sales d) -> sale_id s <> saleId) ->
   status_of (fst (PUT token b d)) = 404%nat /\ snd (PUT token b d) = d) /\
  (forall sale,
      find (fun s => (sale_id s =? saleId)%nat) (sales d) = Some sale ->
      (sale_status sale <> "aberta"%string ->
       status_of (fst (PUT token b d)) = 400%nat /\ snd (PUT token b d) = d) /\
      (sale_status sale = "aberta"%string ->
       is_admin user = false ->
       sale_attendant_id sale <> user_id user ->
       status_of (fst (PUT token b d)) = 403%nat /\ snd (PUT token b d) = d) /\
      (sale_status sale = "aberta"%string ->
       is_admin user = true \/ sale_attendant_id sale = user_id user ->
       status_of (fst (PUT token b d)) = 200%nat /\
       fst (PUT token b d) = Updated (final_total b its) /\
       stored_totals b saleId its (final_total b its) (snd (PUT token b d)))).
Proof.
  split.
  - intros Hnone. unfold PUT. rewrite Hauth, Hid.
    rewrite filter_none; [now split|].
    intros s Hin. apply Nat.eqb_neq. now apply Hnone.
  - intros sale Hfind. rewrite find_filter in Hfind.
    destruct (filter (fun s => (sale_id s =? saleId)%nat) (sales d))
      as [|sale' rest] eqn:Hsel; [discriminate|].
    injection Hfind as ->.
    split; [|split].
    + intros Hclosed. unfold PUT. rewrite Hauth, Hid, Hsel.
      destruct (String.eqb_spec (sale_status sale) "aberta") as [E|_];
        [contradiction|]. now split.
    + intros Hopen Hadmin Hother. unfold PUT. rewrite Hauth, Hid, Hsel.
      rewrite Hopen, Hadmin. simpl.
      destruct (Nat.eqb_spec (sale_attendant_id sale) (user_id user)) as [E|_];
        [contradiction|]. now split.
    + intros Hopen Hmay.
      assert (Hrun : PUT token b d
                     = (Updated (final_total b its),
                        snd (write_items_and_totals saleId its b
                               (delete_items saleId
                                  (update_sales saleId (set_header b) d))))).
      { assert (Hgate : negb (is_admin user)
                        && negb (sale_attendant_id sale =? user_id user)%nat
                        = false).
        { destruct Hmay as [Hadmin|Hown].
          - now rewrite Hadmin.
          - rewrite Hown, Nat.eqb_refl. apply andb_false_r. }
        unfold PUT. rewrite Hauth, Hid, Hsel, Hopen, Hits, Hgate.
        rewrite String.eqb_refl. cbn [negb].
        rewrite write_items_and_totals_eq. reflexivity. }
      rewrite Hrun. cbn [fst snd status_of].
      split; [reflexivity|]. split; [reflexivity|].
      eapply PUT_reconciled; [exact Hrun | exact Hid | exact Hits].
Qed.

Lemma update_checks_witness :
  authenticateUser (Signed 1) Sample.shop_open
  = inr (mk_user 1 "Ana" "Lima" "ana@shop" false) /\
  status_of (fst (PUT (Signed 1) Sample.order Sample.shop_open)) = 200%nat.
Proof.
  split; [reflexivity|].
  refine (proj1 (proj2 (proj2
    (proj2 (update_checks (Signed 1) Sample.order Sample.shop_open
              (mk_user 1 "Ana" "Lima" "ana@shop" false) 1
              (match items Sample.order with Some l => l | None => [] end)
              eq_refl eq_refl eq_refl)
       (match sales Sample.shop_open with
        | s :: _ => s
        | [] => mk_sale 0 None 0 0 None "aberta" None None (Js.Num 0) 0 (Js.Num 0)
                   (Some 0) None None
        end)
       eq_refl)) eq_refl (or_intror eq_refl))).
Defined.

(** The three refusals on the sample shop: an unknown sale, a sale of
    another attendant, and (for the administrator) a sale that is no longer
    open. *)
Example update_refusals :
  status_of (fst (PUT (Signed 1) Sample.order_unknown Sample.shop_open)) = 404%nat
  /\ status_of (fst (PUT (Signed 3) Sample.order Sample.shop_open)) = 403%nat
  /\ status_of (fst (PUT (Signed 2) Sample.order Sample.shop_confirmed)) = 400%nat
  /\ status_of (fst (PUT (Signed 3) Sample.order Sample.shop_confirmed)) = 400%nat.
Proof.
  repeat split; reflexivity.
Qed.

Lemma div_nonzero (a : Q) (q : Z) :
  q <> 0%Z -> Js.div a (inject_Z q) = Some (a / inject_Z q).
Proof.
  intros Hq. unfold Js.div.
  destruct (Qeq_bool (inject_Z q) 0) eqn:E; [|reflexivity].
  apply Qeq_bool_eq in E. unfold Qeq in E. simpl in E. lia.
Qed.

Lemma over_nonzero (a : option Q) (q : Z) :
  q <> 0%Z ->
  Js.over a (inject_Z q) = option_map (fun t => t / inject_Z q) a.
Proof.
  intros Hq. destruct a as [t|]; [|reflexivity].
  exact (div_nonzero t q Hq).
Qed.

(** The scenario of the specification: ten credits paid 500 give a package
    of unit price 50, nothing consumed, ten available. *)
Example package_of_ten :
  client_packages
    (snd (POST (Signed 1) (Sample.order_package 10 (Some 5%nat)) 0 Sample.shop))
  = [mk_package 3 1 5 1 10 0 10
       (option_map (fun t => t / inject_Z 10)
          (final_total (Sample.order_package 10 (Some 5%nat))
             [Sample.package_line 10]))
       (final_total (Sample.order_package 10 (Some 5%nat))
          [Sample.package_line 10]) true]
  /\ is_number
       (final_total (Sample.order_package 10 (Some 5%nat))
          [Sample.package_line 10]) 500
  /\ is_number
       (option_map (fun t => t / inject_Z 10)
          (final_total (Sample.order_package 10 (Some 5%nat))
             [Sample.package_line 10])) 50.
Proof.
  repeat split; reflexivity.
Qed.

(** C5, as the code has it. A package sale that carries a serviceId and
    whose first item has a quantity other than zero is created and adds
    exactly one package: initialQuantity is the first item's quantity,
    totalPaid the sale's final total, consumedQuantity 0, availableQuantity
    the initial quantity, isActive true, unitPrice totalPaid divided by the
    initial quantity.  A package sale without serviceId is created too and
    adds no package.  No check is made on the sign of the quantity. *)
Theorem package_sale_creates_package (token : credential) (b : body)
    (now : nat) (d : Db) (user : user_row) (client : ident)
    (firstItem : item_in) (rest : list item_in)
    (Hauth : authenticateUser token d = inr user)
    (Hclient : clientId b = Some client)
    (Hpay : Js.truthy_string (paymentMethod b) = true)
    (Hitems : items b = Some (firstItem :: rest))
    (Htype : saleType b = Some "02"%string) :
  let total := final_total b (firstItem :: rest) in
  (forall service,
      serviceId b = Some service ->
      quantity firstItem <> 0%Z ->
      exists d',
        POST token b now d
        = (Created (next_id d) now total (Some "02"%string), d') /\
        client_packages d' =
          client_packages d ++
          [mk_package (List.length (firstItem :: rest) + S (next_id d)) client
             service (next_id d) (quantity firstItem) 0 (quantity firstItem)
             (option_map (fun t => t / inject_Z (quantity firstItem)) total)
             total true]) /\
  (serviceId b = None ->
   exists d',
     POST token b now d
     = (Created (next_id d) now total (Some "02"%string), d') /\
     client_packages d' = client_packages d).
Proof.
  intros total. split.
  - intros service Hservice Hq.
    eexists. split.
    + unfold POST. rewrite Hauth, Hclient, Hpay, Hitems, Htype.
      cbn [negb Js.str_is String.eqb Ascii.eqb Bool.eqb andb].
      rewrite write_items_and_totals_eq.
      unfold by_sale_type. rewrite Htype, Hservice.
      cbn [Js.str_is String.eqb Ascii.eqb Bool.eqb andb].
      rewrite (over_nonzero _ _ Hq). reflexivity.
    + reflexivity.
  - intros Hservice.
    eexists. split.
    + unfold POST. rewrite Hauth, Hclient, Hpay, Hitems, Htype.
      cbn [negb Js.str_is String.eqb Ascii.eqb Bool.eqb andb].
      rewrite write_items_and_totals_eq.
      unfold by_sale_type. rewrite Htype, Hservice.
      cbn [Js.str_is String.eqb Ascii.eqb Bool.eqb andb].
      reflexivity.
    + reflexivity.
Qed.

Lemma package_sale_creates_package_witness :
  exists d',
    POST (Signed 1) (Sample.order_package 10 (Some 5%nat)) 0 Sample.shop
    = (Created 1 0
         (final_total (Sample.order_package 10 (Some 5%nat))
            [Sample.package_line 10]) (Some "02"%string), d') /\
    client_packages d' =
      [mk_package 3 1 5 1 10 0 10
         (option_map (fun t => t / inject_Z 10)
            (final_total (Sample.order_package 10 (Some 5%nat))
               [Sample.package_line 10]))
         (final_total (Sample.order_package 10 (Some 5%nat))
            [Sample.package_line 10]) true].
Proof.
  refine (proj1
    (package_sale_creates_package (Signed 1)
       (Sample.order_package 10 (Some 5%nat)) 0 Sample.shop
       (mk_user 1 "Ana" "Lima" "ana@shop" false) 1 (Sample.package_line 10) []
       eq_refl eq_refl eq_refl eq_refl eq_refl) 5%nat eq_refl _).
  discriminate.
Defined.

(** C5 does not hold as stated: a package sale without serviceId is created
    and adds no package; and a package sale of -2 units is created, not
    refused, with a package of initial quantity -2. *)
Lemma package_sale_counterexample :
  (status_of (fst (POST (Signed 1) (Sample.order_package 10 None) 0 Sample.shop))
   = 201%nat /\
   client_packages
     (snd (POST (Signed 1) (Sample.order_package 10 None) 0 Sample.shop)) = [])
  /\
  (status_of
     (fst (POST (Signed 1) (Sample.order_package (-2) (Some 5%nat)) 0 Sample.shop))
   = 201%nat /\
   map pkg_initial_quantity
     (client_packages
        (snd (POST (Signed 1) (Sample.order_package (-2) (Some 5%nat)) 0
                Sample.shop)))
   = [(-2)%Z]).
Proof.
  repeat split; reflexivity.
Qed.

(** A package consumption that asks for more than the package holds is
    refused with status 400, and the sale and its items are rolled back. *)
Lemma POST_overdraw (token : credential) (b : body) (now : nat) (d : Db)
    (user : user_row) (client package : ident) (firstItem : item_in)
    (rest : list item_in) (p : package_row) :
  authenticateUser token d = inr user ->
  clientId b = Some client ->
  Js.truthy_string (paymentMethod b) = true ->
  items b = Some (firstItem :: rest) ->
  saleType b = Some "03"%string ->
  packageId b = Some package ->
  Ledger.lookup package d = Some p ->
  (pkg_available_quantity p < quantity firstItem)%Z ->
  status_of (fst (POST token b now d)) = 400%nat /\ snd (POST token b now d) = d.
Proof.
  intros Hauth Hclient Hpay Hitems Htype Hpackage Hfind Hlt.
  unfold POST. rewrite Hauth, Hclient, Hpay, Hitems, Htype, Hpackage.
  cbn [negb Js.str_is Js.truthy_id String.eqb Ascii.eqb Bool.eqb andb].
  rewrite write_items_and_totals_eq.
  unfold by_sale_type. rewrite Htype, Hpackage.
  cbn [Js.str_is String.eqb Ascii.eqb Bool.eqb andb].
  unfold Ledger.consume_package. cbn [client_packages insert_sale].
  unfold Ledger.lookup in Hfind.
  rewrite (LedgerFacts.consume_row_insufficient _ _ _ _ Hfind Hlt).
  split; reflexivity.
Qed.

(** On the sample shop: eleven credits asked of a package of ten. *)
Example overdraw_of_ten :
  fst (POST (Signed 1) (Sample.consume 11) 0 Sample.shop_with_package)
  = Failed 400 "Erro ao consumir pacote: saldo insuficiente"
  /\ snd (POST (Signed 1) (Sample.consume 11) 0 Sample.shop_with_package)
     = Sample.shop_with_package
  /\ map (fun p => (pkg_consumed_quantity p, pkg_available_quantity p))
       (client_packages
          (snd (POST (Signed 1) (Sample.consume 3) 0 Sample.shop_with_package)))
     = [(3, 7)]%Z.
Proof.
  repeat split; reflexivity.
Qed.

(** ** The listing *)

Lemma insert_by_date_perm (r : sale_row * client_row * user_row) :
  forall l, Permutation (insert_by_date r l) (r :: l).
Proof.
  induction l as [|r' l IH]; simpl.
  - apply Permutation_refl.
  - destruct (sale_date (fst (fst r')) <=? sale_date (fst (fst r)))%nat.
    + apply Permutation_refl.
    + eapply Permutation_trans; [apply perm_skip, IH | apply perm_swap].
Qed.

Lemma order_by_date_desc_perm (l : list (sale_row * client_row * user_row)) :
  Permutation (order_by_date_desc l) l.
Proof.
  induction l as [|r l IH]; simpl.
  - apply Permutation_refl.
  - eapply Permutation_trans; [apply insert_by_date_perm|].
    now apply perm_skip.
Qed.

(** A key that is unique in a table selects one row. *)
Lemma filter_unique (A : Type) (key : A -> ident) (l : list A) (x : A) :
  NoDup (map key l) -> In x l ->
  filter (fun y => (key x =? key y)%nat) l = [x].
Proof.
  induction l as [|y l IH]; intros Hnd Hin; [contradiction|].
  simpl in Hnd. inversion Hnd as [|? ? Hnotin Hnd']; subst.
  simpl. destruct Hin as [->|Hin].
  - rewrite Nat.eqb_refl. f_equal.
    apply filter_none. intros z Hz. apply Nat.eqb_neq.
    intros E. apply Hnotin. rewrite E. now apply in_map.
  - destruct (Nat.eqb_spec (key x) (key y)) as [E|_].
    + exfalso. apply Hnotin. rewrite <- E. now apply in_map.
    + now apply IH.
Qed.

Lemma joined_one (d : Db) (s : sale_row) :
  referential_integrity d -> In s (sales d) ->
  exists c u, joined_for d s = [(s, c, u)].
Proof.
  intros (Hclients & Husers & Hfk) Hin.
  destruct (Hfk s Hin) as ((c & Hc & Hsc) & (u & Hu & Hsu)).
  exists c, u. unfold joined_for.
  assert (Ec : filter (joins_client s) (clients d) = [c]).
  { rewrite <- (filter_unique _ client_id (clients d) c Hclients Hc).
    apply filter_ext. intros c'. unfold joins_client. now rewrite Hsc. }
  assert (Eu : filter (joins_user s) (users d) = [u]).
  { rewrite <- (filter_unique _ user_id (users d) u Husers Hu).
    apply filter_ext. intros u'. unfold joins_user. now rewrite Hsu. }
  rewrite Ec. simpl. now rewrite Eu.
Qed.

Lemma joined_sales (user : user_row) (d : Db) :
  referential_integrity d ->
  map (fun r => fst (fst r)) (joined user d)
  = filter (where_clause user) (sales d).
Proof.
  intros Hri. unfold joined. fold (joined_for d).
  assert (Hsub : forall s, In s (filter (where_clause user) (sales d)) ->
                           In s (sales d))
    by (intros s Hs; now apply filter_In in Hs).
  induction (filter (where_clause user) (sales d)) as [|s l IH]; simpl;
    [reflexivity|].
  destruct (joined_one d s Hri (Hsub s (or_introl eq_refl))) as (c & u & E).
  rewrite E. simpl. f_equal. apply IH.
  intros s' Hs'. apply Hsub. now right.
Qed.

Lemma formatted_sales (d : Db) (l : list (sale_row * client_row * user_row)) :
  map fs_sale (map (format d) l) = map (fun r => fst (fst r)) l.
Proof.
  rewrite map_map. apply map_ext. now intros [[s c] u].
Qed.

Lemma GET_lists (token : credential) (d : Db) (user : user_row) :
  authenticateUser token d = inr user ->
  referential_integrity d ->
  exists l, GET token d = Listed l /\
    Permutation (map fs_sale l) (filter (where_clause user) (sales d)) /\
    Forall (fun fs => fs_items fs = items_of (sale_id (fs_sale fs)) d) l.
Proof.
  intros Hauth Hri. unfold GET. rewrite Hauth.
  eexists. split; [reflexivity|]. split.
  - rewrite formatted_sales, <- (joined_sales user d Hri).
    apply Permutation_map, order_by_date_desc_perm.
  - apply Forall_forall. intros fs Hin.
    apply in_map_iff in Hin as ([[s c] u] & <- & _). reflexivity.
Qed.

Lemma filter_all (A : Type) (p : A -> bool) (l : list A) :
  (forall x, p x = true) -> filter p l = l.
Proof.
  intros H. induction l as [|x l IH]; simpl; [reflexivity|].
  now rewrite H, IH.
Qed.

(** Every sale [GET] lists is a stored sale with its own items, and one of
    the caller's own unless the caller is an admin. *)
Lemma GET_sound (token : credential) (d : Db) (user : user_row) :
  authenticateUser token d = inr user ->
  GET token d = Listed (listed (GET token d)) /\
  Forall (fun fs =>
            In (fs_sale fs) (sales d) /\
            fs_items fs = items_of (sale_id (fs_sale fs)) d /\
            (is_admin user = false ->
             sale_attendant_id (fs_sale fs) = user_id user))
    (listed (GET token d)).
Proof.
  intros Hauth. unfold GET. rewrite Hauth. cbn [listed].
  split; [reflexivity|].
  apply Forall_forall. intros fs Hin.
  apply in_map_iff in Hin as ([[s c] u] & <- & Hin).
  apply (Permutation_in _ (order_by_date_desc_perm _)) in Hin.
  unfold joined in Hin. apply in_flat_map in Hin as (s' & Hs' & Hin).
  apply in_flat_map in Hin as (c' & _ & Hin).
  apply in_map_iff in Hin as (u' & E & _). injection E as -> -> ->.
  apply filter_In in Hs' as [Hs' Hw]. cbn [format fs_sale fs_items].
  split; [exact Hs'|]. split; [reflexivity|].
  intros Hrole. unfold where_clause in Hw. rewrite Hrole in Hw.
  now apply Nat.eqb_eq in Hw.
Qed.

(** C10. An authenticated caller is answered with a list of stored sales,
    each with its own items; a caller who is not an admin is sent only
    sales whose attendant_id is the caller's id.  Under the keys of the
    datastore (unique client and user ids, every sale referring to an
    existing client and attendant), an admin receives all the sales, and a
    caller who is not an admin exactly the sales whose attendant_id is the
    caller's id.  The answer to a caller who is not an admin is the same in
    any two states that differ only in the sales of other attendants and
    their items. *)
Theorem listing_by_role (token : credential) (d : Db) (user : user_row)
    (Hauth : authenticateUser token d = inr user) :
  GET token d = Listed (listed (GET token d)) /\
  Forall (fun fs =>
            In (fs_sale fs) (sales d) /\
            fs_items fs = items_of (sale_id (fs_sale fs)) d /\
            (is_admin user = false ->
             sale_attendant_id (fs_sale fs) = user_id user))
    (listed (GET token d)) /\
  (referential_integrity d ->
   (is_admin user = true ->
    Permutation (map fs_sale (listed (GET token d))) (sales d)) /\
   (is_admin user = false ->
    Permutation (map fs_sale (listed (GET token d)))
      (filter (fun s => (sale_attendant_id s =? user_id user)%nat) (sales d))))
  /\
  (is_admin user = false ->
   forall d2,
     users d2 = users d -> clients d2 = clients d ->
     filter (fun s => (sale_attendant_id s =? user_id user)%nat) (sales d2)
     = filter (fun s => (sale_attendant_id s =? user_id user)%nat) (sales d) ->
     (forall s, In s (sales d) -> sale_attendant_id s = user_id user ->
                items_of (sale_id s) d2 = items_of (sale_id s) d) ->
     GET token d2 = GET token d).
Proof.
  destruct (GET_sound token d user Hauth) as [Hget Hsound].
  split; [exact Hget|]. split; [exact Hsound|]. split.
  - intros Hri.
    destruct (GET_lists token d user Hauth Hri) as (l & Hl & Hperm & _).
    rewrite Hl. cbn [listed].
    unfold where_clause in Hperm. split; intros Hrole; rewrite Hrole in Hperm.
    + now rewrite filter_all in Hperm.
    + exact Hperm.
  - intros Hrole d2 Hu Hc Hown Hitems.
    assert (Hauth2 : authenticateUser token d2 = inr user).
    { unfold authenticateUser in *. now rewrite Hu. }
    unfold GET. rewrite Hauth, Hauth2. f_equal.
    assert (Hjoin : joined user d2 = joined user d).
    { unfold joined, where_clause. rewrite Hrole, Hu, Hc, Hown. reflexivity. }
    rewrite Hjoin. apply map_ext_in. intros [[s c] u] Hin.
    unfold format. f_equal.
    apply (Permutation_in _ (order_by_date_desc_perm _)) in Hin.
    unfold joined in Hin. apply in_flat_map in Hin as (s' & Hs' & Hin).
    apply in_flat_map in Hin as (c' & _ & Hin).
    apply in_map_iff in Hin as (u' & E & _). injection E as -> -> ->.
    apply filter_In in Hs' as [Hs' Hw].
    unfold where_clause in Hw. rewrite Hrole in Hw. apply Nat.eqb_eq in Hw.
    now apply Hitems.
Qed.

Lemma shop_busy_keys : referential_integrity Sample.shop_busy.
Proof.
  split; [|split].
  - repeat constructor. simpl. tauto.
  - repeat constructor; simpl; intuition discriminate.
  - intros s Hin. vm_compute in Hin.
    destruct Hin as [<-|[<-|[]]]; split.
    + exists (mk_client 1 "Cliente"). split; [vm_compute; tauto | reflexivity].
    + exists (mk_user 1 "Ana" "Lima" "ana@shop" false).
      split; [vm_compute; tauto | reflexivity].
    + exists (mk_client 1 "Cliente"). split; [vm_compute; tauto | reflexivity].
    + exists (mk_user 3 "Eva" "Reis" "eva@shop" false).
      split; [vm_compute; tauto | reflexivity].
Qed.

(** On the sample shop the administrator is sent both sales, the later one
    first, and attendant 1 only sale 1. *)
Example listing_of_shop_busy :
  (exists l, GET (Signed 2) Sample.shop_busy = Listed l /\
             map (fun fs => sale_id (fs_sale fs)) l = [4; 1]%nat) /\
  (exists l, GET (Signed 1) Sample.shop_busy = Listed l /\
             map (fun fs => sale_id (fs_sale fs)) l = [1]%nat).
Proof.
  split; eexists; split; reflexivity.
Qed.

Lemma listing_by_role_witness :
  authenticateUser (Signed 1) Sample.shop_busy
  = inr (mk_user 1 "Ana" "Lima" "ana@shop" false) /\
  Permutation (map fs_sale (listed (GET (Signed 1) Sample.shop_busy)))
    (filter (fun s => (sale_attendant_id s =? 1)%nat) (sales Sample.shop_busy)).
Proof.
  split; [reflexivity|].
  exact (proj2 (proj1 (proj2 (proj2
    (listing_by_role (Signed 1) Sample.shop_busy
       (mk_user 1 "Ana" "Lima" "ana@shop" false) eq_refl))) shop_busy_keys)
    eq_refl).
Defined.

End RouteFacts.

(** ** The sales page and the route together *)

Module PageFacts.

Import Route Notions Page.

(** The request the page sends for a package consumption. *)
Lemma handleSubmit_consumption (services : list Service)
    (clientPackages : list ClientPackage) (session : option ident)
    (f : FormData) (b : body) :
  form_saleType f = "03"%string ->
  handleSubmit services clientPackages session f = inr b ->
  exists name price subtotal,
    items b =
      Some [mk_item_in None name (form_quantity f) price (Some subtotal)
              (Some "percentage"%string) (Some (Js.Num 0))].
Proof.
  intros Htype. unfold handleSubmit. rewrite Htype.
  cbn [String.eqb Ascii.eqb Bool.eqb].
  destruct (form_packageId f) as [k|]; [|discriminate].
  destruct (selectedPackage clientPackages f) as [p|]; [|discriminate].
  destruct (availableQuantity p <? form_quantity f)%Z; [discriminate|].
  destruct (form_quantity f <=? 0)%Z; [discriminate|].
  destruct session as [t|]; [|discriminate].
  intros H. injection H as <-.
  unfold payload. rewrite Htype. cbn [String.eqb Ascii.eqb Bool.eqb items].
  now eexists _, _, _.
Qed.

(** C4, as the code has it. The request the page builds for a package
    consumption carries discountType "percentage" and discountValue 0, and a
    sale created from it stores its item with discountAmount 0 and a total
    equal to the subtotal.  (The server applies the discount fields it
    receives, whatever the sale type.) *)
Theorem package_consumption_undiscounted_by_page (services : list Service)
    (clientPackages : list ClientPackage) (session : option ident)
    (token : credential)
    (f : FormData) (b : body) (now : nat) (d d' : Db) (saleId : ident)
    (date : nat) (total : option Q) (type : option string)
    (Htype : form_saleType f = "03"%string)
    (Hsent : handleSubmit services clientPackages session f = inr b)
    (Hpost : POST token b now d = (Created saleId date total type, d'))
    (Hfresh : fresh d) :
  exists row,
    items_of saleId d' = [row] /\
    item_discount_amount row = Js.Num 0 /\
    is_number (item_total row) (item_subtotal row).
Proof.
  destruct (handleSubmit_consumption _ _ _ _ _ Htype Hsent)
    as (name & price & subtotal & Hitems).
  destruct (RouteFacts.POST_items_of _ _ _ _ _ _ _ _ _ Hpost Hfresh)
    as (its & Hits & Hrows).
  rewrite Hitems in Hits. injection Hits as <-.
  eexists. split; [exact Hrows|].
  simpl. unfold discount_amount. simpl. split; [reflexivity | ring].
Qed.

Lemma package_consumption_undiscounted_by_page_witness :
  exists row,
    items_of 8
      (snd (POST (Signed 1) Sample.sent_consumption 0 Sample.shop_with_package))
    = [row] /\
    item_discount_amount row = Js.Num 0 /\
    is_number (item_total row) (item_subtotal row).
Proof.
  refine (package_consumption_undiscounted_by_page Sample.catalogue
            Sample.wallet (Some 1%nat) (Signed 1) Sample.form_consumption
            Sample.sent_consumption 0 Sample.shop_with_package _ 8 0 _
            (Some "03"%string) eq_refl eq_refl eq_refl _).
  intros it [].
Defined.

(** C4 does not hold as stated: a package consumption that asks for ten per
    cent off is created with a discount of 15 on its item of 150. *)
Lemma package_consumption_discount_counterexample :
  status_of
    (fst (POST (Signed 1) Sample.order_consumption 0 Sample.shop_with_package))
  = 201%nat /\
  exists row,
    items_of 8
      (snd (POST (Signed 1) Sample.order_consumption 0 Sample.shop_with_package))
    = [row] /\
    reads (item_discount_amount row) 15 /\
    ~ reads (item_discount_amount row) 0 /\
    ~ is_number (item_total row) (item_subtotal row).
Proof.
  split; [reflexivity|].
  eexists. split; [reflexivity|].
  split; [reflexivity|]. split; intros H; discriminate H.
Qed.

(** C2 at a failing input: one unit at 10 with a fixed discount of 20,
    held by the form as the number 20 or, once typed in, as the text "20".
    The form previews a total of 0 ([calculateTotal] caps it); the request
    the page sends is created with an item total and a sale total of -10,
    and an update of the sale with the same body stores -10 again. *)
Theorem fixed_discount_not_capped :
  Forall
    (fun f =>
       is_number (calculateTotal Sample.catalogue [] f) 0 /\
       exists b,
         handleSubmit Sample.catalogue [] (Some 1%nat) f = inr b /\
         let created := POST (Signed 1) b 0 Sample.shop in
         let updated := PUT (Signed 1) (Sample.as_update 1 b) (snd created) in
         status_of (fst created) = 201%nat /\
         Forall2 is_number (map item_total (items_of 1 (snd created)))
           [-10 # 1] /\
         Forall2 is_number (map sale_total (sales (snd created))) [-10 # 1] /\
         status_of (fst updated) = 200%nat /\
         Forall2 is_number (map item_total (items_of 1 (snd updated)))
           [-10 # 1] /\
         Forall2 is_number (map sale_total (sales (snd updated))) [-10 # 1])
    [Sample.form_overdiscounted; Sample2.form_typed].
Proof.
  constructor; [|constructor; [|constructor]].
  - split; [reflexivity|].
    eexists. split; [reflexivity|].
    cbv zeta.
    repeat split; try reflexivity; repeat constructor.
  - split; [reflexivity|].
    eexists. split; [reflexivity|].
    cbv zeta.
    repeat split; try reflexivity; repeat constructor.
Qed.

(** ** Progressive pricing *)

Lemma or_default_nonzero (v dflt : Q) :
  ~ v == 0 -> Js.or_default (Some v) dflt = v.
Proof.
  intros Hv. unfold Js.or_default.
  destruct (Qeq_bool v 0) eqn:E; [|reflexivity].
  apply Qeq_bool_eq in E. contradiction.
Qed.

(** The ranges are looked at in the order of their minimum quantity. *)
Example complaint_tiers_sorted :
  map minQuantity (ranges_for "01" Sample.complaint_tiers) = [1; 11]%Z.
Proof.
  reflexivity.
Qed.

(** For a service whose name contains the unaccented "reclamacao" (whatever
    the case of its ASCII letters), with at least two applicable ranges of
    non-zero unit price, the subtotal is the first ten units at the first
    range's price plus the units beyond ten at the second range's price. *)
Lemma progressive_two_brackets (saleType : string) (qty : Z) (name : string)
    (ranges : list PriceRange) (r1 r2 : PriceRange) (rest : list PriceRange)
    (Hname : Js.includes "reclamacao" (Js.toLowerCase name) = true)
    (Hranges : ranges_for saleType ranges = r1 :: r2 :: rest)
    (H1 : ~ range_unitPrice r1 == 0)
    (H2 : ~ range_unitPrice r2 == 0) :
  calculateProgressivePrice saleType qty name ranges
  == inject_Z (Z.min qty 10) * range_unitPrice r1
     + inject_Z (Z.max 0 (qty - 10)) * range_unitPrice r2.
Proof.
  unfold calculateProgressivePrice. rewrite Hranges, Hname.
  unfold rate_or. cbn [nth_error option_map].
  rewrite (or_default_nonzero _ _ H1).
  destruct (Z.leb_spec qty 10) as [Hle|Hgt].
  - rewrite Z.min_l by exact Hle. rewrite Z.max_l by lia.
    change (inject_Z 0) with 0. ring.
  - rewrite (or_default_nonzero _ _ H2).
    rewrite Z.min_r by lia. rewrite Z.max_r by lia.
    change (inject_Z 10) with 10. ring.
Qed.

(** The scenario of the specification under the unaccented name: tiers
    [1-10] at 40 and [11-] at 15, fifteen units, 10 x 40 + 5 x 15 = 475. *)
Example unaccented_scenario :
  calculateProgressivePrice "01" 15 "Reclamacao" Sample.complaint_tiers == 475.
Proof.
  eapply Qeq_trans.
  - apply (progressive_two_brackets "01" 15 "Reclamacao" Sample.complaint_tiers
             (mk_range "01" 1 (Some 10%Z) 40) (mk_range "01" 11 None 15) []
             eq_refl eq_refl).
    + intros H; discriminate H.
    + intros H; discriminate H.
  - reflexivity.
Qed.

(** The progressive formula is chosen by the service's name, whatever the
    case of its letters; any other name is priced by the range that holds
    the quantity. *)
Example pricing_by_name :
  calculateProgressivePrice "01" 15 "RECLAMACAO de servico" Sample.complaint_tiers
    == 475 /\
  calculateProgressivePrice "01" 15 "Atraso" Sample.complaint_tiers == 225 /\
  calculateProgressivePrice "02" 8 "Reclamacao" Sample.complaint_tiers == 320.
Proof.
  repeat split; reflexivity.
Qed.

(** C8 does not hold of the page for the complaint service under its own
    name.  The progressive formula is chosen by looking for the unaccented
    "reclamacao" in the lower-cased name; the name as the page's own
    comment writes it, with a cedilla and a tilde, does not contain it, and
    the service is priced by the range that holds the quantity: with tiers
    [1-10] at 40 and [11-] at 15, fifteen units give 15 x 15 = 225, not
    10 x 40 + 5 x 15 = 475, and that is the subtotal the page sends and
    [POST] stores.  Besides, under the unaccented name, a tier whose unit
    price is zero is charged the constants 40 and 15 and not its rate. *)
Theorem complaint_name_priced_flat :
  Js.includes "reclamacao" (Js.toLowerCase Sample2.complaint_name) = false /\
  calculateProgressivePrice "01" 15 Sample2.complaint_name
    Sample.complaint_tiers == 15 * 15 /\
  ~ calculateProgressivePrice "01" 15 Sample2.complaint_name
      Sample.complaint_tiers == 10 * 40 + 5 * 15 /\
  (exists b,
     handleSubmit Sample2.catalogue_accented [] (Some 1%nat)
       Sample2.form_complaint = inr b /\
     map calculatedSubtotal (match items b with Some l => l | None => [] end)
     = [Some 225] /\
     map sale_subtotal (sales (snd (POST (Signed 1) b 0 Sample.shop))) = [225]) /\
  calculateProgressivePrice "01" 15 "Reclamacao" Sample.complaint_tiers
    == 10 * 40 + 5 * 15 /\
  calculateProgressivePrice "01" 15 "Reclamacao" Sample2.free_tiers == 475 /\
  ~ calculateProgressivePrice "01" 15 "Reclamacao" Sample2.free_tiers
    == 10 * 0 + 5 * 0.
Proof.
  split; [reflexivity|]. split; [reflexivity|].
  split; [intros H; discriminate H|].
  split.
  { eexists. split; [reflexivity|]. split; reflexivity. }
  split; [reflexivity|]. split; [reflexivity|].
  intros H; discriminate H.
Qed.

End PageFacts.

(** ** The handlers: refusals, frames and compositions *)

Module RouteMore.

Import Route Notions Conditions RouteFacts.

Lemma not_a_user_fails (token : credential) (d : Db) :
  not_a_user token d ->
  exists message,
    authenticateUser token d = inl message /\
    Js.includes "autenticacao" message = true.
Proof.
  destruct token as [| |userId]; simpl; intros H.
  - eexists; split; reflexivity.
  - eexists; split; reflexivity.
  - rewrite filter_none.
    + eexists; split; reflexivity.
    + intros u Hu. apply Nat.eqb_neq. now apply H.
Qed.

(** A request whose token is missing, does not verify or names no user is
    answered 401 by the three handlers, and nothing is written. *)
Theorem unauthenticated_401 (token : credential) (b : body) (now : nat) (d : Db)
    (H : not_a_user token d) :
  status_of (GET token d) = 401%nat /\
  (status_of (fst (POST token b now d)) = 401%nat /\ snd (POST token b now d) = d) /\
  (status_of (fst (PUT token b d)) = 401%nat /\ snd (PUT token b d) = d).
Proof.
  destruct (not_a_user_fails token d H) as (message & Hauth & Hmsg).
  unfold GET, POST, PUT, catch_status, catch_status_GET.
  rewrite Hauth, Hmsg. simpl. repeat split.
Qed.

Lemma unauthenticated_401_witness :
  status_of (GET (Signed 9) Sample.shop_open) = 401%nat.
Proof.
  refine (proj1 (unauthenticated_401 (Signed 9) Sample.order 0 Sample.shop_open _)).
  simpl. intros u Hu. vm_compute in Hu.
  destruct Hu as [<-|[<-|[<-|[]]]]; discriminate.
Defined.

(** A [POST] that is not answered 201 and a [PUT] that is not answered 200
    leave every table as it was. *)
Theorem refused_writes_nothing (token : credential) (b : body) (now : nat)
    (d : Db) :
  (status_of (fst (POST token b now d)) <> 201%nat -> snd (POST token b now d) = d) /\
  (status_of (fst (PUT token b d)) <> 200%nat -> snd (PUT token b d) = d).
Proof.
  split.
  - unfold POST.
    destruct (authenticateUser token d) as [message|user]; [reflexivity|].
    destruct (clientId b) as [client|]; [|reflexivity].
    destruct (negb (Js.truthy_string (paymentMethod b))); [reflexivity|].
    destruct (items b) as [[|firstItem rest]|]; try reflexivity.
    destruct (Js.str_is (saleType b) "03" && negb (Js.truthy_id (packageId b)));
      [reflexivity|].
    rewrite write_items_and_totals_eq.
    destruct (by_sale_type _ _ _ _ _ _) as [message|d3]; [reflexivity|].
    simpl. intros H. now contradiction H.
  - unfold PUT.
    destruct (authenticateUser token d) as [message|user]; [reflexivity|].
    destruct (id b) as [saleId|]; [|reflexivity].
    destruct (filter _ (sales d)) as [|sale rest]; [reflexivity|].
    destruct (negb (String.eqb (sale_status sale) "aberta")); [reflexivity|].
    destruct (negb (is_admin user)
              && negb (sale_attendant_id sale =? user_id user)%nat);
      [reflexivity|].
    destruct (items b) as [its|]; [|reflexivity].
    rewrite write_items_and_totals_eq.
    simpl. intros H. now contradiction H.
Qed.

Lemma refused_writes_nothing_witness :
  snd (POST (Signed 1) (Sample.consume 11) 0 Sample.shop_with_package)
  = Sample.shop_with_package /\
  snd (PUT (Signed 3) Sample.order Sample.shop_open) = Sample.shop_open.
Proof.
  split.
  - apply (proj1 (refused_writes_nothing (Signed 1) (Sample.consume 11) 0
                    Sample.shop_with_package)).
    vm_compute. discriminate.
  - apply (proj2 (refused_writes_nothing (Signed 3) Sample.order 0
                    Sample.shop_open)).
    vm_compute. discriminate.
Defined.

(** The validations of [POST], in the order they are made: the client, the
    payment method, the items, the package of a consumption. *)
Theorem POST_validations (token : credential) (b : body) (now : nat) (d : Db)
    (user : user_row) (Hauth : authenticateUser token d = inr user) :
  (clientId b = None ->
   fst (POST token b now d) = Failed 400 "Cliente e obrigatorio") /\
  (clientId b <> None ->
   Js.truthy_string (paymentMethod b) = false ->
   fst (POST token b now d) = Failed 400 "Metodo de pagamento e obrigatorio") /\
  (clientId b <> None ->
   Js.truthy_string (paymentMethod b) = true ->
   items b = None \/ items b = Some [] ->
   fst (POST token b now d) = Failed 400 "A venda deve ter pelo menos um item") /\
  (clientId b <> None ->
   Js.truthy_string (paymentMethod b) = true ->
   (exists firstItem rest, items b = Some (firstItem :: rest)) ->
   saleType b = Some "03"%string ->
   packageId b = None ->
   fst (POST token b now d)
   = Failed 400 "Package ID obrigatorio para consumo de pacote").
Proof.
  unfold POST. rewrite Hauth.
  split; [|split; [|split]].
  - now intros ->.
  - intros Hc Hp. destruct (clientId b); [|contradiction]. now rewrite Hp.
  - intros Hc Hp Hi. destruct (clientId b); [|contradiction]. rewrite Hp.
    now destruct Hi as [-> | ->].
  - intros Hc Hp (firstItem & rest & Hi) Ht Hk.
    destruct (clientId b); [|contradiction]. now rewrite Hp, Hi, Ht, Hk.
Qed.

Lemma POST_validations_witness :
  fst (POST (Signed 1) Sample2.order_without_client 0 Sample.shop)
  = Failed 400 "Cliente e obrigatorio".
Proof.
  exact (proj1 (POST_validations (Signed 1) Sample2.order_without_client 0
                  Sample.shop (mk_user 1 "Ana" "Lima" "ana@shop" false) eq_refl)
           eq_refl).
Defined.

Lemma map_untouched (saleId : ident) (f : sale_row -> sale_row)
    (l : list sale_row) :
  (forall s, In s l -> sale_id s <> saleId) ->
  map (fun s => if (sale_id s =? saleId)%nat then f s else s) l = l.
Proof.
  induction l as [|s l IH]; intros H; simpl; [reflexivity|].
  destruct (Nat.eqb_spec (sale_id s) saleId) as [E|_].
  - exfalso. exact (H s (or_introl eq_refl) E).
  - f_equal. apply IH. intros s' Hs'. apply H. now right.
Qed.

(** The row a created sale adds. *)
Lemma POST_appends_open_sale_frame (token : credential) (b : body) (now : nat)
    (d d' : Db) (user : user_row) (saleId : ident) (date : nat) (total : option Q)
    (type : option string) :
  authenticateUser token d = inr user ->
  POST token b now d = (Created saleId date total type, d') ->
  fresh_sale d ->
  exists s,
    sales d' = sales d ++ [s] /\
    sale_id s = saleId /\ saleId = next_id d /\
    sale_status s = "aberta"%string /\
    sale_attendant_id s = user_id user /\
    users d' = users d.
Proof.
  intros Hauth Hpost Hfresh.
  destruct (POST_state _ _ _ _ _ _ _ _ _ Hpost)
    as (user' & client & firstItem & rest & Hu & Hc & Hi & Hs & Ht & Hitems
        & Hsales & Hty).
  rewrite Hauth in Hu. injection Hu as <-.
  destruct (by_sale_type_frame _ _ _ _ _ _ _ Hty) as (Husers & _).
  rewrite write_items_and_totals_eq in Husers.
  cbn [snd users insert_sale] in Husers.
  eexists. split.
  - rewrite Hsales. cbn [sales insert_sale]. rewrite map_app.
    rewrite map_untouched by (intros s Hin; rewrite Hs; now apply Hfresh).
    cbn [map sale_id]. rewrite Hs, Nat.eqb_refl. reflexivity.
  - cbn. repeat split; auto.
Qed.

(** A created sale is one new row after the others: open, attended by the
    authenticated caller whatever the body says, for the client and at the
    date of the request, with the total answered.  The other sales, their
    items, the users and the clients are as before. *)
Theorem POST_appends_open_sale (token : credential) (b : body) (now : nat)
    (d d' : Db) (user : user_row) (saleId : ident) (date : nat) (total : option Q)
    (type : option string)
    (Hauth : authenticateUser token d = inr user)
    (Hpost : POST token b now d = (Created saleId date total type, d'))
    (Hfresh : fresh_sale d) :
  exists s,
    sales d' = sales d ++ [s] /\
    sale_id s = saleId /\ saleId = next_id d /\
    sale_status s = "aberta"%string /\
    sale_attendant_id s = user_id user /\
    sale_client_id s = clientId b /\
    sale_date s = now /\ date = now /\
    sale_total s = total /\
    users d' = users d /\ clients d' = clients d /\
    (forall other, other <> saleId -> items_of other d' = items_of other d).
Proof.
  destruct (POST_state _ _ _ _ _ _ _ _ _ Hpost)
    as (user' & client & firstItem & rest & Hu & Hc & Hi & Hs & Ht & Hitems
        & Hsales & Hty).
  rewrite Hauth in Hu. injection Hu as <-.
  destruct (POST_created _ _ _ _ _ _ _ _ _ Hpost)
    as (_ & _ & _ & _ & _ & _ & _ & _ & Hdate & _).
  destruct (by_sale_type_frame _ _ _ _ _ _ _ Hty) as (Husers & Hclients & _ & _).
  rewrite write_items_and_totals_eq in Husers, Hclients.
  cbn [snd users clients insert_sale] in Husers, Hclients.
  eexists. split.
  - rewrite Hsales. cbn [sales insert_sale]. rewrite map_app.
    rewrite map_untouched by (intros s Hin; rewrite Hs; now apply Hfresh).
    cbn [map sale_id]. rewrite Hs, Nat.eqb_refl. reflexivity.
  - cbn. rewrite Hc. repeat split; auto.
    intros other Hother. unfold items_of.
    rewrite Hitems, filter_app, (rows_dropped saleId other _ Hother).
    apply app_nil_r.
Qed.

Lemma POST_appends_open_sale_witness :
  exists s,
    sales Sample.shop_busy = sales Sample.shop_open ++ [s] /\
    sale_status s = "aberta"%string /\
    sale_attendant_id s = 3%nat.
Proof.
  assert (Hfresh : fresh_sale Sample.shop_open).
  { intros s Hin. vm_compute in Hin. destruct Hin as [<-|[]]. discriminate. }
  destruct (POST_appends_open_sale (Signed 3) Sample.order 5 Sample.shop_open
              Sample.shop_busy (mk_user 3 "Eva" "Reis" "eva@shop" false) 4 5 _
              (Some "01"%string) eq_refl eq_refl Hfresh)
    as (s & Hs & _ & _ & Hopen & Hatt & _).
  exists s. repeat split; assumption.
Defined.

Lemma Forall2_map_self (A : Type) (P : A -> A -> Prop) (f : A -> A) (l : list A) :
  (forall x, P x (f x)) -> Forall2 P l (map f l).
Proof.
  intros H. induction l as [|x l IH]; simpl; constructor; auto.
Qed.

(** An update leaves every other sale as it was, and of the sale it updates
    it keeps the key, the attendant, the status and the dates.  It
    overwrites the client, the observations, the payment method and the
    general discount type and value with those of the request (an absent
    or empty observation or discount type becomes null, an absent, zero or
    empty discount value 0), and the subtotal, the total discount and the
    total with those computed from the items of the request. *)
Theorem PUT_keeps_standing (token : credential) (b : body) (d d' : Db)
    (total : option Q) (H : PUT token b d = (Updated total, d')) :
  Forall2 (fun s s' =>
             same_standing s s' /\ (Some (sale_id s) <> id b -> s' = s))
    (sales d) (sales d') /\
  (exists its,
     items b = Some its /\ total = final_total b its /\
     forall s', In s' (sales d') -> Some (sale_id s') = id b ->
       sale_client_id s' = clientId b /\
       sale_observations s' = or_null (observations b) /\
       sale_payment_method s' = paymentMethod b /\
       sale_general_discount_type s' = or_null (generalDiscountType b) /\
       sale_general_discount_value s' = Js.or0 (generalDiscountValue b) /\
       sale_subtotal s' = loop_subtotal its /\
       sale_total_discount s' = total_discount_written b its /\
       sale_total s' = total) /\
  users d' = users d /\ clients d' = clients d.
Proof.
  destruct (PUT_state _ _ _ _ _ H)
    as (saleId & its & sale & Hid & Hits & _ & _ & Ht & _ & Hsales & _ & _ & Hu
        & Hc).
  rewrite Hsales, map_map. split; [|split; [|split; assumption]];
    [|exists its; split; [exact Hits|]; split; [exact Ht|]].
  - apply Forall2_map_self. intros s. rewrite Hid.
    destruct (Nat.eqb_spec (sale_id s) saleId) as [E|N]; cbn.
    + rewrite E, Nat.eqb_refl. cbn.
      split; [now repeat split|]. intros Hne. now contradiction Hne.
    + destruct (Nat.eqb_spec (sale_id s) saleId); [contradiction|].
      split; [now repeat split | reflexivity].
  - intros s' Hin Hs'. rewrite Hid in Hs'. injection Hs' as Hs'.
    apply in_map_iff in Hin as (s & <- & _).
    destruct (Nat.eqb_spec (sale_id s) saleId) as [E|N]; cbn in *.
    + rewrite E, Nat.eqb_refl. cbn. now repeat split.
    + destruct (Nat.eqb_spec (sale_id s) saleId); [contradiction|].
      contradiction.
Qed.

Lemma PUT_keeps_standing_witness :
  Forall2 (fun s s' =>
             same_standing s s' /\
             (Some (sale_id s) <> id Sample2.reorder -> s' = s))
    (sales Sample.shop_busy)
    (sales (snd (PUT (Signed 2) Sample2.reorder Sample.shop_busy))).
Proof.
  exact (proj1 (PUT_keeps_standing (Signed 2) Sample2.reorder Sample.shop_busy
                  (snd (PUT (Signed 2) Sample2.reorder Sample.shop_busy))
                  (final_total Sample2.reorder
                     (match items Sample2.reorder with
                      | Some l => l | None => [] end))
                  eq_refl)).
Defined.

(** The run of a [PUT] that passes the three checks. *)
Lemma PUT_succeeds (token : credential) (b : body) (d : Db) (user : user_row)
    (saleId : ident) (sale : sale_row) (rest : list sale_row)
    (its : list item_in) :
  authenticateUser token d = inr user ->
  id b = Some saleId ->
  filter (fun s => (sale_id s =? saleId)%nat) (sales d) = sale :: rest ->
  sale_status sale = "aberta"%string ->
  is_admin user = true \/ sale_attendant_id sale = user_id user ->
  items b = Some its ->
  PUT token b d
  = (Updated (final_total b its),
     snd (write_items_and_totals saleId its b
            (delete_items saleId (update_sales saleId (set_header b) d)))).
Proof.
  intros Hauth Hid Hsel Hopen Hmay Hits.
  assert (Hgate : negb (is_admin user)
                  && negb (sale_attendant_id sale =? user_id user)%nat = false).
  { destruct Hmay as [Hadmin|Hown].
    - now rewrite Hadmin.
    - rewrite Hown, Nat.eqb_refl. apply andb_false_r. }
  unfold PUT. rewrite Hauth, Hid, Hsel, Hopen, Hits, Hgate.
  rewrite String.eqb_refl. cbn [negb].
  rewrite write_items_and_totals_eq. reflexivity.
Qed.

Lemma filter_map_sales (saleId : ident) (g : sale_row -> sale_row)
    (l : list sale_row) :
  (forall s, sale_id (g s) = sale_id s) ->
  filter (fun s => (sale_id s =? saleId)%nat) (map g l)
  = map g (filter (fun s => (sale_id s =? saleId)%nat) l).
Proof.
  intros Hg. induction l as [|s l IH]; simpl; [reflexivity|].
  rewrite Hg. destruct (sale_id s =? saleId)%nat; simpl; now rewrite IH.
Qed.

Lemma authenticateUser_users (token : credential) (d d' : Db) :
  users d' = users d -> authenticateUser token d' = authenticateUser token d.
Proof.
  intros H. unfold authenticateUser. now rewrite H.
Qed.

(** Whoever has created a sale may update it: an update of the new sale by
    the same caller, with any items, is answered 200 with the total of the
    new items. *)
Theorem creator_may_update (token : credential) (b b2 : body) (now : nat)
    (d d' : Db) (saleId : ident) (date : nat) (total : option Q)
    (type : option string) (its : list item_in)
    (Hpost : POST token b now d = (Created saleId date total type, d'))
    (Hfresh : fresh_sale d)
    (Hid : id b2 = Some saleId)
    (Hits : items b2 = Some its) :
  fst (PUT token b2 d') = Updated (final_total b2 its) /\
  status_of (fst (PUT token b2 d')) = 200%nat.
Proof.
  destruct (POST_created _ _ _ _ _ _ _ _ _ Hpost)
    as (user & _ & _ & _ & Hauth & _).
  destruct (POST_appends_open_sale_frame token b now d d' user saleId date total
              type Hauth Hpost Hfresh)
    as (s & Hsales & Hsid & Hnext & Hopen & Hatt & Husers).
  assert (Hsel : filter (fun x => (sale_id x =? saleId)%nat) (sales d') = [s]).
  { rewrite Hsales, filter_app. cbn [filter]. rewrite Hsid, Nat.eqb_refl.
    rewrite filter_none; [reflexivity|].
    intros x Hx. apply Nat.eqb_neq. rewrite Hnext. now apply Hfresh. }
  rewrite (PUT_succeeds token b2 d' user saleId s [] its); auto.
  - now rewrite (authenticateUser_users token d d' Husers).
Qed.

Lemma creator_may_update_witness :
  status_of (fst (PUT (Signed 3) (Sample.as_update 4 Sample2.reorder)
                    Sample.shop_busy)) = 200%nat.
Proof.
  refine (proj2 (creator_may_update (Signed 3) Sample.order
                   (Sample.as_update 4 Sample2.reorder) 5 Sample.shop_open
                   Sample.shop_busy 4 5 _ (Some "01"%string)
                   (match items Sample2.reorder with
                    | Some l => l | None => [] end)
                   eq_refl _ eq_refl eq_refl)).
  intros s Hin. vm_compute in Hin. destruct Hin as [<-|[]]. discriminate.
Defined.

Lemma rows_content (saleId : ident) (its : list item_in) :
  forall n m,
    map content (rows_of saleId n its) = map content (rows_of saleId m its).
Proof.
  induction its as [|it rest IH]; intros n m; simpl; [reflexivity|].
  f_equal. apply IH.
Qed.

(** Sending the same update twice changes nothing more: the second is
    answered with the same total, the sale rows are the same, and the item
    rows are the same up to their keys; the package ledger is untouched. *)
Theorem update_twice (token : credential) (b : body) (d d' : Db) (total : option Q)
    (H : PUT token b d = (Updated total, d')) :
  exists d'',
    PUT token b d' = (Updated total, d'') /\
    sales d'' = sales d' /\
    (forall saleId,
        map content (items_of saleId d'') = map content (items_of saleId d')) /\
    client_packages d'' = client_packages d /\
    package_consumptions d'' = package_consumptions d.
Proof.
  destruct (PUT_updated _ _ _ _ _ H)
    as (user & saleId & sale & rest & its & Hauth & Hid & Hsel & Hopen & Hmay
        & Hits & _).
  destruct (PUT_state _ _ _ _ _ H)
    as (saleId' & its' & _ & Hid' & Hits' & _ & _ & Ht & _ & Hsales & Hp & Hc
        & Hu & _).
  rewrite Hid in Hid'. injection Hid' as <-.
  rewrite Hits in Hits'. injection Hits' as <-.
  assert (Hsid : sale_id sale = saleId).
  { assert (Hin : In sale (filter (fun s => (sale_id s =? saleId)%nat) (sales d)))
      by (rewrite Hsel; now left).
    apply filter_In in Hin as [_ E]. now apply Nat.eqb_eq in E. }
  assert (Hsel' :
    filter (fun s => (sale_id s =? saleId)%nat) (sales d')
    = map (fun s =>
             if (sale_id s =? saleId)%nat
             then set_totals (loop_subtotal its)
                    (total_discount_written b its) total s
             else s)
        (map (fun s => if (sale_id s =? saleId)%nat then set_header b s else s)
           (sale :: rest))).
  { rewrite Hsales, <- Hsel.
    rewrite filter_map_sales
      by (intros s; now destruct (sale_id s =? saleId)%nat).
    rewrite filter_map_sales
      by (intros s; now destruct (sale_id s =? saleId)%nat).
    reflexivity. }
  cbn [map] in Hsel'. rewrite Hsid, Nat.eqb_refl in Hsel'.
  cbn [sale_id set_header] in Hsel'. rewrite Hsid, Nat.eqb_refl in Hsel'.
  pose proof (PUT_succeeds token b d' user saleId _ _ its
                (eq_trans (authenticateUser_users token d d' Hu) Hauth)
                Hid Hsel' Hopen Hmay Hits) as Hrun.
  rewrite <- Ht in Hrun.
  eexists. split; [exact Hrun|].
  destruct (PUT_state _ _ _ _ _ Hrun)
    as (saleId' & its' & _ & Hid' & Hits' & _ & _ & _ & _ & Hsales2 & Hp2 & Hc2
        & _).
  rewrite Hid in Hid'. injection Hid' as <-.
  rewrite Hits in Hits'. injection Hits' as <-.
  split; [|split; [|split]].
  - rewrite Hsales2, Hsales, !map_map. apply map_ext. intros s.
    destruct s as [i c a dt o st pm gt gv sb td tt ca cc]. cbn.
    destruct (i =? saleId)%nat eqn:E;
      repeat (unfold set_header, set_totals; cbn; rewrite ?E);
      reflexivity.
  - intros k.
    destruct (PUT_items_of _ _ _ _ _ H) as (s1 & i1 & Hs1 & Hi1 & Hr1 & Ho1).
    destruct (PUT_items_of _ _ _ _ _ Hrun) as (s2 & i2 & Hs2 & Hi2 & Hr2 & Ho2).
    rewrite Hid in Hs1, Hs2. injection Hs1 as <-. injection Hs2 as <-.
    rewrite Hits in Hi1, Hi2. injection Hi1 as <-. injection Hi2 as <-.
    destruct (Nat.eq_dec k saleId) as [->|Hk].
    + rewrite Hr1, Hr2. apply rows_content.
    + now rewrite (Ho2 k Hk).
  - now rewrite Hp2.
  - now rewrite Hc2.
Qed.

Lemma update_twice_witness :
  exists d'',
    PUT (Signed 1) Sample.order Sample.shop_edited
    = (Updated (final_total Sample.order
                  (match items Sample.order with Some l => l | None => [] end)),
       d'') /\
    sales d'' = sales Sample.shop_edited.
Proof.
  destruct (update_twice (Signed 1) Sample.order Sample.shop_open
              Sample.shop_edited _ eq_refl) as (d'' & Hrun & Hsales & _).
  exists d''. split; assumption.
Defined.

Lemma percent_bounds (sub v : Q) :
  0 <= sub -> 0 < v ->
  0 <= sub * (v / 100) /\ (v <= 100 -> sub * (v / 100) <= sub).
Proof.
  intros Hs Hv.
  assert (E : sub * (v / 100) == sub * v * (1 # 100)) by field.
  rewrite E. split.
  - assert (0 <= sub * v) by (apply Qmult_le_0_compat; [exact Hs | now apply Qlt_le_weak]).
    lra.
  - intros Hle.
    assert (sub * v <= sub * 100).
    { rewrite (Qmult_comm sub v), (Qmult_comm sub 100).
      now apply Qmult_le_compat_r. }
    lra.
Qed.

(** The row stored for a request item: its discount and its total are
    numbers; the discount is never negative, so the total never exceeds the
    subtotal, and the total is not negative when the discount is moderate. *)
Lemma row_of_bounds (saleId n : ident) (it : item_in) :
  0 <= item_subtotal (row_of saleId n it) ->
  exists a t,
    Js.to_number (item_discount_amount (row_of saleId n it)) = Some a /\
    item_total (row_of saleId n it) = Some t /\
    (0 <= a /\ t <= item_subtotal (row_of saleId n it)) /\
    (moderate (row_of saleId n it) -> 0 <= t).
Proof.
  unfold moderate, row_of.
  cbn [item_subtotal item_discount_amount item_total item_discount_type
       item_discount_value].
  rewrite str_is_or_null_percentage, str_is_or_null_fixed.
  set (sub := line_subtotal it). unfold discount_amount, amount. intros Hsub.
  destruct (Js.str_is (discountType it) "percentage") eqn:Hp; cbn [andb].
  - destruct (Js.gt0 (discountValue it)) eqn:Hv.
    + destruct (gt0_positive _ Hv) as (x & v & Ev & Ex & Hpos & Eo).
      rewrite Eo. unfold Js.percent. rewrite Ev, Ex.
      cbn [Js.minus Js.to_number].
      destruct (percent_bounds sub v Hsub Hpos) as [H0 H1].
      eexists _, _. split; [reflexivity|]. split; [reflexivity|].
      split; [split; lra|]. intros [Hm _]. specialize (H1 (Hm eq_refl)). lra.
    + destruct (Js.str_is (discountType it) "fixed"); cbn [andb];
        cbn [Js.minus Js.to_number];
        (eexists _, _; split; [reflexivity|]; split; [reflexivity|];
         split; [split; lra|]; intros _; lra).
  - destruct (Js.str_is (discountType it) "fixed") eqn:Hf; cbn [andb].
    + destruct (Js.gt0 (discountValue it)) eqn:Hv.
      * destruct (gt0_positive _ Hv) as (x & v & Ev & Ex & Hpos & Eo).
        rewrite Eo. unfold Js.given, Js.minus. rewrite Ev, Ex.
        eexists _, _. split; [reflexivity|]. split; [reflexivity|].
        split; [split; lra|]. intros [_ Hm]. specialize (Hm eq_refl). lra.
      * cbn [Js.minus Js.to_number].
        eexists _, _. split; [reflexivity|]. split; [reflexivity|].
        split; [split; lra|]. intros _. lra.
    + cbn [Js.minus Js.to_number].
      eexists _, _. split; [reflexivity|]. split; [reflexivity|].
      split; [split; lra|]. intros _. lra.
Qed.

Lemma rows_of_bounds (saleId : ident) (its : list item_in) :
  forall n,
    Forall (fun r =>
              0 <= item_subtotal r ->
              exists a t,
                Js.to_number (item_discount_amount r) = Some a /\
                item_total r = Some t /\
                (0 <= a /\ t <= item_subtotal r) /\
                (moderate r -> 0 <= t))
      (rows_of saleId n its).
Proof.
  induction its as [|it rest IH]; intros n; simpl; constructor.
  - apply row_of_bounds.
  - apply IH.
Qed.

(** On every item row stored by a create or an update, for a subtotal that
    is not negative: the discount and the total stored are numbers (be the
    discount value of the request a number or a string), the discount is
    not negative and the total does not exceed the subtotal; and the total
    is not negative when the discount is a percentage of at most 100 or a
    fixed value of at most the subtotal. *)
Theorem stored_discount_bounds (token : credential) (b : body) (now : nat)
    (d d' : Db) (saleId : ident) (total : option Q) :
  (forall date type,
      POST token b now d = (Created saleId date total type, d') ->
      fresh d ->
      Forall (fun r =>
                0 <= item_subtotal r ->
                exists a t,
                  Js.to_number (item_discount_amount r) = Some a /\
                  item_total r = Some t /\
                  (0 <= a /\ t <= item_subtotal r) /\
                  (moderate r -> 0 <= t))
        (items_of saleId d')) /\
  (PUT token b d = (Updated total, d') ->
   id b = Some saleId ->
   Forall (fun r =>
             0 <= item_subtotal r ->
             exists a t,
               Js.to_number (item_discount_amount r) = Some a /\
               item_total r = Some t /\
               (0 <= a /\ t <= item_subtotal r) /\
               (moderate r -> 0 <= t))
     (items_of saleId d')).
Proof.
  split.
  - intros date type H Hfresh.
    destruct (POST_items_of _ _ _ _ _ _ _ _ _ H Hfresh) as (its & _ & ->).
    apply rows_of_bounds.
  - intros H Hid.
    destruct (PUT_items_of _ _ _ _ _ H) as (saleId' & its & Hid' & _ & Hrows & _).
    rewrite Hid in Hid'. injection Hid' as <-.
    rewrite Hrows. apply rows_of_bounds.
Qed.

Lemma stored_discount_bounds_witness :
  Forall (fun r =>
            0 <= item_subtotal r ->
            exists a t,
              Js.to_number (item_discount_amount r) = Some a /\
              item_total r = Some t /\
              (0 <= a /\ t <= item_subtotal r) /\
              (moderate r -> 0 <= t))
    (items_of 1 Sample.shop_open).
Proof.
  refine (proj1 (stored_discount_bounds (Signed 1) Sample.order 0 Sample.shop
                   Sample.shop_open 1 _) 0%nat (Some "01"%string) eq_refl _).
  intros it [].
Defined.

Lemma general_percentage (b : body) (v : Js.jsnum) (g x : Q) :
  generalDiscountType b = Some "percentage"%string ->
  generalDiscountValue b = Some v ->
  Js.to_number v = Some g ->
  0 < g ->
  discount_amount (generalDiscountType b) (generalDiscountValue b) x
  = Js.Num (x * (g / 100)).
Proof.
  intros -> -> Hv Hg. unfold discount_amount.
  rewrite (positive_gt0 v g Hv Hg). cbn [Js.str_is String.eqb andb].
  unfold Js.percent. now rewrite Hv.
Qed.

(** The total computed from items whose discount values are numbers, under
    a general discount in per cent. *)
Lemma final_total_gross (b : body) (its : list item_in) (v : Js.jsnum) (g : Q) :
  generalDiscountType b = Some "percentage"%string ->
  generalDiscountValue b = Some v ->
  Js.to_number v = Some g ->
  0 < g ->
  Forall (fun it => is_num (discountValue it)) its ->
  is_number (final_total b its)
    (Qsum (map line_subtotal its) * (1 - g / 100)
     - Qsum (map (fun it => amount (line_discount it)) its)).
Proof.
  intros Ht Hv Hreads Hg Hnum.
  unfold final_total, general_discount.
  rewrite (general_percentage b v g _ Ht Hv Hreads Hg).
  rewrite (loop_discount_num its Hnum).
  cbn [Js.minus Js.to_number is_number].
  rewrite fold_left_Qplus, loop_subtotal_sum. field.
Qed.

Lemma rows_amounts (saleId : ident) (its : list item_in) (n : ident) :
  map (fun r => amount (item_discount_amount r)) (rows_of saleId n its)
  = map (fun it => amount (line_discount it)) its.
Proof.
  rewrite <- (map_map item_discount_amount amount), rows_discounts.
  apply map_map.
Qed.

(** A general discount in per cent is taken on the sum of the item
    subtotals as they are before the item discounts: when the item discount
    values of the request are numbers, the total stored and answered is that
    sum times (1 - g/100), minus the item discounts. *)
Theorem general_percentage_on_gross (token : credential) (b : body)
    (now : nat) (d d' : Db) (saleId : ident) (total : option Q)
    (v : Js.jsnum) (g : Q) (its : list item_in)
    (Htype : generalDiscountType b = Some "percentage"%string)
    (Hvalue : generalDiscountValue b = Some v)
    (Hreads : Js.to_number v = Some g)
    (Hg : 0 < g)
    (Hits : items b = Some its)
    (Hnum : Forall (fun it => is_num (discountValue it)) its) :
  (forall date type,
      POST token b now d = (Created saleId date total type, d') ->
      fresh d ->
      is_number total
        (Qsum (map item_subtotal (items_of saleId d')) * (1 - g / 100)
         - Qsum (map (fun r => amount (item_discount_amount r))
                   (items_of saleId d')))) /\
  (PUT token b d = (Updated total, d') ->
   id b = Some saleId ->
   is_number total
     (Qsum (map item_subtotal (items_of saleId d')) * (1 - g / 100)
      - Qsum (map (fun r => amount (item_discount_amount r))
                (items_of saleId d')))).
Proof.
  split.
  - intros date type H Hfresh.
    destruct (POST_items_of _ _ _ _ _ _ _ _ _ H Hfresh) as (its' & Hi & Hrows).
    rewrite Hits in Hi. injection Hi as <-.
    destruct (POST_state _ _ _ _ _ _ _ _ _ H)
      as (_ & _ & firstItem & rest & _ & _ & Hi' & _ & Ht & _).
    rewrite Hits in Hi'. injection Hi' as ->.
    rewrite Hrows, rows_subtotals, rows_amounts, Ht.
    exact (final_total_gross b _ v g Htype Hvalue Hreads Hg Hnum).
  - intros H Hid.
    destruct (PUT_items_of _ _ _ _ _ H) as (saleId' & its' & Hid' & Hi & Hrows & _).
    rewrite Hid in Hid'. injection Hid' as <-.
    rewrite Hits in Hi. injection Hi as <-.
    destruct (PUT_state _ _ _ _ _ H)
      as (saleId' & its' & _ & Hid' & Hi' & _ & _ & Ht & _).
    rewrite Hits in Hi'. injection Hi' as <-.
    rewrite Hrows, rows_subtotals, rows_amounts, Ht.
    exact (final_total_gross b its v g Htype Hvalue Hreads Hg Hnum).
Qed.

(** Four units at 30 with 50 per cent off the item and 10 per cent off the
    sale: 120 - 60 - 12 = 48, not 54. *)
Lemma general_percentage_on_gross_witness :
  is_number
    (final_total Sample2.reorder
       (match items Sample2.reorder with Some l => l | None => [] end))
    (Qsum (map item_subtotal
             (items_of 1 (snd (PUT (Signed 2) Sample2.reorder Sample.shop_busy))))
     * (1 - 10 / 100)
     - Qsum (map (fun r => amount (item_discount_amount r))
               (items_of 1
                  (snd (PUT (Signed 2) Sample2.reorder Sample.shop_busy)))))
  /\ is_number
       (final_total Sample2.reorder
          (match items Sample2.reorder with Some l => l | None => [] end)) 48.
Proof.
  split; [|reflexivity].
  refine (proj2 (general_percentage_on_gross (Signed 2) Sample2.reorder 0
                   Sample.shop_busy
                   (snd (PUT (Signed 2) Sample2.reorder Sample.shop_busy)) 1 _
                   (Js.Num 10) 10
                   (match items Sample2.reorder with
                    | Some l => l | None => [] end)
                   eq_refl eq_refl eq_refl _ eq_refl _) eq_refl eq_refl).
  - reflexivity.
  - repeat constructor.
Defined.

Lemma consume_row_success (packageId : ident) (q : Z) :
  forall rows p,
    find (Ledger.is_target packageId) rows = Some p ->
    (q <= pkg_available_quantity p)%Z ->
    exists rows',
      Ledger.consume_row packageId q rows = inr rows' /\
      find (Ledger.is_target packageId) rows' = Some (Ledger.debit q p) /\
      (forall other, other <> packageId ->
         find (Ledger.is_target other) rows'
         = find (Ledger.is_target other) rows).
Proof.
  induction rows as [|r rest IH]; intros p Hfind Hq; simpl in *; [discriminate|].
  destruct (Ledger.is_target packageId r) eqn:Er.
  - injection Hfind as ->.
    destruct (Z.ltb_spec (pkg_available_quantity p) q) as [Hlt|_]; [lia|].
    eexists. split; [reflexivity|]. split.
    + simpl. unfold Ledger.is_target in *. simpl. now rewrite Er.
    + intros other Hother. simpl. unfold Ledger.is_target in *. simpl.
      apply andb_prop in Er as [Eid _]. apply Nat.eqb_eq in Eid.
      destruct (Nat.eqb_spec (pkg_id p) other) as [E|_]; [congruence|].
      reflexivity.
  - destruct (IH p Hfind Hq) as (rest' & Hrun & Hfound & Hothers).
    rewrite Hrun. eexists. split; [reflexivity|]. split.
    + simpl. now rewrite Er.
    + intros other Hother. simpl. now rewrite (Hothers other Hother).
Qed.

(** The run of a package consumption that the package can serve. *)
Lemma POST_consumes (token : credential) (b : body) (now : nat) (d : Db)
    (user : user_row) (client package : ident) (firstItem : item_in)
    (rest : list item_in) (p : package_row) :
  authenticateUser token d = inr user ->
  clientId b = Some client ->
  Js.truthy_string (paymentMethod b) = true ->
  items b = Some (firstItem :: rest) ->
  saleType b = Some "03"%string ->
  packageId b = Some package ->
  Ledger.lookup package d = Some p ->
  (quantity firstItem <= pkg_available_quantity p)%Z ->
  exists d',
    POST token b now d
    = (Created (next_id d) now (final_total b (firstItem :: rest))
         (Some "03"%string), d') /\
    Ledger.lookup package d' = Some (Ledger.debit (quantity firstItem) p) /\
    package_consumptions d' =
      package_consumptions d
      ++ [mk_consumption package (next_id d) (quantity firstItem)] /\
    (forall other, other <> package ->
       Ledger.lookup other d' = Ledger.lookup other d).
Proof.
  intros Hauth Hclient Hpay Hitems Htype Hpackage Hfind Hq.
  destruct (consume_row_success package (quantity firstItem)
              (client_packages d) p Hfind Hq)
    as (rows' & Hrun & Hfound & Hothers).
  eexists. split; [|split; [|split]].
  - unfold POST. rewrite Hauth, Hclient, Hpay, Hitems, Htype, Hpackage.
    cbn [negb Js.str_is Js.truthy_id String.eqb Ascii.eqb Bool.eqb andb].
    rewrite write_items_and_totals_eq.
    unfold by_sale_type. rewrite Htype, Hpackage.
    cbn [Js.str_is String.eqb Ascii.eqb Bool.eqb andb].
    unfold Ledger.consume_package. cbn [client_packages insert_sale].
    rewrite Hrun. reflexivity.
  - exact Hfound.
  - reflexivity.
  - exact Hothers.
Qed.

(** A package consumption whose package is active and holds at least the
    quantity of the first item is created (201): the package is debited by
    the quantity of the first item only, whatever the other items say, the
    consumption is recorded against the new sale, and the other packages
    are as before. *)
Theorem consumption_debits_first_item (token : credential) (b : body)
    (now : nat) (d : Db) (user : user_row) (client package : ident)
    (firstItem : item_in) (rest : list item_in) (p : package_row)
    (Hauth : authenticateUser token d = inr user)
    (Hclient : clientId b = Some client)
    (Hpay : Js.truthy_string (paymentMethod b) = true)
    (Hitems : items b = Some (firstItem :: rest))
    (Htype : saleType b = Some "03"%string)
    (Hpackage : packageId b = Some package)
    (Hfind : Ledger.lookup package d = Some p)
    (Hq : (quantity firstItem <= pkg_available_quantity p)%Z) :
  exists d',
    POST token b now d
    = (Created (next_id d) now (final_total b (firstItem :: rest))
         (Some "03"%string), d') /\
    Ledger.lookup package d' = Some (Ledger.debit (quantity firstItem) p) /\
    package_consumptions d' =
      package_consumptions d
      ++ [mk_consumption package (next_id d) (quantity firstItem)] /\
    (forall other, other <> package ->
       Ledger.lookup other d' = Ledger.lookup other d).
Proof.
  eapply POST_consumes; eassumption.
Qed.

Lemma consumption_debits_first_item_witness :
  exists d',
    POST (Signed 1) (Sample.consume 3) 0 Sample.shop_with_package
    = (Created 8 0 (final_total (Sample.consume 3)
                      (match items (Sample.consume 3) with
                       | Some l => l | None => [] end))
         (Some "03"%string), d') /\
    Ledger.lookup 7 d'
    = Some (Ledger.debit 3
              (mk_package 7 1 2 3 10 0 10 (Some (50 # 1)) (Some (500 # 1)) true)).
Proof.
  destruct (consumption_debits_first_item (Signed 1) (Sample.consume 3) 0
              Sample.shop_with_package (mk_user 1 "Ana" "Lima" "ana@shop" false)
              1 7 _ [] (mk_package 7 1 2 3 10 0 10 (Some (50 # 1)) (Some (500 # 1)) true)
              eq_refl eq_refl eq_refl eq_refl eq_refl eq_refl eq_refl)
    as (d' & Hrun & Hfound & _).
  - simpl. lia.
  - exists d'. split; assumption.
Defined.

End RouteMore.

(** ** The token, the pages of the list and the form *)

Module PageMore.

Import Route Notions Conditions Page Browse Request.

Lemma split_space_word (token : string) :
  has_space token = false -> split_space token = [token].
Proof.
  induction token as [|c rest IH]; simpl; [reflexivity|].
  destruct (Ascii.eqb c " "); simpl; [discriminate|].
  intros H. now rewrite (IH H).
Qed.

(** The token a page sends in its authorization header is the token the
    handler reads, when there is no (or an empty) [token] cookie and the
    token has no space; a non-empty cookie is read whatever the header. *)
Theorem bearer_round_trip (token : string) (cookie : option string)
    (Hcookie : Js.truthy_string cookie = false)
    (Htoken : has_space token = false) :
  getTokenFromRequest (mk_request cookie (Some (bearer token))) = Some token /\
  (forall c header,
      Js.truthy_string (Some c) = true ->
      getTokenFromRequest (mk_request (Some c) header) = Some c).
Proof.
  split.
  - unfold getTokenFromRequest. cbn [cookie_token authorization].
    rewrite Hcookie. unfold bearer. simpl.
    rewrite (split_space_word token Htoken).
    now destruct token.
  - intros c header Hc. unfold getTokenFromRequest.
    cbn [cookie_token]. now rewrite Hc.
Qed.

Lemma bearer_round_trip_witness :
  getTokenFromRequest (mk_request None (Some (bearer "eyJhbGciOi.J9"))) 
  = Some "eyJhbGciOi.J9"%string.
Proof.
  exact (proj1 (bearer_round_trip "eyJhbGciOi.J9" None eq_refl eq_refl)).
Defined.

(** A header of another scheme, or none, gives no token, and a header with
    two spaces after the scheme gives the empty token, which no handler
    accepts. *)
Example other_headers :
  getTokenFromRequest (mk_request None (Some "Basic abc"%string)) = None /\
  getTokenFromRequest (mk_request None None) = None /\
  getTokenFromRequest (mk_request None (Some "Bearer  abc"%string))
  = Some EmptyString.
Proof.
  repeat split; reflexivity.
Qed.

(** *** The pages of the list *)

Lemma totalPages_bounds (A : Type) (sales : list A) :
  (ITEMS_PER_PAGE * (totalPages sales - 1) < Z.of_nat (List.length sales)
   <= ITEMS_PER_PAGE * totalPages sales)%Z.
Proof.
  unfold totalPages, ITEMS_PER_PAGE.
  generalize (Z.of_nat (List.length sales)). intros len.
  assert (E : Qceiling (inject_Z len / inject_Z 7) = (- (- (len * 1) / 7))%Z)
    by reflexivity.
  rewrite E. Z.div_mod_to_equations. lia.
Qed.

Lemma firstn_plus (A : Type) (l : list A) :
  forall a b, firstn (a + b) l = firstn a l ++ firstn b (skipn a l).
Proof.
  induction l as [|x l IH]; intros a b.
  - now rewrite !firstn_nil, skipn_nil, firstn_nil.
  - destruct a as [|a]; simpl; [reflexivity|]. now rewrite IH.
Qed.

Lemma firstn_min_length (A : Type) (l : list A) (n : nat) :
  firstn (Nat.min n (List.length l)) l = firstn n l.
Proof.
  destruct (Nat.le_ge_cases n (List.length l)) as [H|H].
  - now rewrite Nat.min_l.
  - rewrite Nat.min_r by exact H. now rewrite !firstn_all2 by lia.
Qed.

(** The page of number [i + 1] is the chunk of seven sales after the first
    [7 * i]. *)
Lemma page_chunk (A : Type) (sales : list A) (i : nat) :
  paginatedSales sales (Z.of_nat i + 1) = firstn 7 (skipn (7 * i) sales).
Proof.
  unfold paginatedSales, slice, ITEMS_PER_PAGE.
  set (len := List.length sales).
  replace ((Z.of_nat i + 1 - 1) * 7)%Z with (Z.of_nat (7 * i)) by lia.
  destruct (Z.ltb_spec (Z.of_nat (7 * i)) 0) as [Hneg|_]; [lia|].
  destruct (Z.ltb_spec (Z.of_nat (7 * i) + 7) 0) as [Hneg|_]; [lia|].
  destruct (Nat.le_gt_cases len (7 * i)) as [Hout|Hin].
  - replace (Z.to_nat (Z.min (Z.of_nat (7 * i)) (Z.of_nat len))) with len by lia.
    rewrite !skipn_all2 by (fold len; lia). now rewrite !firstn_nil.
  - replace (Z.to_nat (Z.min (Z.of_nat (7 * i) + 7) (Z.of_nat len)
                       - Z.min (Z.of_nat (7 * i)) (Z.of_nat len)))
      with (Nat.min 7 (List.length (skipn (7 * i) sales)))
      by (rewrite length_skipn; fold len; lia).
    replace (Z.to_nat (Z.min (Z.of_nat (7 * i)) (Z.of_nat len)))
      with (7 * i)%nat by lia.
    apply firstn_min_length.
Qed.

Lemma chunks_concat (A : Type) (sales : list A) (n : nat) :
  List.concat (map (fun i => firstn 7 (skipn (7 * i) sales)) (seq 0 n))
  = firstn (7 * n) sales.
Proof.
  induction n as [|n IH]; [reflexivity|].
  rewrite seq_S, map_app, concat_app, IH. cbn [map List.concat Nat.add].
  rewrite app_nil_r.
  replace (7 * S n)%nat with (7 * n + 7)%nat by lia.
  now rewrite firstn_plus.
Qed.

(** The pages of the numbered buttons, one after the other, are the list of
    sales; and no page, whatever its number, shows more than seven sales. *)
Theorem pages_partition (A : Type) (sales : list A) :
  List.concat (map (paginatedSales sales) (page_buttons sales)) = sales /\
  (forall currentPage : Z,
      (List.length (paginatedSales sales currentPage) <= 7)%nat).
Proof.
  split.
  - unfold page_buttons. rewrite map_map.
    rewrite (map_ext _ (fun i => firstn 7 (skipn (7 * i) sales)))
      by (intros i; apply page_chunk).
    rewrite chunks_concat. apply firstn_all2.
    pose proof (totalPages_bounds A sales) as H. unfold ITEMS_PER_PAGE in H. lia.
  - intros currentPage. unfold paginatedSales, slice, ITEMS_PER_PAGE.
    rewrite length_firstn.
    destruct (Z.ltb_spec ((currentPage - 1) * 7) 0);
      destruct (Z.ltb_spec ((currentPage - 1) * 7 + 7) 0); lia.
Qed.

Lemma existsb_button (A : Type) (sales : list A) (page : Z) :
  existsb (Z.eqb page) (page_buttons sales) = true ->
  (1 <= page <= totalPages sales)%Z.
Proof.
  intros H. apply existsb_exists in H as (q & Hin & Hq).
  apply Z.eqb_eq in Hq. subst q.
  unfold page_buttons in Hin. apply in_map_iff in Hin as (i & <- & Hi).
  apply in_seq in Hi. lia.
Qed.

Lemma click_in_range (A : Type) (sales : list A) (page : Z) (c : click) :
  (1 <= page <= totalPages sales)%Z ->
  (1 <= (if offered sales page c then setCurrentPage sales page c else page)
   <= totalPages sales)%Z.
Proof.
  intros Hp. destruct (offered sales page c) eqn:Hoff; [|exact Hp].
  unfold offered in Hoff. apply andb_prop in Hoff as [_ Hoff].
  destruct c as [| |q]; simpl.
  - lia.
  - lia.
  - now apply existsb_button.
Qed.

(** From the first page of a list that is not empty, whatever is clicked,
    the page shown is one of the pages of the list, and it is not empty. *)
Theorem browsing_stays_in_range (A : Type) (sales : list A)
    (clicks : list click) (Hsales : sales <> []) :
  (1 <= browse sales clicks 1 <= totalPages sales)%Z /\
  paginatedSales sales (browse sales clicks 1) <> [].
Proof.
  assert (Hlen : (0 < List.length sales)%nat)
    by (destruct sales; [contradiction | simpl; lia]).
  pose proof (totalPages_bounds A sales) as Hb. unfold ITEMS_PER_PAGE in Hb.
  assert (Hrange : forall page,
             (1 <= page <= totalPages sales)%Z ->
             (1 <= browse sales clicks page <= totalPages sales)%Z).
  { unfold browse. induction clicks as [|c rest IH]; intros page Hp; simpl.
    - exact Hp.
    - apply IH. now apply click_in_range. }
  assert (H1 : (1 <= browse sales clicks 1 <= totalPages sales)%Z)
    by (apply Hrange; lia).
  split; [exact H1|].
  set (page := browse sales clicks 1) in *.
  replace page with (Z.of_nat (Z.to_nat (page - 1)) + 1)%Z by lia.
  rewrite page_chunk. intros Hnil.
  apply (f_equal (@List.length A)) in Hnil.
  rewrite length_firstn, length_skipn in Hnil. cbn [List.length] in Hnil. lia.
Qed.

Lemma browsing_stays_in_range_witness :
  paginatedSales Sample2.sixteen
    (browse Sample2.sixteen [Proxima; Proxima; Proxima; Pagina 9; Anterior] 1)
  <> [].
Proof.
  refine (proj2 (browsing_stays_in_range nat Sample2.sixteen
                   [Proxima; Proxima; Proxima; Pagina 9; Anterior] _)).
  discriminate.
Defined.

(** Sixteen sales make three pages; the last one shows two sales, and three
    clicks on "Proxima" stop there. *)
Example pages_of_sixteen :
  totalPages Sample2.sixteen = 3%Z /\
  map (fun p => List.length (paginatedSales Sample2.sixteen p)) (page_buttons Sample2.sixteen)
  = [7; 7; 2]%nat /\
  browse Sample2.sixteen [Proxima; Proxima; Proxima] 1 = 3%Z.
Proof.
  repeat split; reflexivity.
Qed.

(** *** The price ranges *)

Lemma insert_range_perm (r : PriceRange) :
  forall l, Permutation (insert_range r l) (r :: l).
Proof.
  induction l as [|r' l IH]; simpl.
  - apply Permutation_refl.
  - destruct (minQuantity r <=? minQuantity r')%Z.
    + apply Permutation_refl.
    + eapply Permutation_trans; [apply perm_skip, IH | apply perm_swap].
Qed.

Lemma sort_by_minQuantity_perm (l : list PriceRange) :
  Permutation (sort_by_minQuantity l) l.
Proof.
  induction l as [|r l IH]; simpl.
  - apply Permutation_refl.
  - eapply Permutation_trans; [apply insert_range_perm|].
    now apply perm_skip.
Qed.

Lemma insert_range_ascending (r : PriceRange) :
  forall l, ascending l -> ascending (insert_range r l).
Proof.
  induction l as [|r' l IH]; intros Hl; simpl.
  - split; [constructor | exact I].
  - destruct Hl as [Hall Hl].
    destruct (Z.leb_spec (minQuantity r) (minQuantity r')) as [Hle|Hgt]; simpl.
    + split; [|split; assumption].
      constructor; [exact Hle|].
      eapply Forall_impl; [|exact Hall]. simpl. intros x Hx. lia.
    + split; [|now apply IH].
      apply (Permutation_Forall (Permutation_sym (insert_range_perm r l))).
      constructor; [lia | exact Hall].
Qed.

Lemma sort_by_minQuantity_ascending (l : list PriceRange) :
  ascending (sort_by_minQuantity l).
Proof.
  induction l as [|r l IH]; simpl; [exact I|].
  now apply insert_range_ascending.
Qed.

Lemma ranges_for_cases (saleType : string) (ranges : list PriceRange) :
  exists type,
    (type = saleType \/
     type = "01"%string /\
     filter (fun r => String.eqb (range_saleType r) saleType) ranges = []) /\
    ranges_for saleType ranges
    = sort_by_minQuantity
        (filter (fun r => String.eqb (range_saleType r) type) ranges).
Proof.
  unfold ranges_for.
  destruct (sort_by_minQuantity
              (filter (fun r => String.eqb (range_saleType r) saleType) ranges))
    as [|r l] eqn:E.
  - exists "01"%string. split; [|reflexivity]. right. split; [reflexivity|].
    apply Permutation_nil.
    rewrite <- E. apply sort_by_minQuantity_perm.
  - exists saleType. split; [now left | now rewrite E].
Qed.

(** The ranges a price is computed from are in the order of their minimum
    quantity, and they are all the ranges of the sale type, or, when the
    service has none of that type, all the ranges of type "01". *)
Theorem ranges_for_sorted (saleType : string) (ranges : list PriceRange) :
  ascending (ranges_for saleType ranges) /\
  exists type,
    (type = saleType \/
     type = "01"%string /\
     filter (fun r => String.eqb (range_saleType r) saleType) ranges = []) /\
    Permutation (ranges_for saleType ranges)
      (filter (fun r => String.eqb (range_saleType r) type) ranges).
Proof.
  destruct (ranges_for_cases saleType ranges) as (type & Htype & E).
  split.
  - rewrite E. apply sort_by_minQuantity_ascending.
  - exists type. split; [exact Htype|].
    rewrite E. apply sort_by_minQuantity_perm.
Qed.

Lemma ranges_for_In (saleType : string) (ranges : list PriceRange) (r : PriceRange) :
  In r (ranges_for saleType ranges) -> In r ranges.
Proof.
  destruct (ranges_for_cases saleType ranges) as (type & _ & E).
  rewrite E. intros H.
  apply (Permutation_in _ (sort_by_minQuantity_perm _)) in H.
  now apply filter_In in H.
Qed.

Lemma rate_or_nonneg (l : list PriceRange) (i : nat) (dflt : Q) :
  Forall (fun r => 0 <= range_unitPrice r) l -> 0 <= dflt ->
  0 <= rate_or l i dflt.
Proof.
  intros Hl Hd. unfold rate_or, Js.or_default.
  destruct (nth_error l i) as [r|] eqn:E; simpl; [|exact Hd].
  destruct (Qeq_bool (range_unitPrice r) 0); [exact Hd|].
  apply nth_error_In in E.
  exact (proj1 (Forall_forall _ l) Hl r E).
Qed.

(** With unit prices that are not negative, the progressive price does not
    decrease when the quantity grows. *)
Theorem progressive_price_monotone (saleType name : string)
    (ranges : list PriceRange) (q1 q2 : Z)
    (Hname : Js.includes "reclamacao" (Js.toLowerCase name) = true)
    (Hrates : Forall (fun r => 0 <= range_unitPrice r) ranges)
    (Hq : (q1 <= q2)%Z) :
  calculateProgressivePrice saleType q1 name ranges
  <= calculateProgressivePrice saleType q2 name ranges.
Proof.
  unfold calculateProgressivePrice. rewrite Hname.
  assert (Hl : Forall (fun r => 0 <= range_unitPrice r)
                 (ranges_for saleType ranges)).
  { apply Forall_forall. intros r Hr.
    apply (proj1 (Forall_forall _ ranges) Hrates).
    now apply (ranges_for_In saleType). }
  destruct (ranges_for saleType ranges) as [|r0 l] eqn:E; [apply Qle_refl|].
  assert (H1 : 0 <= rate_or (r0 :: l) 0 40) by (apply rate_or_nonneg; [exact Hl | lra]).
  assert (H2 : 0 <= rate_or (r0 :: l) 1 15) by (apply rate_or_nonneg; [exact Hl | lra]).
  set (p1 := rate_or (r0 :: l) 0 40) in *.
  set (p2 := rate_or (r0 :: l) 1 15) in *.
  assert (Hmul : forall a b p, (a <= b)%Z -> 0 <= p -> inject_Z a * p <= inject_Z b * p).
  { intros a b p Hab Hp. apply Qmult_le_compat_r; [|exact Hp].
    now rewrite <- Zle_Qle. }
  destruct (Z.leb_spec q1 10) as [L1|G1]; destruct (Z.leb_spec q2 10) as [L2|G2].
  - now apply Hmul.
  - pose proof (Hmul q1 10%Z p1 L1 H1) as Ha.
    pose proof (Hmul 0%Z (q2 - 10)%Z p2 ltac:(lia) H2) as Hb.
    change (inject_Z 10) with 10 in Ha. change (inject_Z 0) with 0 in Hb. lra.
  - lia.
  - pose proof (Hmul (q1 - 10)%Z (q2 - 10)%Z p2 ltac:(lia) H2) as Ha. lra.
Qed.

Lemma progressive_price_monotone_witness :
  calculateProgressivePrice "01" 10 "Reclamacao" Sample.complaint_tiers
  <= calculateProgressivePrice "01" 11 "Reclamacao" Sample.complaint_tiers.
Proof.
  apply (progressive_price_monotone "01" "Reclamacao" Sample.complaint_tiers
           10 11 eq_refl).
  - repeat constructor; simpl; discriminate.
  - lia.
Defined.

Lemma find_first (A : Type) (p : A -> bool) (l : list A) :
  (exists r before after,
      l = before ++ r :: after /\ p r = true /\
      Forall (fun r' => p r' = false) before /\ find p l = Some r) \/
  (Forall (fun r => p r = false) l /\ find p l = None).
Proof.
  induction l as [|r0 l IH]; simpl.
  - right. split; [constructor | reflexivity].
  - destruct (p r0) eqn:E0.
    + left. exists r0, [], l. repeat split; auto.
    + destruct IH as [(r & before & after & Hl & Hc & Hb & Hf)|[Hall Hf]].
      * left. exists r, (r0 :: before), after.
        split; [now rewrite Hl|]. split; [exact Hc|].
        split; [constructor; assumption | exact Hf].
      * right. split; [constructor; assumption | exact Hf].
Qed.

(** For a service that is not progressive the price is the quantity times
    the unit price of the first applicable range that holds the quantity,
    and 0 when no applicable range holds it. *)
Theorem tier_price_cases (saleType name : string) (ranges : list PriceRange)
    (qty : Z)
    (Hname : Js.includes "reclamacao" (Js.toLowerCase name) = false) :
  (exists r before after,
      ranges_for saleType ranges = before ++ r :: after /\
      contains qty r = true /\
      Forall (fun r' => contains qty r' = false) before /\
      calculateProgressivePrice saleType qty name ranges
      = inject_Z qty * range_unitPrice r) \/
  (Forall (fun r => contains qty r = false) (ranges_for saleType ranges) /\
   calculateProgressivePrice saleType qty name ranges = 0).
Proof.
  unfold calculateProgressivePrice. rewrite Hname.
  destruct (find_first _ (contains qty) (ranges_for saleType ranges))
    as [(r & before & after & Hl & Hc & Hb & Hf)|[Hall Hf]].
  - left. exists r, before, after. rewrite Hf.
    repeat split; auto.
    rewrite Hl. now destruct before.
  - right. split; [exact Hall|]. rewrite Hf.
    now destruct (ranges_for saleType ranges).
Qed.

Lemma tier_price_cases_witness :
  (exists r before after,
      ranges_for "01" Sample.complaint_tiers = before ++ r :: after /\
      contains 15 r = true /\
      Forall (fun r' => contains 15 r' = false) before /\
      calculateProgressivePrice "01" 15 "Atraso" Sample.complaint_tiers
      = inject_Z 15 * range_unitPrice r) \/
  (Forall (fun r => contains 15 r = false)
     (ranges_for "01" Sample.complaint_tiers) /\
   calculateProgressivePrice "01" 15 "Atraso" Sample.complaint_tiers = 0).
Proof.
  exact (tier_price_cases "01" "Atraso" Sample.complaint_tiers 15 eq_refl).
Defined.

(** *** The form and the request it sends *)

(** The form of a sale of type "01" or "02" that [handleSubmit] accepts. *)
Lemma handleSubmit_sale (services : list Service)
    (clientPackages : list ClientPackage) (session : option ident)
    (f : FormData) (b : body) :
  form_saleType f <> "03"%string ->
  handleSubmit services clientPackages session f = inr b ->
  exists s,
    selectedService services f = Some s /\
    (0 < form_quantity f)%Z /\
    b = payload f (form_clientId f) (service_name s) (calculatedUnitPrice f s)
          (calculateProgressivePrice (form_saleType f) (form_quantity f)
             (service_name s) (priceRanges s))
          (if String.eqb (form_saleType f) "02" then form_serviceId f else None)
          None.
Proof.
  intros Htype. apply String.eqb_neq in Htype.
  unfold handleSubmit. rewrite Htype.
  destruct (form_serviceId f) as [k|]; [|discriminate].
  destruct (selectedService services f) as [s|]; [|discriminate].
  destruct (Z.leb_spec (form_quantity f) 0) as [_|Hq]; [discriminate|].
  destruct session as [t|]; [|discriminate].
  intros H. injection H as <-. exists s. now repeat split.
Qed.

(** The form of a package consumption that [handleSubmit] accepts. *)
Lemma handleSubmit_package (services : list Service)
    (clientPackages : list ClientPackage) (session : option ident)
    (f : FormData) (b : body) :
  form_saleType f = "03"%string ->
  handleSubmit services clientPackages session f = inr b ->
  exists p,
    selectedPackage clientPackages f = Some p /\
    (0 < form_quantity f <= availableQuantity p)%Z /\
    b = payload f (Some (cp_clientId p)) (cp_serviceName p) (cp_unitPrice p)
          (cp_unitPrice p * inject_Z (form_quantity f))
          (Some (cp_serviceId p)) (form_packageId f).
Proof.
  intros Htype. unfold handleSubmit. rewrite Htype.
  cbn [String.eqb Ascii.eqb Bool.eqb].
  destruct (form_packageId f) as [k|]; [|discriminate].
  destruct (selectedPackage clientPackages f) as [p|]; [|discriminate].
  destruct (Z.ltb_spec (availableQuantity p) (form_quantity f)) as [_|Ha];
    [discriminate|].
  destruct (Z.leb_spec (form_quantity f) 0) as [_|Hq]; [discriminate|].
  destruct session as [t|]; [|discriminate].
  intros H. injection H as <-. exists p. repeat split; auto; lia.
Qed.

Lemma calculatedUnitPrice_positive (f : FormData) (s : Service) :
  0 < calculatedUnitPrice f s.
Proof.
  unfold calculatedUnitPrice.
  match goal with |- 0 < (if Qle_bool ?p 0 then _ else _) =>
    destruct (Qle_bool p 0) eqn:E; [reflexivity|];
    destruct (Qlt_le_dec 0 p) as [H|H]; [exact H|];
    apply Qle_bool_iff in H; rewrite H in E; discriminate
  end.
Qed.

(** A request the form sends has one item, of a quantity above zero, and no
    general discount.  For a package consumption the quantity is at most
    the balance the page knows of the package, the client is the owner of
    the package and the item carries no discount; for the other types the
    unit price is above zero, no package is named, and the item carries the
    discount type and the discount value as the form holds them (the value
    as a string once it has been typed in). *)
Theorem handleSubmit_request (services : list Service)
    (clientPackages : list ClientPackage) (session : option ident)
    (f : FormData) (b : body)
    (Hsent : handleSubmit services clientPackages session f = inr b) :
  exists it,
    items b = Some [it] /\
    (0 < quantity it)%Z /\ quantity it = form_quantity f /\
    saleType b = Some (form_saleType f) /\
    generalDiscountValue b = Some (Js.Num 0) /\
    (form_saleType f = "03"%string ->
     exists p,
       selectedPackage clientPackages f = Some p /\
       (quantity it <= availableQuantity p)%Z /\
       clientId b = Some (cp_clientId p) /\
       packageId b = form_packageId f /\
       discountValue it = Some (Js.Num 0)) /\
    (form_saleType f <> "03"%string ->
     0 < unitPrice it /\ clientId b = form_clientId f /\ packageId b = None /\
     discountType it = Some (form_discountType f) /\
     discountValue it = Some (form_discountValue f)).
Proof.
  destruct (String.eqb_spec (form_saleType f) "03") as [Htype|Htype].
  - destruct (handleSubmit_package _ _ _ _ _ Htype Hsent) as (p & Hp & Hq & ->).
    eexists. split; [reflexivity|]. cbn.
    split; [lia|]. split; [reflexivity|]. split; [reflexivity|].
    split; [reflexivity|]. split; [|intros H; contradiction].
    intros _. exists p. repeat split; auto; try lia.
    rewrite Htype. reflexivity.
  - destruct (handleSubmit_sale _ _ _ _ _ Htype Hsent) as (s & Hs & Hq & ->).
    eexists. split; [reflexivity|]. cbn.
    split; [lia|]. split; [reflexivity|]. split; [reflexivity|].
    split; [reflexivity|]. split; [intros H; contradiction|].
    intros _. apply String.eqb_neq in Htype. rewrite Htype.
    split; [apply calculatedUnitPrice_positive | now repeat split].
Qed.

Lemma handleSubmit_request_witness :
  exists it,
    items Sample.sent_consumption = Some [it] /\ (0 < quantity it)%Z.
Proof.
  destruct (handleSubmit_request Sample.catalogue Sample.wallet (Some 1%nat)
              Sample.form_consumption Sample.sent_consumption eq_refl)
    as (it & Hit & Hq & _).
  exists it. split; assumption.
Defined.

Lemma unsigned_seen (s : string) (v : Q) :
  forall seen mantissa scale point,
    Js.unsigned s seen mantissa scale point = Some v ->
    Js.unsigned s true mantissa scale point = Some v.
Proof.
  induction s as [|c s IH]; intros seen mantissa scale point; cbn [Js.unsigned].
  - destruct seen; [auto | discriminate].
  - destruct (Ascii.eqb c "."); [destruct point; [auto | apply IH]|].
    destruct (Js.digit c); auto.
Qed.

(** A text without sign that reads as a number reads as the same number
    behind the text of 0: that is what the item loop accumulates for a
    fixed discount sent as a string. *)
Lemma zero_prefixed (x : Js.jsnum) (v : Q) :
  Js.to_number x = Some v ->
  unsigned_value x ->
  Js.positive v = true ->
  Js.to_number (Js.plus (Js.Num 0) x) = Some v \/
  exists q, x = Js.Num q /\ Js.plus (Js.Num 0) x = Js.Num (0 + q) /\ v = q.
Proof.
  intros Hv Hx Hpos. destruct x as [q|s].
  - right. exists q. cbn in Hv. injection Hv as <-. now repeat split.
  - left. cbn [Js.plus Js.text_of Js.to_number] in *.
    change (Js.toString 0) with "0"%string.
    destruct s as [|c s].
    + cbn in Hv. injection Hv as <-. discriminate Hpos.
    + destruct Hx as [Hminus Hplus].
      unfold Js.Number in Hv.
      apply Ascii.eqb_neq in Hminus, Hplus. rewrite Hminus, Hplus in Hv.
      change (("0" ++ String c s)%string) with (String "0" (String c s)).
      unfold Js.Number.
      change (Ascii.eqb "0" "-") with false.
      change (Ascii.eqb "0" "+") with false.
      cbv iota.
      change (Js.unsigned (String "0" (String c s)) false 0 1 false)
        with (Js.unsigned (String c s) true 0 1 false).
      exact (unsigned_seen _ _ _ _ _ _ Hv).
Qed.

Lemma not_positive_zero (v : Q) : 0 <= v -> Js.positive v = false -> v == 0.
Proof.
  intros H0 Hpos. unfold Js.positive in Hpos.
  apply negb_false_iff, Qle_bool_iff in Hpos. now apply Qle_antisym.
Qed.

(** The total the form previews for a sale of type "01" or "02", with a
    discount of type "percentage" or "fixed" whose value, held as a number
    or as a text without sign, reads as a number that is not negative, is
    the total the server stores for the request the form sends, clamped at
    0. *)
Theorem preview_is_clamped_total (services : list Service)
    (clientPackages : list ClientPackage) (session : option ident)
    (token : credential) (f : FormData) (b : body) (now : nat) (d d' : Db)
    (saleId : ident) (date : nat) (total : option Q) (type : option string)
    (v : Q)
    (Htype : form_saleType f <> "03"%string)
    (Hkind : form_discountType f = "percentage"%string \/
             form_discountType f = "fixed"%string)
    (Hreads : Js.to_number (form_discountValue f) = Some v)
    (Hplain : unsigned_value (form_discountValue f))
    (Hvalue : 0 <= v)
    (Hsent : handleSubmit services clientPackages session f = inr b)
    (Hpost : POST token b now d = (Created saleId date total type, d')) :
  exists t,
    total = Some t /\
    is_number (calculateTotal services clientPackages f) (Qmax 0 t).
Proof.
  destruct (handleSubmit_sale _ _ _ _ _ Htype Hsent) as (s & Hs & _ & Hb).
  destruct (RouteFacts.POST_created _ _ _ _ _ _ _ _ _ Hpost)
    as (_ & _ & firstItem & rest & _ & _ & Hi & _ & _ & _ & Ht & _).
  pose proof Htype as Hneq. apply String.eqb_neq in Hneq.
  subst b. unfold payload in Hi, Ht. rewrite Hneq in Hi, Ht.
  cbn [items] in Hi. injection Hi as <- <-.
  unfold calculateTotal. rewrite Hneq, Hs, Hreads.
  set (sub := calculateProgressivePrice (form_saleType f) (form_quantity f)
                (service_name s) (priceRanges s)) in *.
  rewrite Ht. unfold final_total, general_discount, loop_subtotal, loop_discount,
    line_discount, line_subtotal, discount_amount.
  cbn [map fold_left calculatedSubtotal discountType discountValue
       generalDiscountType generalDiscountValue Js.str_is Js.gt0 Js.to_number
       Js.percent Js.given].
  rewrite Hreads.
  change (Js.positive 0) with false.
  destruct (Js.positive v) eqn:Hpos.
  - destruct Hkind as [-> | ->];
      cbn [String.eqb Ascii.eqb Bool.eqb andb option_map].
    + cbn [Js.plus Js.minus Js.to_number is_number].
      eexists. split; [reflexivity|].
      apply Q.max_compat; [reflexivity | ring].
    + destruct (zero_prefixed _ _ Hreads Hplain Hpos)
        as [Hz | (q & Hq & Hsum & Hvq)].
      * unfold Js.minus at 2. rewrite Hz.
        cbn [Js.minus Js.to_number is_number].
        eexists. split; [reflexivity|].
        apply Q.max_compat; [reflexivity | ring].
      * rewrite Hsum. cbn [Js.minus Js.to_number is_number].
        eexists. split; [reflexivity|].
        apply Q.max_compat; [reflexivity | rewrite Hvq; ring].
  - pose proof (not_positive_zero v Hvalue Hpos) as Hzero.
    destruct Hkind as [-> | ->];
      cbn [String.eqb Ascii.eqb Bool.eqb andb option_map Js.plus Js.minus
           Js.to_number is_number];
      (eexists; split; [reflexivity|]);
      apply Q.max_compat; try reflexivity; rewrite Hzero; field.
Qed.

Lemma preview_is_clamped_total_witness :
  exists t,
    final_total Sample2.sent_typed
      (match items Sample2.sent_typed with Some l => l | None => [] end)
    = Some t /\
    is_number (calculateTotal Sample.catalogue [] Sample2.form_typed)
      (Qmax 0 t).
Proof.
  refine (preview_is_clamped_total Sample.catalogue [] (Some 1%nat) (Signed 1)
            Sample2.form_typed Sample2.sent_typed 0 Sample.shop _ 1 0 _
            (Some "01"%string) 20 _ (or_intror eq_refl) eq_refl _ _ eq_refl
            eq_refl).
  - discriminate.
  - split; discriminate.
  - discriminate.
Defined.

Lemma selectedPackage_id (clientPackages : list ClientPackage) (f : FormData)
    (p : ClientPackage) :
  selectedPackage clientPackages f = Some p ->
  form_packageId f = Some (cp_id p) /\ In p clientPackages.
Proof.
  unfold selectedPackage.
  destruct (negb (String.eqb (form_saleType f) "03")); [discriminate|].
  destruct (form_packageId f) as [k|]; [|discriminate].
  intros H. apply find_some in H as [Hin Hk].
  apply Nat.eqb_eq in Hk. now subst k.
Qed.

(** When the balance the page knows of a package is not above the balance
    of the ledger, a consumption that the form accepts is accepted by the
    server too: the sale is created and the package is debited by the
    quantity of the form. *)
Theorem accepted_consumption_is_created (services : list Service)
    (clientPackages : list ClientPackage) (session : option ident)
    (token : credential) (f : FormData) (b : body) (now : nat) (d : Db)
    (user : user_row) (pk : ClientPackage) (p : package_row)
    (Htype : form_saleType f = "03"%string)
    (Hsent : handleSubmit services clientPackages session f = inr b)
    (Hauth : authenticateUser token d = inr user)
    (Hpay : form_paymentMethod f <> EmptyString)
    (Hsel : selectedPackage clientPackages f = Some pk)
    (Hfind : Ledger.lookup (cp_id pk) d = Some p)
    (Hbalance : (availableQuantity pk <= pkg_available_quantity p)%Z) :
  exists d',
    status_of (fst (POST token b now d)) = 201%nat /\
    snd (POST token b now d) = d' /\
    Ledger.lookup (cp_id pk) d' = Some (Ledger.debit (form_quantity f) p).
Proof.
  destruct (handleSubmit_package _ _ _ _ _ Htype Hsent) as (pk' & Hsel' & Hq & Hb).
  rewrite Hsel in Hsel'. injection Hsel' as <-.
  destruct (selectedPackage_id _ _ _ Hsel) as [Hid _].
  assert (Hpay' : Js.truthy_string (paymentMethod b) = true).
  { subst b. cbn. destruct (form_paymentMethod f); [contradiction | reflexivity]. }
  destruct (RouteMore.POST_consumes token b now d user (cp_clientId pk) (cp_id pk)
              (mk_item_in None (cp_serviceName pk) (form_quantity f)
                 (cp_unitPrice pk)
                 (Some (cp_unitPrice pk * inject_Z (form_quantity f)))
                 (Some "percentage"%string) (Some (Js.Num 0)))
              [] p Hauth)
    as (d' & Hrun & Hfound & _); try assumption.
  - subst b. reflexivity.
  - subst b. unfold payload. rewrite Htype. reflexivity.
  - subst b. unfold payload. rewrite Htype. reflexivity.
  - subst b. cbn. exact Hid.
  - cbn. lia.
  - exists d'. rewrite Hrun. cbn. repeat split. exact Hfound.
Qed.

Lemma accepted_consumption_is_created_witness :
  exists d',
    status_of (fst (POST (Signed 1) Sample.sent_consumption 0
                      Sample.shop_with_package)) = 201%nat /\
    snd (POST (Signed 1) Sample.sent_consumption 0 Sample.shop_with_package)
    = d' /\
    Ledger.lookup 7 d'
    = Some (Ledger.debit 3
              (mk_package 7 1 2 3 10 0 10 (Some (50 # 1)) (Some (500 # 1)) true)).
Proof.
  refine (accepted_consumption_is_created Sample.catalogue Sample.wallet
            (Some 1%nat) (Signed 1) Sample.form_consumption
            Sample.sent_consumption 0 Sample.shop_with_package
            (mk_user 1 "Ana" "Lima" "ana@shop" false)
            (mk_client_package 7 1 2 "Atraso" 10 50)
            (mk_package 7 1 2 3 10 0 10 (Some (50 # 1)) (Some (500 # 1)) true)
            eq_refl eq_refl eq_refl _ eq_refl eq_refl _).
  - discriminate.
  - simpl. lia.
Defined.

(** Every client the form offers for a package consumption has a package to
    offer: once the client is chosen the list of packages is not empty, all
    its packages are the client's and hold credits, and each of them can be
    selected. *)
Theorem offered_client_has_packages (f : FormData)
    (clientPackages : list ClientPackage) (clients : list client_row)
    (c : client_row)
    (Hoffered : In c (clientsWithPackages f clientPackages clients)) :
  let chosen := choose_client f (client_id c) in
  availablePackages chosen clientPackages <> [] /\
  Forall (fun pk =>
            cp_clientId pk = client_id c /\ (0 < availableQuantity pk)%Z /\
            exists pk',
              selectedPackage clientPackages (choose_package chosen (cp_id pk))
              = Some pk' /\
              cp_id pk' = cp_id pk)
    (availablePackages chosen clientPackages).
Proof.
  unfold clientsWithPackages in Hoffered.
  destruct (String.eqb_spec (form_saleType f) "03") as [Htype|Htype];
    cbn [negb] in Hoffered; [|contradiction].
  apply filter_In in Hoffered as [_ Hex].
  apply existsb_exists in Hex as (k & Hk & Hck). apply Nat.eqb_eq in Hck.
  apply in_map_iff in Hk as (pk & Hpk & Hin).
  apply filter_In in Hin as [Hin Hpos].
  cbn zeta. unfold availablePackages, choose_client. cbn [form_saleType form_clientId].
  rewrite Htype. cbn [String.eqb Ascii.eqb Bool.eqb]. split.
  - intros Hnil.
    assert (Hmem : In pk (filter (fun pkg =>
                                    (cp_clientId pkg =? client_id c)%nat
                                    && (0 <? availableQuantity pkg)%Z)
                            clientPackages)).
    { apply filter_In. split; [exact Hin|].
      rewrite Hpos, andb_true_r. apply Nat.eqb_eq. congruence. }
    rewrite Hnil in Hmem. contradiction.
  - apply Forall_forall. intros q Hq.
    apply filter_In in Hq as [Hq Hcond].
    apply andb_prop in Hcond as [Hown Hbal].
    apply Nat.eqb_eq in Hown. apply Z.ltb_lt in Hbal.
    split; [exact Hown|]. split; [exact Hbal|].
    unfold selectedPackage, choose_package. cbn [form_saleType form_packageId].
    cbn [String.eqb Ascii.eqb Bool.eqb negb].
    destruct (find (fun p => (cp_id p =? cp_id q)%nat) clientPackages) as [pk'|] eqn:E.
    + exists pk'. split; [reflexivity|].
      apply find_some in E as [_ E]. now apply Nat.eqb_eq in E.
    + exfalso. apply (find_none _ _ E) in Hq. now rewrite Nat.eqb_refl in Hq.
Qed.

Lemma offered_client_has_packages_witness :
  availablePackages (choose_client Sample2.form_03 1) Sample.wallet <> [].
Proof.
  refine (proj1 (offered_client_has_packages Sample2.form_03 Sample.wallet
                   [mk_client 1 "Cliente"; mk_client 2 "Outro"]
                   (mk_client 1 "Cliente") _)).
  vm_compute. tauto.
Defined.

(** The preview of a sale of type "01" or "02" (no package selected) is
    never a negative number, whatever is typed as discount; it is a number
    unless the discount typed reads as none. *)
Theorem preview_not_negative (services : list Service)
    (clientPackages : list ClientPackage) (f : FormData)
    (Hnone : selectedPackage clientPackages f = None) :
  match calculateTotal services clientPackages f with
  | Some t => 0 <= t
  | None => Js.to_number (form_discountValue f) = None
  end.
Proof.
  unfold calculateTotal. rewrite Hnone.
  assert (H : match
                match selectedService services f with
                | Some service =>
                    option_map
                      (fun x =>
                         Qmax 0
                           (calculateProgressivePrice (form_saleType f)
                              (form_quantity f) (service_name service)
                              (priceRanges service) - x))
                      (if String.eqb (form_discountType f) "percentage"
                       then
                        option_map
                          (fun v =>
                             calculateProgressivePrice (form_saleType f)
                               (form_quantity f) (service_name service)
                               (priceRanges service) * (v / 100))
                          (Js.to_number (form_discountValue f))
                       else Js.to_number (form_discountValue f))
                | None => Some 0
                end
              with
              | Some t => 0 <= t
              | None => Js.to_number (form_discountValue f) = None
              end).
  { destruct (selectedService services f); [|apply Qle_refl].
    destruct (String.eqb (form_discountType f) "percentage");
      destruct (Js.to_number (form_discountValue f)); cbn [option_map];
      try reflexivity; apply Q.le_max_l. }
  now destruct (String.eqb (form_saleType f) "03").
Qed.

Lemma preview_not_negative_witness :
  match calculateTotal Sample.catalogue [] Sample2.form_typed with
  | Some t => 0 <= t
  | None => Js.to_number (form_discountValue Sample2.form_typed) = None
  end.
Proof.
  exact (preview_not_negative Sample.catalogue [] Sample2.form_typed eq_refl).
Defined.

End PageMore.
